(** * InvoiceFlow: invoice arithmetic, status derivation, statistics and
      document export

    A shallow embedding of the computational core of the InvoiceFlow
    application:

    - [client/src/lib/invoiceUtils.ts]: [calculateInvoiceTotal],
      [isInvoiceOverdue], [getInvoiceStatus], [validateInvoiceData],
      [daysBetween], [formatInvoiceNumber], [getStatusColor];
    - the two invoice forms: their lists of items, [calculateSubtotal],
      [calculateTotal] and what they submit;
    - the storage layer (in the sources it follows
      [client/src/pages/Landing.tsx]): [getInvoiceStats], the lookups and
      the deletions of invoices and clients;
    - [server/routes.ts]: the PDF and the Excel export routes;
    - [shared/schema.ts]: the rows these functions read.

    Conventions of the embedding.

    - Numbers come in two forms.  [Binary64] has the numbers of JavaScript
      as they are, binary64 floating-point numbers with their rounding,
      their infinities and [NaN]; the arithmetic of [calculateInvoiceTotal]
      is stated and proved there.  [JsNumber] has [NaN] and exact rationals
      ([Qc], canonical fractions); it carries the functions whose
      properties here do not depend on how an operation rounds: which
      accumulator a total is added to, in which order, what is printed for
      [NaN], which lines a document has.
    - A string is the sequence of the bytes of its UTF-8 encoding.
    - The built-ins of the host ([parseFloat], [Date.parse], the system
      clock, the local time zone adjustment) are fields of a [Host] record
      and the results are proved for an arbitrary host; the one assumption
      made on a host is stated where it is used.
    - A [Date] object is represented by its time value: milliseconds since
      the epoch, or the invalid date. *)

From Stdlib Require Import ZArith NArith QArith Qcanon Qround List String Ascii Bool.
From Stdlib Require Import DecimalString DecimalN DecimalPos Lia Lqa Qpower.
From Stdlib Require Import Permutation.
From Stdlib Require Floats.
Import ListNotations.

Set Implicit Arguments.

(* ------------------------------------------------------------------ *)
(** * JavaScript numbers as they are: binary64 *)

Module Binary64.

Import PrimFloat SpecFloat FloatOps.

Local Open Scope float_scope.

(** A [number] of JavaScript is a binary64 floating-point number; [+],
    [-], [*] and [/] are the operations of IEEE 754, rounding to nearest,
    ties to even, which the primitive floats of Rocq implement. *)
Definition number : Type := float.

Definition NaN : number := nan.

(** The rational a number stands for; the infinities and [NaN] stand for
    none, and both zeros stand for 0. *)
Definition real (x : number) : option Q :=
  match Prim2SF x with
  | S754_zero _ => Some 0%Q
  | S754_finite s m e =>
      let v := (inject_Z (Zpos m) * Qpower 2 e)%Q in
      Some (if s then (- v)%Q else v)
  | S754_infinity _ | S754_nan => None
  end.

(** [Number.isFinite]. *)
Definition isFinite (x : number) : bool :=
  match real x with
  | Some _ => true
  | None => false
  end.

(** [calculateInvoiceTotal(subtotal, discountPercent, taxPercent)] of
    [client/src/lib/invoiceUtils.ts]. *)
Definition calculateInvoiceTotal (subtotal discountPercent taxPercent : number) : number :=
  let discountAmount := (subtotal * discountPercent) / 100 in
  let taxableAmount := subtotal - discountAmount in
  let taxAmount := (taxableAmount * taxPercent) / 100 in
  taxableAmount + taxAmount.

(** The subtotal [items.reduce((sum, item) => sum + ..., 0)] makes of the
    amounts of the items, and the [+=] of an accumulator over its
    addends. *)
Definition sum (amounts : list number) : number := fold_left add amounts 0.

(** The accumulators of [getInvoiceStats] of the storage layer.  An
    invoice is given by the case of the [switch] it takes and its parsed
    total: [Paid], [Overdue] for "overdue" and for "pending" with the due
    date before now, [Pending] for the other branch of "pending" and for
    the [default] case. *)
Inductive Case : Type := Paid | Overdue | Pending.

Record Amounts : Type := {
  pendingAmount : number;
  paidAmount : number;
  overdueAmount : number
}.

Definition tally (acc : Amounts) (invoice : Case * number) : Amounts :=
  let total := snd invoice in
  match fst invoice with
  | Paid =>
      {| pendingAmount := pendingAmount acc; paidAmount := paidAmount acc + total;
         overdueAmount := overdueAmount acc |}
  | Overdue =>
      {| pendingAmount := pendingAmount acc; paidAmount := paidAmount acc;
         overdueAmount := overdueAmount acc + total |}
  | Pending =>
      {| pendingAmount := pendingAmount acc + total; paidAmount := paidAmount acc;
         overdueAmount := overdueAmount acc |}
  end.

Definition scan (userInvoices : list (Case * number)) : Amounts :=
  fold_left tally userInvoices
            {| pendingAmount := 0; paidAmount := 0; overdueAmount := 0 |}.

(** ** Operations that do not round *)

(** [r] stands for the rational [q]. *)
Definition sameValue (r : number) (q : option Q) : bool :=
  match real r, q with
  | Some c, Some v => Qeq_bool c v
  | _, _ => false
  end.

Definition lift2 (f : Q -> Q -> Q) (a b : option Q) : option Q :=
  match a, b with
  | Some x, Some y => Some (f x y)
  | _, _ => None
  end.

Definition over100 (a : option Q) : option Q :=
  option_map (fun x => (x / 100)%Q) a.

(** Each of the six operations of [calculateInvoiceTotal] returns the
    exact result: its operands are finite and nothing is rounded. *)
Definition roundsNowhere (subtotal discountPercent taxPercent : number) : bool :=
  let product := subtotal * discountPercent in
  let discountAmount := product / 100 in
  let taxableAmount := subtotal - discountAmount in
  let taxed := taxableAmount * taxPercent in
  let taxAmount := taxed / 100 in
  sameValue product (lift2 Qmult (real subtotal) (real discountPercent))
  && sameValue discountAmount (over100 (real product))
  && sameValue taxableAmount (lift2 Qminus (real subtotal) (real discountAmount))
  && sameValue taxed (lift2 Qmult (real taxableAmount) (real taxPercent))
  && sameValue taxAmount (over100 (real taxed))
  && sameValue (taxableAmount + taxAmount) (lift2 Qplus (real taxableAmount) (real taxAmount)).

(** Every addition of [sum amounts], started from [acc], returns the
    exact result. *)
Fixpoint addsExactly (acc : number) (amounts : list number) : bool :=
  match amounts with
  | [] => true
  | x :: rest =>
      sameValue (acc + x) (lift2 Qplus (real acc) (real x))
      && addsExactly (acc + x) rest
  end.

(** The sum of the rationals that finite amounts stand for. *)
Fixpoint valueSum (amounts : list number) : Q :=
  match amounts with
  | [] => 0%Q
  | x :: rest =>
      (match real x with Some q => q | None => 0 end + valueSum rest)%Q
  end.

Definition Case_eqb (a b : Case) : bool :=
  match a, b with
  | Paid, Paid | Overdue, Overdue | Pending, Pending => true
  | _, _ => false
  end.

(** The totals that are added to the accumulator of case [c], in the
    order of the list. *)
Definition addends (c : Case) (userInvoices : list (Case * number)) : list number :=
  map snd (filter (fun invoice => Case_eqb (fst invoice) c) userInvoices).

(** ** The other order, in the words of the specification *)

(** "Computing tax on the raw subtotal while ignoring the discount":
    [subtotal - subtotal*discount/100 + subtotal*tax/100]. *)
Definition taxOnRawSubtotal (subtotal discountPercent taxPercent : number) : number :=
  (subtotal - (subtotal * discountPercent) / 100) + (subtotal * taxPercent) / 100.

(** Its operations return the exact results. *)
Definition rawRoundsNowhere (subtotal discountPercent taxPercent : number) : bool :=
  let product := subtotal * discountPercent in
  let discountAmount := product / 100 in
  let discounted := subtotal - discountAmount in
  let taxed := subtotal * taxPercent in
  let taxAmount := taxed / 100 in
  sameValue product (lift2 Qmult (real subtotal) (real discountPercent))
  && sameValue discountAmount (over100 (real product))
  && sameValue discounted (lift2 Qminus (real subtotal) (real discountAmount))
  && sameValue taxed (lift2 Qmult (real subtotal) (real taxPercent))
  && sameValue taxAmount (over100 (real taxed))
  && sameValue (discounted + taxAmount) (lift2 Qplus (real discounted) (real taxAmount)).

Arguments real x%_float.
Arguments isFinite x%_float.
Arguments calculateInvoiceTotal (subtotal discountPercent taxPercent)%_float.
Arguments taxOnRawSubtotal (subtotal discountPercent taxPercent)%_float.
Arguments roundsNowhere (subtotal discountPercent taxPercent)%_float.
Arguments rawRoundsNowhere (subtotal discountPercent taxPercent)%_float.

End Binary64.

(* ------------------------------------------------------------------ *)
(** * Numbers up to rounding: [NaN] and exact rationals *)

Module JsNumber.

Local Open Scope Qc_scope.

Inductive number : Type :=
| NaN : number
| Fin : Qc -> number.

(** Numeric literals of the sources. *)
Definition ofZ (z : Z) : Qc := Q2Qc (inject_Z z).
Definition lit (z : Z) : number := Fin (ofZ z).

Definition add (a b : number) : number :=
  match a, b with
  | Fin x, Fin y => Fin (x + y)
  | _, _ => NaN
  end.

Definition sub (a b : number) : number :=
  match a, b with
  | Fin x, Fin y => Fin (x - y)
  | _, _ => NaN
  end.

Definition mul (a b : number) : number :=
  match a, b with
  | Fin x, Fin y => Fin (x * y)
  | _, _ => NaN
  end.

(** [a / b].  The sources divide by the literal [100] only; a zero divisor,
    whose quotient is an infinity or [NaN] in JavaScript, is mapped to
    [NaN]. *)
Definition div (a b : number) : number :=
  match a, b with
  | Fin x, Fin y => if Qc_eq_dec y 0 then NaN else Fin (x / y)
  | _, _ => NaN
  end.

(** [a < b] and [a > b]: false as soon as one side is [NaN]. *)
Definition lt (a b : number) : bool :=
  match a, b with
  | Fin x, Fin y => match Qccompare x y with Lt => true | _ => false end
  | _, _ => false
  end.

Definition gt (a b : number) : bool := lt b a.

(** [ToBoolean] of a number: [NaN] and [0] are falsy. *)
Definition truthy (a : number) : bool :=
  match a with
  | NaN => false
  | Fin x => if Qc_eq_dec x 0 then false else true
  end.

(** [a || b] on numbers. *)
Definition or_else (a b : number) : number := if truthy a then a else b.

(** ** [Number.prototype.toFixed(2)]

    ECMAScript: "Let n be an integer for which n / 10^f - x is as close to
    zero as possible.  If there are two such n, pick the larger n"; the
    digits of [n] are then split before the last two.  Magnitudes of
    [10^21] and more, which JavaScript prints in exponent notation, are
    outside the model. *)
Definition nearestHundredths (x : Qc) : Z :=
  Qfloor (x * ofZ 100 + Q2Qc (1 # 2)).

Definition digitChar (d : N) : ascii := ascii_of_N (48 + d).

Definition integerDigits (n : N) : string :=
  NilEmpty.string_of_uint (N.to_uint n).

Definition fractionDigits2 (n : N) : string :=
  String (digitChar ((n / 10) mod 10)) (String (digitChar (n mod 10)) EmptyString).

(** For [x >= 0]. *)
Definition fixed2 (x : Qc) : string :=
  let n := Z.to_N (nearestHundredths x) in
  (integerDigits (n / 100) ++ "." ++ fractionDigits2 (n mod 100))%string.

Definition toFixed2 (x : number) : string :=
  match x with
  | NaN => "NaN"%string
  | Fin q =>
      match Qccompare q 0 with
      | Lt => ("-" ++ fixed2 (- q))%string
      | _ => fixed2 q
      end
  end.

(** ** Reading a plain decimal numeral

    [readDecimal] reads [ddd], [ddd.ddd] and their negations, the form in
    which [toFixed] prints and in which the database driver returns a
    [decimal] column; [parseFloat] yields the same number on these strings.
    Any other string is read as [NaN]. *)
Fixpoint splitAtDot (s : string) : string * option string :=
  match s with
  | EmptyString => (EmptyString, None)
  | String c r =>
      if Ascii.eqb c "." then (EmptyString, Some r)
      else let (a, b) := splitAtDot r in (String c a, b)
  end.

Definition readDigits (s : string) : option N :=
  match s with
  | EmptyString => None
  | _ => option_map N.of_uint (NilEmpty.uint_of_string s)
  end.

Definition ofN (n : N) : Qc := ofZ (Z.of_N n).

Definition readUnsigned (s : string) : number :=
  match splitAtDot s with
  | (ip, None) =>
      match readDigits ip with
      | Some i => Fin (ofN i)
      | None => NaN
      end
  | (ip, Some fp) =>
      match readDigits ip, readDigits fp with
      | Some i, Some f => Fin (ofN i + ofN f / ofN (10 ^ N.of_nat (String.length fp)))
      | _, _ => NaN
      end
  end.

Definition readDecimal (s : string) : number :=
  match s with
  | String "-" r =>
      match readUnsigned r with
      | Fin q => Fin (- q)
      | NaN => NaN
      end
  | _ => readUnsigned s
  end.

End JsNumber.

Import JsNumber.

(* ------------------------------------------------------------------ *)
(** * JavaScript strings and loosely typed values *)

Module JsValue.

Local Open Scope string_scope.

(** [ToBoolean] of a string: only the empty string is falsy. *)
Definition truthyStr (s : string) : bool :=
  match s with
  | EmptyString => false
  | _ => true
  end.

(** A nullable column or an optional form field. *)
Definition truthyOpt (o : option string) : bool :=
  match o with
  | Some s => truthyStr s
  | None => false
  end.

(** [o || fallback]. *)
Definition orStr (o : option string) (fallback : string) : string :=
  match o with
  | Some s => if truthyStr s then s else fallback
  | None => fallback
  end.

(** ** [String.prototype.trim]

    [trim] strips the white space and the line terminators of ECMAScript:
    TAB, LF, VT, FF, CR and SP, which take one byte, and U+00A0, U+1680,
    U+2000 to U+200A, U+2028, U+2029, U+202F, U+205F, U+3000 and U+FEFF,
    given here by the two or three bytes of their UTF-8 encoding.  In
    well-formed UTF-8 these bytes in a row are that character and nothing
    else, at the start of a string and at its end. *)
Definition isWhiteSpace (c : ascii) : bool :=
  let n := N_of_ascii c in
  ((9 <=? n) && (n <=? 13) || (n =? 32))%N.

(** U+00A0 is the bytes 194 160. *)
Definition isWhiteSpace2 (a b : ascii) : bool :=
  ((N_of_ascii a =? 194) && (N_of_ascii b =? 160))%N.

(** U+1680 is 225 154 128; U+2000 to U+200A are 226 128 128 to
    226 128 138; U+2028, U+2029 and U+202F are 226 128 168, 226 128 169 and
    226 128 175; U+205F is 226 129 159; U+3000 is 227 128 128; U+FEFF is
    239 187 191. *)
Definition isWhiteSpace3 (a b c : ascii) : bool :=
  let x := N_of_ascii a in
  let y := N_of_ascii b in
  let z := N_of_ascii c in
  ((x =? 225) && (y =? 154) && (z =? 128)
   || (x =? 226) && (y =? 128)
      && ((128 <=? z) && (z <=? 138) || (z =? 168) || (z =? 169) || (z =? 175))
   || (x =? 226) && (y =? 129) && (z =? 159)
   || (x =? 227) && (y =? 128) && (z =? 128)
   || (x =? 239) && (y =? 187) && (z =? 191))%N.

Fixpoint trimStart (s : string) : string :=
  match s with
  | EmptyString => EmptyString
  | String a r1 =>
      if isWhiteSpace a then trimStart r1
      else
        match r1 with
        | EmptyString => s
        | String b r2 =>
            if isWhiteSpace2 a b then trimStart r2
            else
              match r2 with
              | EmptyString => s
              | String c r3 => if isWhiteSpace3 a b c then trimStart r3 else s
              end
        end
  end.

(** The same from the end, on the bytes in reverse order. *)
Fixpoint dropWhiteSpaceEnd (reversed : list ascii) : list ascii :=
  match reversed with
  | [] => []
  | c :: r1 =>
      if isWhiteSpace c then dropWhiteSpaceEnd r1
      else
        match r1 with
        | [] => reversed
        | b :: r2 =>
            if isWhiteSpace2 b c then dropWhiteSpaceEnd r2
            else
              match r2 with
              | [] => reversed
              | a :: r3 => if isWhiteSpace3 a b c then dropWhiteSpaceEnd r3 else reversed
              end
        end
  end.

Definition trimEnd (s : string) : string :=
  string_of_list_ascii (rev (dropWhiteSpaceEnd (rev (list_ascii_of_string s)))).

Definition trim (s : string) : string := trimEnd (trimStart s).

(** The values a field of an [any]-typed invoice object holds here. *)
Inductive jsval : Type :=
| VUndefined : jsval
| VNull : jsval
| VStr : string -> jsval
| VNum : number -> jsval.

(** [ToBoolean]. *)
Definition truthyVal (v : jsval) : bool :=
  match v with
  | VUndefined | VNull => false
  | VStr s => truthyStr s
  | VNum n => truthy n
  end.

End JsValue.

Import JsValue.

(* ------------------------------------------------------------------ *)
(** * JavaScript dates *)

Module JsDate.

Local Open Scope Z_scope.

(** The time value of a [Date]: milliseconds since the epoch, or [None]
    for the invalid date (time value [NaN]). *)
Definition timeValue : Type := option Z.

Definition msPerDay : Z := 86400000.

(** [a < b] on dates compares the time values; false if one is invalid. *)
Definition date_lt (a b : timeValue) : bool :=
  match a, b with
  | Some x, Some y => x <? y
  | _, _ => false
  end.

(** [d.setHours(0, 0, 0, 0)] under a local time zone adjustment of [tza]
    milliseconds: [UTC(MakeDate(Day(LocalTime(t)), 0))]. *)
Definition setHours0 (tza : Z) (d : timeValue) : timeValue :=
  match d with
  | Some t => Some (((t + tza) / msPerDay) * msPerDay - tza)
  | None => None
  end.

(** [TimeClip]. *)
Definition timeClip (n : number) : timeValue :=
  match n with
  | NaN => None
  | Fin q =>
      let t := if Qle_bool 0 q then Qfloor q else Qceiling q in
      if Z.abs t >? 8640000000000000 then None else Some t
  end.

End JsDate.

Import JsDate.

(* ------------------------------------------------------------------ *)
(** * The host *)

(** The built-ins and the environment the sources call: [parseFloat],
    [Date.parse], the system clock read by [new Date()] and the local time
    zone adjustment, taken constant. *)
Record Host : Type := {
  parseFloat : string -> number;
  dateParse : string -> timeValue;
  clock : Z;
  localTZA : Z
}.

(** [new Date()]. *)
Definition newDateNow (h : Host) : timeValue := Some (clock h).

(** [new Date(s)] for a string [s]. *)
Definition newDateStr (h : Host) (s : string) : timeValue := dateParse h s.

(** [new Date(v)] for a loosely typed [v]: a string is parsed, anything
    else goes through [ToNumber] ([undefined] is [NaN], [null] is [0]). *)
Definition newDateVal (h : Host) (v : jsval) : timeValue :=
  match v with
  | VStr s => dateParse h s
  | VUndefined => None
  | VNull => Some 0%Z
  | VNum n => timeClip n
  end.

(* ------------------------------------------------------------------ *)
(** * shared/schema.ts: the rows *)

Module Schema.

(** [invoices.$inferSelect].  [decimal] and [date] columns are strings;
    columns without [notNull] are nullable.  The timestamp columns play no
    part here and are left out. *)
Record Invoice : Type := {
  id : Z;
  userId : Z;
  clientId : Z;
  invoiceNumber : string;
  issueDate : string;
  dueDate : string;
  status : string;
  subtotal : string;
  discount : option string;
  tax : option string;
  total : string;
  notes : option string;
  terms : option string
}.

(** [clients.$inferSelect]. *)
Record Client : Type := {
  clientName : string;
  email : option string;
  phone : option string;
  contactPerson : option string;
  address : option string
}.

(** [invoiceItems.$inferSelect]. *)
Record InvoiceItem : Type := {
  description : string;
  quantity : string;
  rate : string;
  amount : string
}.

(** [InvoiceWithDetails = Invoice & { client; items }]. *)
Record InvoiceWithDetails : Type := {
  invoice : Invoice;
  client : Client;
  items : list InvoiceItem
}.

End Schema.

(* ------------------------------------------------------------------ *)
(** * client/src/lib/invoiceUtils.ts *)

Module InvoiceUtils.

Local Open Scope string_scope.

(** [calculateInvoiceTotal(subtotal, discountPercent, taxPercent)] on
    numbers up to rounding, as the forms call it; the function on the
    numbers of JavaScript is [Binary64.calculateInvoiceTotal]. *)
Definition calculateInvoiceTotal (subtotal discountPercent taxPercent : number) : number :=
  let discountAmount := div (mul subtotal discountPercent) (lit 100) in
  let taxableAmount := sub subtotal discountAmount in
  let taxAmount := div (mul taxableAmount taxPercent) (lit 100) in
  add taxableAmount taxAmount.

(** [isInvoiceOverdue(dueDate, status)]. *)
Definition isInvoiceOverdue (h : Host) (dueDate status : string) : bool :=
  if status =? "paid" then false
  else
    let due := newDateStr h dueDate in
    let today := newDateNow h in
    let today := setHours0 (localTZA h) today in
    date_lt due today.

(** [getInvoiceStatus(currentStatus, dueDate)]. *)
Definition getInvoiceStatus (h : Host) (currentStatus dueDate : string) : string :=
  if (currentStatus =? "paid") || (currentStatus =? "draft") then currentStatus
  else if isInvoiceOverdue h dueDate currentStatus then "overdue"
  else currentStatus.

(** The [invoice: any] argument of [validateInvoiceData]: the four fields
    the function reads; an absent field is [VUndefined]. *)
Record AnyInvoice : Type := {
  invoiceNumber : jsval;
  clientId : jsval;
  issueDate : jsval;
  dueDate : jsval
}.

(** A call returns or throws a [TypeError]. *)
Inductive outcome (A : Type) : Type :=
| Returned : A -> outcome A
| Threw : outcome A.

Arguments Threw {A}.

(** [!v?.trim()]: [undefined] and [null] short-circuit to [undefined];
    a number has no [trim] method and the call throws. *)
Definition notTrimmed (v : jsval) : outcome bool :=
  match v with
  | VUndefined | VNull => Returned true
  | VStr s => Returned (negb (truthyStr (trim s)))
  | VNum _ => Threw
  end.

(** [errors.push(msg)]. *)
Definition push (errors : list string) (msg : string) : list string :=
  (errors ++ [msg])%list.

(** [validateInvoiceData(invoice)].  The result is paired with the invoice
    object as the call leaves it: the body reads its fields and assigns
    none. *)
Definition validateInvoiceData (h : Host) (invoice : AnyInvoice)
  : outcome (list string) * AnyInvoice :=
  let errors : list string := [] in
  match notTrimmed (invoiceNumber invoice) with
  | Threw => (Threw, invoice)
  | Returned blank =>
      let errors := if blank then push errors "Invoice number is required" else errors in
      let errors :=
        if negb (truthyVal (clientId invoice)) then push errors "Client is required"
        else errors in
      let errors :=
        if negb (truthyVal (issueDate invoice)) then push errors "Issue date is required"
        else errors in
      let errors :=
        if negb (truthyVal (dueDate invoice)) then push errors "Due date is required"
        else errors in
      let errors :=
        if date_lt (newDateVal h (dueDate invoice)) (newDateVal h (issueDate invoice))
        then push errors "Due date must be after issue date"
        else errors in
      (Returned errors, invoice)
  end.

End InvoiceUtils.

(* ------------------------------------------------------------------ *)
(** * The invoice form: [InvoiceForm] *)

Module InvoiceForm.

Record ItemFormData : Type := {
  description : string;
  quantity : string;
  rate : string
}.

(** [calculateSubtotal()], over the [items] state of the form. *)
Definition calculateSubtotal (h : Host) (items : list ItemFormData) : number :=
  fold_left
    (fun sum item =>
       let quantity := or_else (parseFloat h (quantity item)) (lit 0) in
       let rate := or_else (parseFloat h (rate item)) (lit 0) in
       add sum (mul quantity rate))
    items (lit 0).

(** [calculateTotal()]; [discount] and [tax] are what [form.watch] yields. *)
Definition calculateTotal (h : Host) (items : list ItemFormData)
           (discount tax : option string) : number :=
  let subtotal := calculateSubtotal h items in
  let discount := parseFloat h (orStr discount "0") in
  let tax := parseFloat h (orStr tax "0") in
  let discountAmount := div (mul subtotal discount) (lit 100) in
  let taxableAmount := sub subtotal discountAmount in
  let taxAmount := div (mul taxableAmount tax) (lit 100) in
  add taxableAmount taxAmount.

End InvoiceForm.

(* ------------------------------------------------------------------ *)
(** * The storage layer: [DatabaseStorage.getInvoiceStats] *)

Module Storage.

Local Open Scope string_scope.

Record InvoiceStats : Type := {
  totalInvoices : nat;
  pendingAmount : string;
  paidAmount : string;
  overdueAmount : string
}.

(** The three [let] accumulators of the scan. *)
Record Amounts : Type := {
  pending : number;
  paid : number;
  overdue : number
}.

Definition addPending (acc : Amounts) (total : number) : Amounts :=
  {| pending := add (pending acc) total; paid := paid acc; overdue := overdue acc |}.

Definition addPaid (acc : Amounts) (total : number) : Amounts :=
  {| pending := pending acc; paid := add (paid acc) total; overdue := overdue acc |}.

Definition addOverdue (acc : Amounts) (total : number) : Amounts :=
  {| pending := pending acc; paid := paid acc; overdue := add (overdue acc) total |}.

(** The body of [userInvoices.forEach(invoice => ...)]. *)
Definition tally (h : Host) (now : timeValue) (acc : Amounts) (invoice : Schema.Invoice)
  : Amounts :=
  let total := parseFloat h (Schema.total invoice) in
  if Schema.status invoice =? "paid" then addPaid acc total
  else if Schema.status invoice =? "pending" then
    if date_lt (newDateStr h (Schema.dueDate invoice)) now then addOverdue acc total
    else addPending acc total
  else if Schema.status invoice =? "overdue" then addOverdue acc total
  else addPending acc total.

(** The accumulators after the scan of [userInvoices]. *)
Definition scan (h : Host) (userInvoices : list Schema.Invoice) : Amounts :=
  let now := newDateNow h in
  fold_left (tally h now) userInvoices
            {| pending := lit 0; paid := lit 0; overdue := lit 0 |}.

(** [getInvoiceStats], from the rows the query returned for the user. *)
Definition getInvoiceStats (h : Host) (userInvoices : list Schema.Invoice) : InvoiceStats :=
  let totalInvoices := List.length userInvoices in
  let acc := scan h userInvoices in
  {| totalInvoices := totalInvoices;
     pendingAmount := "$" ++ toFixed2 (pending acc);
     paidAmount := "$" ++ toFixed2 (paid acc);
     overdueAmount := "$" ++ toFixed2 (overdue acc) |}.

End Storage.

(* ------------------------------------------------------------------ *)
(** * server/routes.ts: the export routes *)

Module Routes.

Local Open Scope string_scope.
Local Open Scope Z_scope.

(** What a route answers once the invoice was looked up: 404 when
    [storage.getInvoiceById] found none, the document otherwise. *)
Inductive Response (A : Type) : Type :=
| NotFound : Response A
| Sent : A -> Response A.

Arguments NotFound {A}.

(** ** PDF export.  The [jsPDF] document is the sequence of the calls made
    on it. *)
Inductive PdfOp : Type :=
| SetFontSize : Z -> PdfOp
| Text : string -> Z -> Z -> PdfOp.

Definition Doc : Type := list PdfOp.

(** [doc.setFontSize(size)] and [doc.text(s, x, y)]. *)
Definition setFontSize (size : Z) (doc : Doc) : Doc := (doc ++ [SetFontSize size])%list.
Definition text (s : string) (x y : Z) (doc : Doc) : Doc := (doc ++ [Text s x y])%list.

(** "Add company header". *)
Definition addCompanyHeader (doc : Doc) : Doc :=
  let doc := setFontSize 20 doc in
  text "INVOICE" 20 30 doc.

(** "Add invoice details". *)
Definition addInvoiceDetails (invoice : Schema.InvoiceWithDetails) (doc : Doc) : Doc :=
  let doc := setFontSize 12 doc in
  let doc := text ("Invoice #: " ++ Schema.invoiceNumber (Schema.invoice invoice)) 20 50 doc in
  let doc := text ("Issue Date: " ++ Schema.issueDate (Schema.invoice invoice)) 20 60 doc in
  text ("Due Date: " ++ Schema.dueDate (Schema.invoice invoice)) 20 70 doc.

(** "Add client details". *)
Definition addClientDetails (invoice : Schema.InvoiceWithDetails) (doc : Doc) : Doc :=
  let doc := text "Bill To:" 20 90 doc in
  let doc := text (Schema.clientName (Schema.client invoice)) 20 100 doc in
  match Schema.address (Schema.client invoice) with
  | Some address => if truthyStr address then text address 20 110 doc else doc
  | None => doc
  end.

(** The body of [invoice.items.forEach(item => ...)], on the document and
    [yPosition]. *)
Definition addItemRow (st : Doc * Z) (item : Schema.InvoiceItem) : Doc * Z :=
  let (doc, yPosition) := st in
  let doc := text (Schema.description item) 20 yPosition doc in
  let doc := text (Schema.quantity item) 120 yPosition doc in
  let doc := text ("$" ++ Schema.rate item) 140 yPosition doc in
  let doc := text ("$" ++ Schema.amount item) 160 yPosition doc in
  (doc, yPosition + 10).

(** "Add items table". *)
Definition addItemsTable (invoice : Schema.InvoiceWithDetails) (doc : Doc) : Doc * Z :=
  let yPosition := 130 in
  let doc := text "Description" 20 yPosition doc in
  let doc := text "Qty" 120 yPosition doc in
  let doc := text "Rate" 140 yPosition doc in
  let doc := text "Amount" 160 yPosition doc in
  let yPosition := yPosition + 10 in
  fold_left addItemRow (Schema.items invoice) (doc, yPosition).

(** [p && parseFloat(p) > 0] for a nullable percentage column: the string
    to print when the test holds. *)
Definition positivePercent (h : Host) (p : option string) : option string :=
  match p with
  | Some s => if truthyStr s && gt (parseFloat h s) (lit 0) then Some s else None
  | None => None
  end.

(** "Add totals". *)
Definition addTotals (h : Host) (invoice : Schema.InvoiceWithDetails) (st : Doc * Z) : Doc :=
  let (doc, yPosition) := st in
  let yPosition := yPosition + 10 in
  let doc := text ("Subtotal: $" ++ Schema.subtotal (Schema.invoice invoice)) 120 yPosition doc in
  let yPosition := yPosition + 10 in
  let (doc, yPosition) :=
    match positivePercent h (Schema.discount (Schema.invoice invoice)) with
    | Some discount => (text ("Discount: " ++ discount ++ "%") 120 yPosition doc, yPosition + 10)
    | None => (doc, yPosition)
    end in
  let (doc, yPosition) :=
    match positivePercent h (Schema.tax (Schema.invoice invoice)) with
    | Some tax => (text ("Tax: " ++ tax ++ "%") 120 yPosition doc, yPosition + 10)
    | None => (doc, yPosition)
    end in
  text ("Total: $" ++ Schema.total (Schema.invoice invoice)) 120 yPosition doc.

(** The document the PDF route builds for a found invoice. *)
Definition renderPdf (h : Host) (invoice : Schema.InvoiceWithDetails) : Doc :=
  let doc : Doc := [] in
  let doc := addCompanyHeader doc in
  let doc := addInvoiceDetails invoice doc in
  let doc := addClientDetails invoice doc in
  addTotals h invoice (addItemsTable invoice doc).

(** [GET /api/invoices/:id/pdf]. *)
Definition pdfRoute (h : Host) (found : option Schema.InvoiceWithDetails) : Response Doc :=
  match found with
  | None => NotFound
  | Some invoice => Sent (renderPdf h invoice)
  end.

(** ** Excel export.  A sheet is an array of rows, a row an array of cells;
    every cell written here is a string. *)
Definition Row : Type := list string.

(** [invoiceData], the array handed to [XLSX.utils.aoa_to_sheet]. *)
Definition invoiceData (invoice : Schema.InvoiceWithDetails) : list Row :=
  ([ ["Invoice Number"; Schema.invoiceNumber (Schema.invoice invoice)];
     ["Issue Date"; Schema.issueDate (Schema.invoice invoice)];
     ["Due Date"; Schema.dueDate (Schema.invoice invoice)];
     ["Status"; Schema.status (Schema.invoice invoice)];
     [""; ""];
     ["Bill To"; ""];
     ["Client Name"; Schema.clientName (Schema.client invoice)];
     ["Email"; orStr (Schema.email (Schema.client invoice)) ""];
     ["Phone"; orStr (Schema.phone (Schema.client invoice)) ""];
     ["Address"; orStr (Schema.address (Schema.client invoice)) ""];
     [""; ""];
     ["Items"; ""];
     ["Description"; "Quantity"; "Rate"; "Amount"] ]
   ++ map (fun item => [Schema.description item; Schema.quantity item;
                        Schema.rate item; Schema.amount item])
          (Schema.items invoice)
   ++ [ [""; ""];
        ["Subtotal"; ""; ""; Schema.subtotal (Schema.invoice invoice)];
        ["Discount (%)"; ""; ""; orStr (Schema.discount (Schema.invoice invoice)) "0"];
        ["Tax (%)"; ""; ""; orStr (Schema.tax (Schema.invoice invoice)) "0"];
        ["Total"; ""; ""; Schema.total (Schema.invoice invoice)] ])%list.

(** [GET /api/invoices/:id/excel]. *)
Definition excelRoute (found : option Schema.InvoiceWithDetails) : Response (list Row) :=
  match found with
  | None => NotFound
  | Some invoice => Sent (invoiceData invoice)
  end.

End Routes.

(* ------------------------------------------------------------------ *)
(** * Definitions that follow the words of the specification *)

Module Reference.

(** "now is strictly past dueDate": the due date, as a [Date], is before
    the reference time. *)
Definition strictlyPast (h : Host) (dueDate : string) : bool :=
  date_lt (newDateStr h dueDate) (newDateNow h).

(** The start of the host's current local day: the reference time with its
    time of day reset to 00:00:00.000 local time. *)
Definition startOfToday (h : Host) : timeValue :=
  setHours0 (localTZA h) (newDateNow h).

(** The three buckets of the statistics. *)
Inductive Bucket : Type := ToPaid | ToOverdue | ToPending.

Definition Bucket_eqb (a b : Bucket) : bool :=
  match a, b with
  | ToPaid, ToPaid | ToOverdue, ToOverdue | ToPending, ToPending => true
  | _, _ => false
  end.

(** "effective status is overdue (persisted status overdue, or pending
    with dueDate past now)". *)
Definition effectivelyOverdue (h : Host) (invoice : Schema.Invoice) : bool :=
  ((Schema.status invoice =? "overdue")
   || ((Schema.status invoice =? "pending") && strictlyPast h (Schema.dueDate invoice)))%string.

(** "paid goes to paidAmount; otherwise, effectively overdue goes to
    overdueAmount; all remaining totals go to pendingAmount". *)
Definition bucketOf (h : Host) (invoice : Schema.Invoice) : Bucket :=
  if (Schema.status invoice =? "paid")%string then ToPaid
  else if effectivelyOverdue h invoice then ToOverdue
  else ToPending.

(** The sum of a list of numbers, and of the totals of a list of invoices. *)
Definition sumNumbers (l : list number) : number := fold_left add l (lit 0).

Definition invoiceTotal (h : Host) (invoice : Schema.Invoice) : number :=
  parseFloat h (Schema.total invoice).

Definition sumTotals (h : Host) (invoices : list Schema.Invoice) : number :=
  sumNumbers (map (invoiceTotal h) invoices).


(** The sum of the totals of the invoices that the rule sends to [b]. *)
Definition bucketTotal (h : Host) (b : Bucket) (invoices : list Schema.Invoice) : number :=
  sumTotals h (filter (fun invoice => Bucket_eqb (bucketOf h invoice) b) invoices).


(** ** The sheet *)

Definition blankRow : Routes.Row := [""; ""]%string.

(** A key/value pair: two cells, the first one a label. *)
Definition isKeyValueRow (r : Routes.Row) : Prop :=
  exists k v : string, r = [k; v] /\ k <> ""%string.

Definition itemTableHeader : Routes.Row :=
  ["Description"; "Quantity"; "Rate"; "Amount"]%string.

Definition itemRow (item : Schema.InvoiceItem) : Routes.Row :=
  [Schema.description item; Schema.quantity item; Schema.rate item; Schema.amount item].

(** The four summary rows, the value in the last column. *)
Definition summaryRows (subtotal discount tax total : string) : list Routes.Row :=
  [ ["Subtotal"; ""; ""; subtotal];
    ["Discount (%)"; ""; ""; discount];
    ["Tax (%)"; ""; ""; tax];
    ["Total"; ""; ""; total] ]%string.

(** The order of rows as the specification lists it: header pairs, blank,
    client pairs, blank, item-table header, items, blank, summary. *)
Definition claimedSheetLayout (items : list Schema.InvoiceItem) (rows : list Routes.Row) : Prop :=
  exists (header client : list Routes.Row) (s d t tot : string),
    Forall isKeyValueRow header /\ Forall isKeyValueRow client /\
    rows = header ++ [blankRow] ++ client ++ [blankRow]
           ++ [itemTableHeader] ++ map itemRow items
           ++ [blankRow] ++ summaryRows s d t tot.

(** The same order with the title row of the item table in its place. *)
Definition sheetLayout (items : list Schema.InvoiceItem) (rows : list Routes.Row) : Prop :=
  exists (header client : list Routes.Row) (s d t tot : string),
    Forall isKeyValueRow header /\ Forall isKeyValueRow client /\
    rows = header ++ [blankRow] ++ client ++ [blankRow]
           ++ [["Items"; ""]%string] ++ [itemTableHeader] ++ map itemRow items
           ++ [blankRow] ++ summaryRows s d t tot.

(** The header block and the client block of the sheet. *)
Definition headerRows (invoice : Schema.InvoiceWithDetails) : list Routes.Row :=
  [ ["Invoice Number"; Schema.invoiceNumber (Schema.invoice invoice)];
    ["Issue Date"; Schema.issueDate (Schema.invoice invoice)];
    ["Due Date"; Schema.dueDate (Schema.invoice invoice)];
    ["Status"; Schema.status (Schema.invoice invoice)] ]%string.

Definition clientRows (invoice : Schema.InvoiceWithDetails) : list Routes.Row :=
  [ ["Bill To"; ""];
    ["Client Name"; Schema.clientName (Schema.client invoice)];
    ["Email"; orStr (Schema.email (Schema.client invoice)) ""];
    ["Phone"; orStr (Schema.phone (Schema.client invoice)) ""];
    ["Address"; orStr (Schema.address (Schema.client invoice)) ""] ]%string.

(** Re-reading the items of a sheet: the rows after the first thirteen and
    before the last five, four cells each. *)
Definition itemOfRow (r : Routes.Row) : option Schema.InvoiceItem :=
  match r with
  | [d; q; r; a] =>
      Some {| Schema.description := d; Schema.quantity := q;
              Schema.rate := r; Schema.amount := a |}
  | _ => None
  end.

Definition itemsOfSheet (rows : list Routes.Row) : list (option Schema.InvoiceItem) :=
  map itemOfRow (firstn (List.length rows - 18) (skipn 13 rows)).

(** ** The PDF *)

(** The value of a nullable percentage column; a missing one has none. *)
Definition percentValue (h : Host) (p : option string) : number :=
  match p with
  | Some s => parseFloat h s
  | None => NaN
  end.

(** A text drawn at [(x, y)]; a text that starts with [label]. *)
Definition textAt (x y : Z) (op : Routes.PdfOp) : bool :=
  match op with
  | Routes.Text _ x' y' => ((x' =? x) && (y' =? y))%Z
  | _ => false
  end.

Fixpoint startsWith (label s : string) : bool :=
  match label, s with
  | EmptyString, _ => true
  | String a label', String b s' => Ascii.eqb a b && startsWith label' s'
  | String _ _, EmptyString => false
  end.

Definition isLine (label : string) (op : Routes.PdfOp) : bool :=
  match op with
  | Routes.Text s _ _ => startsWith label s
  | _ => false
  end.

(** The four texts of each item, one line every 10 units from [y] on. *)
Fixpoint itemLines (items : list Schema.InvoiceItem) (y : Z) : Routes.Doc :=
  match items with
  | [] => []
  | item :: rest =>
      [ Routes.Text (Schema.description item) 20 y;
        Routes.Text (Schema.quantity item) 120 y;
        Routes.Text ("$" ++ Schema.rate item) 140 y;
        Routes.Text ("$" ++ Schema.amount item) 160 y ]
      ++ itemLines rest (y + 10)%Z
  end.

(** The parts of the document before the items: the calls made for every
    invoice, the address line, the head of the table. *)
Definition fixedLines (invoice : Schema.InvoiceWithDetails) : Routes.Doc :=
  [ Routes.SetFontSize 20; Routes.Text "INVOICE" 20 30; Routes.SetFontSize 12;
    Routes.Text ("Invoice #: " ++ Schema.invoiceNumber (Schema.invoice invoice)) 20 50;
    Routes.Text ("Issue Date: " ++ Schema.issueDate (Schema.invoice invoice)) 20 60;
    Routes.Text ("Due Date: " ++ Schema.dueDate (Schema.invoice invoice)) 20 70;
    Routes.Text "Bill To:" 20 90;
    Routes.Text (Schema.clientName (Schema.client invoice)) 20 100 ].

Definition addressLine (invoice : Schema.InvoiceWithDetails) : Routes.Doc :=
  match Schema.address (Schema.client invoice) with
  | Some address => if truthyStr address then [Routes.Text address 20 110] else []
  | None => []
  end.

Definition tableHead : Routes.Doc :=
  [ Routes.Text "Description" 20 130; Routes.Text "Qty" 120 130;
    Routes.Text "Rate" 140 130; Routes.Text "Amount" 160 130 ].

(** The calls the "Add totals" part makes, the cursor being at [y]. *)
Definition totalsBlock (h : Host) (invoice : Schema.InvoiceWithDetails) (y : Z) : Routes.Doc :=
  Routes.addTotals h invoice ([], y).

(** ** Validation *)

(** A field is present: it holds a value that JavaScript takes for true
    (not [undefined], [null], the empty string, [0] or [NaN]). *)
Definition present (v : jsval) : Prop := truthyVal v = true.

(** Present and non-blank after trimming. *)
Definition nonBlank (v : jsval) : Prop :=
  exists s : string, v = VStr s /\ trim s <> ""%string.

(** The due date is not before the issue date. *)
Definition notBefore (h : Host) (due issue : jsval) : Prop :=
  date_lt (newDateVal h due) (newDateVal h issue) = false.

Definition validInvoice (h : Host) (invoice : InvoiceUtils.AnyInvoice) : Prop :=
  nonBlank (InvoiceUtils.invoiceNumber invoice)
  /\ present (InvoiceUtils.clientId invoice)
  /\ (present (InvoiceUtils.issueDate invoice) /\ present (InvoiceUtils.dueDate invoice))
  /\ notBefore h (InvoiceUtils.dueDate invoice) (InvoiceUtils.issueDate invoice).

(** The five messages of [validateInvoiceData]. *)
Definition messages : list string :=
  [ "Invoice number is required"; "Client is required"; "Issue date is required";
    "Due date is required"; "Due date must be after issue date" ]%string.

(** The list [validateInvoiceData] builds: one optional message per test,
    in the order of the tests. *)
Definition optMsg (b : bool) (m : string) : list string := if b then [m] else [].

Definition errorsOf (h : Host) (invoice : InvoiceUtils.AnyInvoice) (blank : bool)
  : list string :=
  (optMsg blank "Invoice number is required"%string
   ++ optMsg (negb (truthyVal (InvoiceUtils.clientId invoice))) "Client is required"%string
   ++ optMsg (negb (truthyVal (InvoiceUtils.issueDate invoice)))
             "Issue date is required"%string
   ++ optMsg (negb (truthyVal (InvoiceUtils.dueDate invoice))) "Due date is required"%string
   ++ optMsg (date_lt (newDateVal h (InvoiceUtils.dueDate invoice))
                      (newDateVal h (InvoiceUtils.issueDate invoice)))
             "Due date must be after issue date"%string)%list.

End Reference.

(* ------------------------------------------------------------------ *)
(** * Concrete hosts for the examples *)

Module Examples.

Local Open Scope string_scope.
Local Open Scope Z_scope.

(** [Date.parse] on the date-only strings the examples use (UTC midnight of
    the day). *)
Definition isoDates (s : string) : timeValue :=
  if (s =? "2023-12-01")%string then Some 1701388800000
  else if (s =? "2023-12-31")%string then Some 1703980800000
  else if (s =? "2024-01-01")%string then Some 1704067200000
  else if (s =? "2024-01-02")%string then Some 1704153600000
  else if (s =? "2024-06-01")%string then Some 1717200000000
  else None.

(** A host whose clock reads [now], in the time zone of adjustment [tza]. *)
Definition hostIn (tza now : Z) : Host :=
  {| parseFloat := readDecimal; dateParse := isoDates; clock := now; localTZA := tza |}.

(** The same in the UTC time zone. *)
Definition hostAt (now : Z) : Host := hostIn 0 now.

(** 2023-12-01T00:00:00Z, 2024-01-01T12:00:00Z, 2024-01-01T15:00:00Z and
    2024-06-01T12:00:00Z; five hours west of UTC. *)
Definition midnight_2023_12_01 : Z := 1701388800000.
Definition noon_2024_01_01 : Z := 1704110400000.
Definition afternoon_2024_01_01 : Z := 1704121200000.
Definition noon_2024_06_01 : Z := 1717243200000.
Definition utc_minus_5 : Z := -18000000.

(** An invoice row of user 1 with the given status, due date and total. *)
Definition sampleInvoice (status dueDate total : string) : Schema.Invoice :=
  {| Schema.id := 1; Schema.userId := 1; Schema.clientId := 1;
     Schema.invoiceNumber := "INV-202312-000001";
     Schema.issueDate := "2023-12-01"; Schema.dueDate := dueDate;
     Schema.status := status; Schema.subtotal := total;
     Schema.discount := Some "0.00"%string; Schema.tax := Some "0.00"%string;
     Schema.total := total; Schema.notes := None; Schema.terms := None |}.

(** The scenario of the specification: two items, 10% discount, 5% tax. *)
Definition sampleDetails : Schema.InvoiceWithDetails :=
  {| Schema.invoice :=
       {| Schema.id := 7; Schema.userId := 1; Schema.clientId := 3;
          Schema.invoiceNumber := "INV-202401-000007";
          Schema.issueDate := "2024-01-01"; Schema.dueDate := "2024-01-02";
          Schema.status := "pending"; Schema.subtotal := "125.00";
          Schema.discount := Some "10.00"%string; Schema.tax := Some "5.00"%string;
          Schema.total := "118.13"; Schema.notes := None; Schema.terms := None |};
     Schema.client :=
       {| Schema.clientName := "Acme Ltd"; Schema.email := Some "billing@acme.test"%string;
          Schema.phone := None; Schema.contactPerson := None;
          Schema.address := Some "1 Main Street"%string |};
     Schema.items :=
       [ {| Schema.description := "Design"; Schema.quantity := "2.00";
            Schema.rate := "50.00"; Schema.amount := "100.00" |};
         {| Schema.description := "Hosting"; Schema.quantity := "1.00";
            Schema.rate := "25.00"; Schema.amount := "25.00" |} ] |}.

(** A form submission that passes validation, and its fields. *)
Definition sampleForm : InvoiceUtils.AnyInvoice :=
  {| InvoiceUtils.invoiceNumber := VStr "INV-202401-000007";
     InvoiceUtils.clientId := VNum (lit 3);
     InvoiceUtils.issueDate := VStr "2024-01-01";
     InvoiceUtils.dueDate := VStr "2024-01-02" |}.

End Examples.

(* ------------------------------------------------------------------ *)
(** * More of the JavaScript library: [Math], letter case, dates *)

Module JsMath.

Local Open Scope Qc_scope.

(** [Math.abs] and [Math.ceil]. *)
Definition abs (a : number) : number :=
  match a with
  | NaN => NaN
  | Fin x => match Qccompare x 0 with Lt => Fin (- x) | _ => Fin x end
  end.

Definition ceil (a : number) : number :=
  match a with
  | NaN => NaN
  | Fin x => Fin (ofZ (Qceiling x))
  end.

(** [d.getTime()]: the time value, [NaN] for the invalid date. *)
Definition getTime (d : timeValue) : number :=
  match d with
  | Some t => Fin (ofZ t)
  | None => NaN
  end.

End JsMath.

Module JsText.

(** A string of ASCII characters only. *)
Fixpoint isAscii (s : string) : bool :=
  match s with
  | EmptyString => true
  | String c r => (N_of_ascii c <? 128)%N && isAscii r
  end.

(** [toLowerCase] and [toUpperCase] as they are on strings of ASCII
    characters: the letters change case, every other byte is kept. *)
Definition toLowerChar (c : ascii) : ascii :=
  let n := N_of_ascii c in
  if ((65 <=? n) && (n <=? 90))%N then ascii_of_N (n + 32) else c.

Definition toUpperChar (c : ascii) : ascii :=
  let n := N_of_ascii c in
  if ((97 <=? n) && (n <=? 122))%N then ascii_of_N (n - 32) else c.

Fixpoint mapChars (f : ascii -> ascii) (s : string) : string :=
  match s with
  | EmptyString => EmptyString
  | String c r => String (f c) (mapChars f r)
  end.

Definition toLowerCase (s : string) : string := mapChars toLowerChar s.
Definition toUpperCase (s : string) : string := mapChars toUpperChar s.

End JsText.

(* ------------------------------------------------------------------ *)
(** * client/src/lib/invoiceUtils.ts: days, invoice number, colours *)

Module InvoiceUtilsDisplay.

Local Open Scope string_scope.

(** [daysBetween(startDate, endDate)]. *)
Definition daysBetween (h : Host) (startDate endDate : string) : number :=
  let start := newDateStr h startDate in
  let end_ := newDateStr h endDate in
  let diffTime := JsMath.abs (sub (JsMath.getTime end_) (JsMath.getTime start)) in
  JsMath.ceil (div diffTime (mul (mul (mul (lit 1000) (lit 60)) (lit 60)) (lit 24))).

(** [formatInvoiceNumber(invoiceNumber)]. *)
Definition formatInvoiceNumber (invoiceNumber : string) : string :=
  JsText.toUpperCase invoiceNumber.

(** [getStatusColor(status)]: the [switch] on [status.toLowerCase()]. *)
Definition getStatusColor (status : string) : string :=
  let s := JsText.toLowerCase status in
  if s =? "paid" then "bg-green-100 text-green-800"
  else if s =? "pending" then "bg-yellow-100 text-yellow-800"
  else if s =? "overdue" then "bg-red-100 text-red-800"
  else if s =? "draft" then "bg-gray-100 text-gray-800"
  else "bg-gray-100 text-gray-800".

End InvoiceUtilsDisplay.

(* ------------------------------------------------------------------ *)
(** * The dashboard page: status badges *)

Module Dashboard.

Local Open Scope string_scope.

(** A [<Badge className=...>label</Badge>] element. *)
Record Badge : Type := {
  className : string;
  label : string
}.

(** [getStatusBadge(status)]: the [switch] on [status] itself. *)
Definition getStatusBadge (status : string) : Badge :=
  if status =? "paid" then
    {| className := "bg-green-100 text-green-800"; label := "Paid" |}
  else if status =? "pending" then
    {| className := "bg-yellow-100 text-yellow-800"; label := "Pending" |}
  else if status =? "overdue" then
    {| className := "bg-red-100 text-red-800"; label := "Overdue" |}
  else {| className := "bg-gray-100 text-gray-800"; label := "Draft" |}.

End Dashboard.

(* ------------------------------------------------------------------ *)
(** * The two invoice forms: the item list and the submission *)

(** [addItem], [removeItem] and [updateItem], which the page that creates
    an invoice and the [InvoiceForm] component define by the same text. *)
Module ItemList.

Local Open Scope string_scope.
Local Open Scope Z_scope.

Definition blankItem : InvoiceForm.ItemFormData :=
  {| InvoiceForm.description := ""; InvoiceForm.quantity := "1"; InvoiceForm.rate := "0" |}.

(** [setItems([...items, { description: "", quantity: "1", rate: "0" }])]. *)
Definition addItem (items : list InvoiceForm.ItemFormData) : list InvoiceForm.ItemFormData :=
  (items ++ [blankItem])%list.

(** [items.filter((_, i) => i !== index)], the elements being numbered
    from [i] on. *)
Fixpoint filterOutIndex (A : Type) (index i : Z) (l : list A) : list A :=
  match l with
  | [] => []
  | x :: r =>
      if i =? index then filterOutIndex index (i + 1) r
      else x :: filterOutIndex index (i + 1) r
  end.

(** [removeItem(index)], for an integer [index]. *)
Definition removeItem (items : list InvoiceForm.ItemFormData) (index : Z)
  : list InvoiceForm.ItemFormData :=
  if 1 <? Z.of_nat (List.length items) then filterOutIndex index 0 items
  else items.

(** [keyof ItemFormData]. *)
Inductive Field : Type := Description | Quantity | Rate.

(** [{ ...item, [field]: value }]. *)
Definition setField (item : InvoiceForm.ItemFormData) (field : Field) (value : string)
  : InvoiceForm.ItemFormData :=
  match field with
  | Description =>
      {| InvoiceForm.description := value; InvoiceForm.quantity := InvoiceForm.quantity item;
         InvoiceForm.rate := InvoiceForm.rate item |}
  | Quantity =>
      {| InvoiceForm.description := InvoiceForm.description item; InvoiceForm.quantity := value;
         InvoiceForm.rate := InvoiceForm.rate item |}
  | Rate =>
      {| InvoiceForm.description := InvoiceForm.description item;
         InvoiceForm.quantity := InvoiceForm.quantity item; InvoiceForm.rate := value |}
  end.

(** [updateItem(index, field, value)] for an index of the array.  With any
    other index the assignment [updatedItems[index] = ...] adds a property
    or grows the array with holes, which a list does not represent: the
    result is [None] there. *)
Definition updateItem (items : list InvoiceForm.ItemFormData) (index : Z)
           (field : Field) (value : string) : option (list InvoiceForm.ItemFormData) :=
  if (0 <=? index) && (index <? Z.of_nat (List.length items)) then
    match nth_error items (Z.to_nat index) with
    | Some item =>
        Some (firstn (Z.to_nat index) items
              ++ setField item field value :: skipn (S (Z.to_nat index)) items)%list
    | None => None
    end
  else None.

(** The lists a form goes through: the initial one, and what [addItem],
    [removeItem] and [updateItem] make of a list the form went through. *)
Inductive reachable (start : list InvoiceForm.ItemFormData)
  : list InvoiceForm.ItemFormData -> Prop :=
| reach_start : reachable start start
| reach_add : forall items, reachable start items -> reachable start (addItem items)
| reach_remove : forall items index,
    reachable start items -> reachable start (removeItem items index)
| reach_update : forall items index field value updated,
    reachable start items -> updateItem items index field value = Some updated ->
    reachable start updated.

End ItemList.

(** The page that creates an invoice: [onSubmit]. *)
Module CreateInvoice.

(** The initial [items] state: one blank item. *)
Definition initialItems : list InvoiceForm.ItemFormData := [ItemList.blankItem].

(** [InvoiceFormData], the validated values of the form. *)
Record InvoiceFormData : Type := {
  invoiceNumber : string;
  issueDate : string;
  dueDate : string;
  clientId : number;
  status : string;
  notes : option string;
  terms : option string;
  discount : string;
  tax : string
}.

(** [{ ...data, clientId: Number(data.clientId), subtotal, total }];
    [Number] of a number is that number. *)
Record InvoicePayload : Type := {
  data : InvoiceFormData;
  subtotal : string;
  total : string
}.

(** The [invoiceItems] of [onSubmit]; [str] is [Number.prototype.toString]. *)
Definition invoiceItems (h : Host) (str : number -> string)
           (items : list InvoiceForm.ItemFormData) : list Schema.InvoiceItem :=
  map (fun item =>
         {| Schema.description := InvoiceForm.description item;
            Schema.quantity := InvoiceForm.quantity item;
            Schema.rate := InvoiceForm.rate item;
            Schema.amount :=
              str (mul (parseFloat h (InvoiceForm.quantity item))
                       (parseFloat h (InvoiceForm.rate item))) |})
      items.

(** [onSubmit(data)]: the argument of [createInvoiceMutation.mutate];
    [discount] and [tax] are what [form.watch] yields. *)
Definition onSubmit (h : Host) (str : number -> string)
           (items : list InvoiceForm.ItemFormData) (discount tax : option string)
           (data : InvoiceFormData) : InvoicePayload * list Schema.InvoiceItem :=
  let invoiceItems := invoiceItems h str items in
  let invoiceData :=
    {| data := data;
       subtotal := str (InvoiceForm.calculateSubtotal h items);
       total := str (InvoiceForm.calculateTotal h items discount tax) |} in
  (invoiceData, invoiceItems).

End CreateInvoice.

(** The [InvoiceForm] component. *)
Module InvoiceFormComponent.

Local Open Scope string_scope.

(** The initial [items] state of the component:
    [invoice?.items?.map(...) || [{ description: "", quantity: "1", rate: "0" }]].
    The argument is the [items] of the invoice being edited, if there is
    one; an array, the empty one too, is truthy. *)
Definition initialItems (invoiceItems : option (list Schema.InvoiceItem))
  : list InvoiceForm.ItemFormData :=
  match invoiceItems with
  | Some l =>
      map (fun item =>
             {| InvoiceForm.description := Schema.description item;
                InvoiceForm.quantity := Schema.quantity item;
                InvoiceForm.rate := Schema.rate item |})
          l
  | None => [ItemList.blankItem]
  end.

(** [getItemAmount(item)]. *)
Definition getItemAmount (h : Host) (item : InvoiceForm.ItemFormData) : number :=
  let quantity := or_else (parseFloat h (InvoiceForm.quantity item)) (lit 0) in
  let rate := or_else (parseFloat h (InvoiceForm.rate item)) (lit 0) in
  mul quantity rate.

(** [subtotal], [discount], [tax] and [total] of a render. *)
Definition subtotal (h : Host) (items : list InvoiceForm.ItemFormData) : number :=
  fold_left (fun sum item => add sum (getItemAmount h item)) items (lit 0).

Definition total (h : Host) (items : list InvoiceForm.ItemFormData)
           (discount tax : option string) : number :=
  let discount := parseFloat h (orStr discount "0") in
  let tax := parseFloat h (orStr tax "0") in
  InvoiceUtils.calculateInvoiceTotal (subtotal h items) discount tax.

(** [handleSubmit(data)]: the argument of [onSubmit]. *)
Definition handleSubmit (h : Host) (str : number -> string)
           (items : list InvoiceForm.ItemFormData) (discount tax : option string)
           (data : CreateInvoice.InvoiceFormData)
  : CreateInvoice.InvoicePayload * list Schema.InvoiceItem :=
  let invoiceItems :=
    map (fun item =>
           {| Schema.description := InvoiceForm.description item;
              Schema.quantity := InvoiceForm.quantity item;
              Schema.rate := InvoiceForm.rate item;
              Schema.amount := str (getItemAmount h item) |})
        items in
  let invoiceData :=
    {| CreateInvoice.data := data;
       CreateInvoice.subtotal := str (subtotal h items);
       CreateInvoice.total := str (total h items discount tax) |} in
  (invoiceData, invoiceItems).

End InvoiceFormComponent.

(* ------------------------------------------------------------------ *)
(** * The storage layer on its tables *)

Module Database.

Local Open Scope Z_scope.

(** The rows of [clients] and [invoice_items]: the key columns and the
    columns modelled in [Schema]. *)
Record ClientRow : Type := {
  clientRowId : Z;
  clientUserId : Z;
  clientData : Schema.Client
}.

Record ItemRow : Type := {
  itemRowId : Z;
  itemInvoiceId : Z;
  itemData : Schema.InvoiceItem
}.

(** The three tables the invoice operations touch.  No column of
    [shared/schema.ts] declares a foreign key. *)
Record Db : Type := {
  clients : list ClientRow;
  invoices : list Schema.Invoice;
  invoiceItems : list ItemRow
}.

(** [.from(invoices).leftJoin(clients, eq(invoices.clientId, clients.id))]. *)
Definition leftJoinClients (db : Db) : list (Schema.Invoice * option ClientRow) :=
  flat_map
    (fun invoice =>
       match filter (fun c => clientRowId c =? Schema.clientId invoice) (clients db) with
       | [] => [(invoice, None)]
       | matches => map (fun c => (invoice, Some c)) matches
       end)
    (invoices db).

(** What [getInvoiceById] resolves to: [{ ...invoices, client, items }];
    [client] is [null] when the join found no client. *)
Record InvoiceResult : Type := {
  row : Schema.Invoice;
  client : option Schema.Client;
  items : list Schema.InvoiceItem
}.

(** The items of invoice [id]:
    [db.select().from(invoiceItems).where(eq(invoiceItems.invoiceId, id))]. *)
Definition itemsOf (db : Db) (id : Z) : list Schema.InvoiceItem :=
  map itemData (filter (fun item => itemInvoiceId item =? id) (invoiceItems db)).

(** [getInvoiceById(id)]. *)
Definition getInvoiceById (db : Db) (id : Z) : option InvoiceResult :=
  match filter (fun joined => Schema.id (fst joined) =? id) (leftJoinClients db) with
  | [] => None
  | invoiceData :: _ =>
      Some {| row := fst invoiceData;
              client := option_map clientData (snd invoiceData);
              items := itemsOf db id |}
  end.

(** [getClientById(id)]. *)
Definition getClientById (db : Db) (id : Z) : option ClientRow :=
  match filter (fun c => clientRowId c =? id) (clients db) with
  | [] => None
  | c :: _ => Some c
  end.

(** [deleteInvoice(id)]: the items first, then the invoice. *)
Definition deleteInvoice (db : Db) (id : Z) : Db :=
  let db :=
    {| clients := clients db; invoices := invoices db;
       invoiceItems := filter (fun item => negb (itemInvoiceId item =? id)) (invoiceItems db) |} in
  {| clients := clients db;
     invoices := filter (fun invoice => negb (Schema.id invoice =? id)) (invoices db);
     invoiceItems := invoiceItems db |}.

(** [deleteClient(id)]. *)
Definition deleteClient (db : Db) (id : Z) : Db :=
  {| clients := filter (fun c => negb (clientRowId c =? id)) (clients db);
     invoices := invoices db;
     invoiceItems := invoiceItems db |}.

(** [getInvoiceStats(userId)] with its query:
    [db.select().from(invoices).where(eq(invoices.userId, userId))];
    [userId] is the integer the column is compared with. *)
Definition getInvoiceStats (h : Host) (db : Db) (userId : Z) : Storage.InvoiceStats :=
  let userInvoices := filter (fun invoice => Schema.userId invoice =? userId) (invoices db) in
  Storage.getInvoiceStats h userInvoices.

End Database.

(* ------------------------------------------------------------------ *)
(** * server/routes.ts: the export routes on the tables *)

Module Server.

(** The answer of a route: 404, the 500 of the [catch] block, or the
    document. *)
Inductive Answer (A : Type) : Type :=
| NotFound404 : Answer A
| Failed500 : Answer A
| Document : A -> Answer A.

Arguments NotFound404 {A}.
Arguments Failed500 {A}.

(** The invoice a route works on.  Without a client, reading
    [invoice.client.name] throws a [TypeError], which the [catch] block of
    the route turns into a 500. *)
Definition withClient (r : Database.InvoiceResult) : option Schema.InvoiceWithDetails :=
  match Database.client r with
  | Some c =>
      Some {| Schema.invoice := Database.row r; Schema.client := c;
              Schema.items := Database.items r |}
  | None => None
  end.

(** [GET /api/invoices/:id/pdf], [id] being the parsed parameter. *)
Definition exportPdf (h : Host) (db : Database.Db) (id : Z) : Answer Routes.Doc :=
  match Database.getInvoiceById db id with
  | None => NotFound404
  | Some r =>
      match withClient r with
      | Some invoice => Document (Routes.renderPdf h invoice)
      | None => Failed500
      end
  end.

(** [GET /api/invoices/:id/excel]. *)
Definition exportExcel (db : Database.Db) (id : Z) : Answer (list Routes.Row) :=
  match Database.getInvoiceById db id with
  | None => NotFound404
  | Some r =>
      match withClient r with
      | Some invoice => Document (Routes.invoiceData invoice)
      | None => Failed500
      end
  end.

End Server.

(* ------------------------------------------------------------------ *)
(** * Sample tables and measures of the PDF *)

Module Samples.

Local Open Scope string_scope.
Local Open Scope Z_scope.

(** The tables of a user with the sample invoice 7 of client 3, its two
    items, and a paid invoice 1 whose client 1 has no row. *)
Definition sampleDb : Database.Db :=
  {| Database.clients :=
       [ {| Database.clientRowId := 3; Database.clientUserId := 1;
            Database.clientData := Schema.client Examples.sampleDetails |} ];
     Database.invoices :=
       [ Schema.invoice Examples.sampleDetails;
         Examples.sampleInvoice "paid" "2024-01-01" "100.00" ];
     Database.invoiceItems :=
       [ {| Database.itemRowId := 1; Database.itemInvoiceId := 7;
            Database.itemData :=
              {| Schema.description := "Design"; Schema.quantity := "2.00";
                 Schema.rate := "50.00"; Schema.amount := "100.00" |} |};
         {| Database.itemRowId := 2; Database.itemInvoiceId := 7;
            Database.itemData :=
              {| Schema.description := "Hosting"; Schema.quantity := "1.00";
                 Schema.rate := "25.00"; Schema.amount := "25.00" |} |} ] |}.

(** The values of a form. *)
Definition sampleData : CreateInvoice.InvoiceFormData :=
  {| CreateInvoice.invoiceNumber := "INV-202401-000007";
     CreateInvoice.issueDate := "2024-01-01"; CreateInvoice.dueDate := "2024-01-02";
     CreateInvoice.clientId := lit 3; CreateInvoice.status := "draft";
     CreateInvoice.notes := None; CreateInvoice.terms := None;
     CreateInvoice.discount := "0"; CreateInvoice.tax := "0" |}.

(** The room a conditional line of the totals takes: 10 when it is drawn. *)
Definition lineShift (h : Host) (p : option string) : Z :=
  match Routes.positivePercent h p with
  | Some _ => 10
  | None => 0
  end.

(** The number of calls a conditional part makes. *)
Definition lineCount (h : Host) (p : option string) : nat :=
  match Routes.positivePercent h p with
  | Some _ => 1
  | None => 0
  end.

Definition addressCount (invoice : Schema.InvoiceWithDetails) : nat :=
  if truthyOpt (Schema.address (Schema.client invoice)) then 1 else 0.

End Samples.

(* ================================================================== *)
(** * Properties *)

Import InvoiceUtils Reference Examples.

(** Transfer of [Qc] terms to [Q], where [lra] and [nra] apply. *)
Lemma this_Q2Qc (q : Q) : (this (Q2Qc q) == q)%Q.
Proof. simpl. apply Qred_correct. Qed.

Lemma this_plus (x y : Qc) : (this (x + y)%Qc == this x + this y)%Q.
Proof. unfold Qcplus. apply this_Q2Qc. Qed.

Lemma this_mult (x y : Qc) : (this (x * y)%Qc == this x * this y)%Q.
Proof. unfold Qcmult. apply this_Q2Qc. Qed.

Lemma this_opp (x : Qc) : (this (- x)%Qc == - this x)%Q.
Proof. unfold Qcopp. apply this_Q2Qc. Qed.

Lemma this_minus (x y : Qc) : (this (x - y)%Qc == this x - this y)%Q.
Proof. unfold Qcminus. rewrite this_plus, this_opp. reflexivity. Qed.

Lemma this_inv (x : Qc) : (this (/ x)%Qc == / this x)%Q.
Proof. unfold Qcinv. apply this_Q2Qc. Qed.

Lemma this_div (x y : Qc) : (this (x / y)%Qc == this x / this y)%Q.
Proof. unfold Qcdiv. rewrite this_mult, this_inv. reflexivity. Qed.

Lemma this_ofZ (z : Z) : (this (ofZ z) == inject_Z z)%Q.
Proof. apply this_Q2Qc. Qed.

Ltac to_Q :=
  unfold Qcle, Qclt in *;
  repeat first
    [ rewrite this_plus | rewrite this_minus | rewrite this_mult
    | rewrite this_div | rewrite this_opp | rewrite this_inv
    | rewrite this_ofZ | rewrite this_Q2Qc ].

Lemma ofZ_neq_0 (z : Z) : z <> 0%Z -> ofZ z <> 0%Qc.
Proof.
  intros Hz H. apply Hz.
  unfold ofZ in H. apply Q2Qc_eq_iff in H.
  unfold Qeq in H. simpl in H. lia.
Qed.


Lemma total_nonneg_Q (s d t : Q) :
  (0 <= s -> 0 <= d -> d <= inject_Z 100 -> 0 <= t -> t <= inject_Z 100 ->
   0 <= (s - s * d / inject_Z 100) * (1 + t / inject_Z 100))%Q.
Proof.
  intros Hs Hd0 Hd1 Ht0 Ht1.
  change (inject_Z 100) with 100%Q in *.
  assert (E : ((s - s * d / 100) * (1 + t / 100)
               == (s * (100 - d)) * ((100 + t) * (1 # 10000)))%Q) by field.
  rewrite E.
  apply Qmult_le_0_compat.
  - apply Qmult_le_0_compat; lra.
  - lra.
Qed.

Section TotalFacts.

Local Open Scope Qc_scope.

(** The form computes its total by the same steps, on the numbers it
    parses. *)
Lemma calculateTotal_calculateInvoiceTotal
      (h : Host) (items : list InvoiceForm.ItemFormData) (discount tax : option string) :
  InvoiceForm.calculateTotal h items discount tax
  = calculateInvoiceTotal (InvoiceForm.calculateSubtotal h items)
                          (parseFloat h (orStr discount "0"))
                          (parseFloat h (orStr tax "0")).
Proof. reflexivity. Qed.

End TotalFacts.

(* ------------------------------------------------------------------ *)
(** ** The total on binary64 numbers *)

Section Binary64Total.

Import PrimFloat SpecFloat FloatOps FloatAxioms.
Import Binary64.

Local Open Scope float_scope.

Lemma sameValue_true (r : number) (q : option Q) :
  sameValue r q = true -> exists c v, real r = Some c /\ q = Some v /\ (c == v)%Q.
Proof.
  unfold sameValue. destruct (real r) as [c |]; [| discriminate].
  destruct q as [v |]; [| discriminate].
  intros H. exists c, v. repeat split. now apply Qeq_bool_iff.
Qed.

Lemma lift2_Some (f : Q -> Q -> Q) (a b : option Q) (v : Q) :
  lift2 f a b = Some v -> exists x y, a = Some x /\ b = Some y /\ v = f x y.
Proof.
  destruct a as [x |], b as [y |]; try discriminate.
  intros H. injection H as <-. now exists x, y.
Qed.

Lemma over100_Some (a : option Q) (v : Q) :
  over100 a = Some v -> exists x, a = Some x /\ v = (x / 100)%Q.
Proof.
  destruct a as [x |]; [| discriminate].
  intros H. injection H as <-. now exists x.
Qed.

(** The values of the steps when nothing rounds. *)
Lemma roundsNowhere_values (s d t : number) :
  roundsNowhere s d t = true ->
  exists qs qd qt taxable total : Q,
    real s = Some qs /\ real d = Some qd /\ real t = Some qt
    /\ real (s - s * d / 100) = Some taxable
    /\ (taxable == qs - qs * qd / 100)%Q
    /\ real (calculateInvoiceTotal s d t) = Some total
    /\ (total == taxable + taxable * qt / 100)%Q.
Proof.
  unfold roundsNowhere. cbv zeta. rewrite !andb_true_iff.
  intros [[[[[H1 H2] H3] H4] H5] H6].
  apply sameValue_true in H1, H2, H3, H4, H5, H6.
  destruct H1 as (c1 & v1 & R1 & L1 & E1).
  destruct H2 as (c2 & v2 & R2 & L2 & E2).
  destruct H3 as (c3 & v3 & R3 & L3 & E3).
  destruct H4 as (c4 & v4 & R4 & L4 & E4).
  destruct H5 as (c5 & v5 & R5 & L5 & E5).
  destruct H6 as (c6 & v6 & R6 & L6 & E6).
  apply lift2_Some in L1, L3, L4, L6.
  apply over100_Some in L2, L5.
  destruct L1 as (qs & qd & Rs & Rd & ->).
  destruct L2 as (x2 & X2 & ->).
  destruct L3 as (x3 & y3 & X3 & Y3 & ->).
  destruct L4 as (x4 & qt & X4 & Rt & ->).
  destruct L5 as (x5 & X5 & ->).
  destruct L6 as (x6 & y6 & X6 & Y6 & ->).
  assert (x2 = c1) by congruence. assert (x3 = qs) by congruence.
  assert (y3 = c2) by congruence. assert (x4 = c3) by congruence.
  assert (x5 = c4) by congruence. assert (x6 = c3) by congruence.
  assert (y6 = c5) by congruence. subst.
  exists qs, qd, qt, c3, c6. repeat split; try assumption.
  - rewrite E3, E2, E1. reflexivity.
  - rewrite E6, E5, E4. reflexivity.
Qed.

(** C1, as stated, fails where an operation rounds.  With subtotal 1,
    discount 1 and tax 7 the code returns 1.0592999999999999, which is
    neither the number 1.0593 of the formula nor the 1.0593000000000001
    that the formula gives when it is computed on binary64 numbers.  With
    the subtotal [3 * 0.07] of three items at 0.07, discount 100 and tax 0,
    all within the ranges of the claim, the total is negative. *)
Lemma calculateInvoiceTotal_rounds :
  calculateInvoiceTotal 1 1 7 = 0x1.0f2e48e8a71dep+0
  /\ (exists total : Q,
         real (calculateInvoiceTotal 1 1 7) = Some total
         /\ ~ (total == (1 - 1 * 1 / 100) * (1 + 7 / 100))%Q)
  /\ calculateInvoiceTotal 1 1 7 <> (1 - 1 * 1 / 100) * (1 + 7 / 100)
  /\ (0 <=? 3 * (7 / 100)) = true
  /\ (calculateInvoiceTotal (3 * (7 / 100)) 100 0 <? 0) = true.
Proof.
  split; [vm_compute; reflexivity | split; [| split; [| split]]].
  - eexists. split; [vm_compute; reflexivity |].
    unfold Qeq. vm_compute. discriminate.
  - vm_compute. intros H. apply (f_equal Prim2SF) in H. vm_compute in H. discriminate.
  - vm_compute. reflexivity.
  - vm_compute. reflexivity.
Qed.

(** ** C1 (amended).  [calculateInvoiceTotal] subtracts the discount
    amount [subtotal*discount/100] from the subtotal first, computes the
    tax on that post-discount amount and returns
    [taxableAmount + taxAmount], each operation being one of binary64.
    Wherever none of the operations rounds, the total is exactly
    [(subtotal - subtotal*discount/100) * (1 + tax/100)], and it is >= 0
    for a subtotal >= 0 and a discount and a tax in [0,100]. *)
Theorem calculateInvoiceTotal_discount_then_tax (s d t : number) :
  (let discountAmount := s * d / 100 in
   let taxableAmount := s - discountAmount in
   let taxAmount := taxableAmount * t / 100 in
   calculateInvoiceTotal s d t = taxableAmount + taxAmount)
  /\ (roundsNowhere s d t = true ->
      exists qs qd qt total : Q,
        real s = Some qs /\ real d = Some qd /\ real t = Some qt
        /\ real (calculateInvoiceTotal s d t) = Some total
        /\ (total == (qs - qs * qd / 100) * (1 + qt / 100))%Q
        /\ ((0 <= qs)%Q -> (0 <= qd <= 100)%Q -> (0 <= qt <= 100)%Q -> (0 <= total)%Q)).
Proof.
  split; [reflexivity |].
  intros H.
  destruct (roundsNowhere_values s d t H)
    as (qs & qd & qt & taxable & total & Rs & Rd & Rt & _ & Etaxable & Rtotal & Etotal).
  exists qs, qd, qt, total.
  assert (E : (total == (qs - qs * qd / 100) * (1 + qt / 100))%Q).
  { rewrite Etotal, Etaxable. field. }
  repeat split; try assumption.
  intros Hs [Hd0 Hd1] [Ht0 Ht1]. rewrite E.
  now apply total_nonneg_Q.
Qed.

(** The sample of the specification, where nothing rounds: subtotal 100,
    discount 10 and tax 5 give 94.5. *)
Lemma calculateInvoiceTotal_discount_then_tax_witness :
  roundsNowhere 100 10 5 = true
  /\ calculateInvoiceTotal 100 10 5 = 94.5
  /\ exists qs qd qt total : Q,
       real 100 = Some qs /\ real 10 = Some qd /\ real 5 = Some qt
       /\ real (calculateInvoiceTotal 100 10 5) = Some total
       /\ (total == (qs - qs * qd / 100) * (1 + qt / 100))%Q
       /\ ((0 <= qs)%Q -> (0 <= qd <= 100)%Q -> (0 <= qt <= 100)%Q -> (0 <= total)%Q).
Proof.
  split; [vm_compute; reflexivity | split; [vm_compute; reflexivity |]].
  apply (proj2 (calculateInvoiceTotal_discount_then_tax 100 10 5)).
  vm_compute. reflexivity.
Defined.

(** ** Order of discount and tax *)

Lemma rawRoundsNowhere_values (s d t : number) :
  rawRoundsNowhere s d t = true ->
  exists qs qd qt raw : Q,
    real s = Some qs /\ real d = Some qd /\ real t = Some qt
    /\ real (taxOnRawSubtotal s d t) = Some raw
    /\ (raw == (qs - qs * qd / 100) + qs * qt / 100)%Q.
Proof.
  unfold rawRoundsNowhere. cbv zeta. rewrite !andb_true_iff.
  intros [[[[[H1 H2] H3] H4] H5] H6].
  apply sameValue_true in H1, H2, H3, H4, H5, H6.
  destruct H1 as (c1 & v1 & R1 & L1 & E1).
  destruct H2 as (c2 & v2 & R2 & L2 & E2).
  destruct H3 as (c3 & v3 & R3 & L3 & E3).
  destruct H4 as (c4 & v4 & R4 & L4 & E4).
  destruct H5 as (c5 & v5 & R5 & L5 & E5).
  destruct H6 as (c6 & v6 & R6 & L6 & E6).
  apply lift2_Some in L1, L3, L4, L6.
  apply over100_Some in L2, L5.
  destruct L1 as (qs & qd & Rs & Rd & ->).
  destruct L2 as (x2 & X2 & ->).
  destruct L3 as (x3 & y3 & X3 & Y3 & ->).
  destruct L4 as (x4 & qt & X4 & Rt & ->).
  destruct L5 as (x5 & X5 & ->).
  destruct L6 as (x6 & y6 & X6 & Y6 & ->).
  assert (x2 = c1) by congruence. assert (x3 = qs) by congruence.
  assert (y3 = c2) by congruence. assert (x4 = qs) by congruence.
  assert (x5 = c4) by congruence. assert (x6 = c3) by congruence.
  assert (y6 = c5) by congruence. subst.
  exists qs, qd, qt, c6. repeat split; try assumption.
  rewrite E6, E5, E4, E3, E2, E1. reflexivity.
Qed.

(** C7, as stated, fails at subtotal 0: with discount 10 and tax 5 both
    computations yield 0.  It also fails where rounding takes the
    difference away: for subtotal 100 and a discount and a tax of one ten
    millionth of a percent both yield 100. *)
Lemma tax_order_unobservable_at_zero_subtotal :
  (0 <? 10) = true /\ (0 <? 5) = true
  /\ taxOnRawSubtotal 0 10 5 = calculateInvoiceTotal 0 10 5
  /\ (0 <? 1 / 10000000) = true
  /\ taxOnRawSubtotal 100 (1 / 10000000) (1 / 10000000)
     = calculateInvoiceTotal 100 (1 / 10000000) (1 / 10000000).
Proof. repeat split; vm_compute; reflexivity. Qed.

Lemma real_positive (d : number) (q : Q) :
  (0 <? d) = true -> real d = Some q -> (0 < q)%Q.
Proof.
  rewrite ltb_spec. change (Prim2SF 0) with (S754_zero false). unfold real.
  destruct (Prim2SF d) as [z | i | | [|] m e]; try discriminate.
  intros _ E. injection E as <-.
  apply Qmult_lt_0_compat; [reflexivity | now apply Qpower_0_lt].
Qed.

Lemma real_zero (s : number) (q : Q) :
  real s = Some q -> ((s =? 0) = true <-> (q == 0)%Q).
Proof.
  rewrite eqb_spec. change (Prim2SF 0) with (S754_zero false). unfold real.
  destruct (Prim2SF s) as [z | i | | sg m e]; try discriminate.
  - intros E. injection E as <-. split; reflexivity.
  - intros E. injection E as <-.
    assert (P : (0 < inject_Z (Zpos m) * Qpower 2 e)%Q)
      by (apply Qmult_lt_0_compat; [reflexivity | now apply Qpower_0_lt]).
    split.
    + destruct sg; discriminate.
    + intros Z0. exfalso. destruct sg; lra.
Qed.

(** ** C7 (amended).  For every subtotal, every discount > 0 and every
    tax > 0 at which neither computation rounds, charging the tax on the
    raw subtotal yields the total of [calculateInvoiceTotal] plus
    [subtotal*discount*tax/10000]: the two results differ when the
    subtotal is not 0 and have the same value when it is. *)
Theorem tax_order_observable (s d t : number) :
  roundsNowhere s d t = true -> rawRoundsNowhere s d t = true ->
  (0 <? d) = true -> (0 <? t) = true ->
  exists qs qd qt raw total : Q,
    real s = Some qs /\ real d = Some qd /\ real t = Some qt
    /\ real (taxOnRawSubtotal s d t) = Some raw
    /\ real (calculateInvoiceTotal s d t) = Some total
    /\ (raw - total == qs * qd * qt / 10000)%Q
    /\ ((s =? 0) = false -> taxOnRawSubtotal s d t <> calculateInvoiceTotal s d t)
    /\ ((s =? 0) = true -> (raw == total)%Q).
Proof.
  intros H H' Hd Ht.
  destruct (roundsNowhere_values s d t H)
    as (qs & qd & qt & taxable & total & Rs & Rd & Rt & _ & Etaxable & Rtotal & Etotal).
  destruct (rawRoundsNowhere_values s d t H')
    as (qs2 & qd2 & qt2 & raw & Rs2 & Rd2 & Rt2 & Rraw & Eraw).
  assert (qs2 = qs) by congruence.
  assert (qd2 = qd) by congruence. assert (qt2 = qt) by congruence. subst.
  pose proof (@real_positive d qd Hd Rd) as Pd. pose proof (@real_positive t qt Ht Rt) as Pt.
  pose proof (@real_zero s qs Rs) as Zs.
  assert (G : (raw - total == qs * qd * qt / 10000)%Q).
  { rewrite Eraw, Etotal, Etaxable. field. }
  exists qs, qd, qt, raw, total. repeat split; try assumption.
  - intros Hs E. rewrite E, Rtotal in Rraw. injection Rraw as <-.
    assert (Z0 : (qs * qd * qt == 0)%Q).
    { assert (Z1 : (qs * qd * qt / 10000 == 0)%Q) by (rewrite <- G; ring).
      rewrite <- (Qmult_div_r (qs * qd * qt) 10000) by discriminate.
      unfold Qdiv in Z1. unfold Qdiv. rewrite Z1. ring. }
    apply Qmult_integral in Z0. destruct Z0 as [Z0 | Z0].
    + apply Qmult_integral in Z0. destruct Z0 as [Z0 | Z0].
      * apply Zs in Z0. congruence.
      * rewrite Z0 in Pd. exact (Qlt_irrefl _ Pd).
    + rewrite Z0 in Pt. exact (Qlt_irrefl _ Pt).
  - intros Hs. apply Zs in Hs.
    assert (Z1 : (raw - total == 0)%Q) by (rewrite G, Hs; field).
    lra.
Qed.

(** The sample of the specification: on 100, 10 and 5 the two orders give
    95 and 94.5. *)
Lemma tax_order_observable_witness :
  taxOnRawSubtotal 100 10 5 = 95
  /\ calculateInvoiceTotal 100 10 5 = 94.5
  /\ taxOnRawSubtotal 100 10 5 <> calculateInvoiceTotal 100 10 5.
Proof.
  split; [vm_compute; reflexivity | split; [vm_compute; reflexivity |]].
  destruct (@tax_order_observable 100 10 5)
    as (qs & qd & qt & raw & total & _ & _ & _ & _ & _ & _ & N & _);
    try (vm_compute; reflexivity).
  apply N. vm_compute. reflexivity.
Defined.

(** ** The accumulators of the statistics *)

(** On binary64 numbers the accumulators themselves do not add up: of three
    invoices of 0.1 (paid), 0.2 and 0.3 (draft), the three amounts add up
    to 0.6 and the totals, added in the order of the list, to
    0.6000000000000001. *)
Lemma accumulators_do_not_add_up :
  let acc := scan [(Paid, 1 / 10); (Pending, 2 / 10); (Pending, 3 / 10)] in
  pendingAmount acc = 0.5 /\ paidAmount acc = 1 / 10 /\ overdueAmount acc = 0
  /\ pendingAmount acc + paidAmount acc + overdueAmount acc = 6 / 10
  /\ sum [1 / 10; 2 / 10; 3 / 10] = 0x1.3333333333334p-1
  /\ pendingAmount acc + paidAmount acc + overdueAmount acc
     <> sum [1 / 10; 2 / 10; 3 / 10].
Proof.
  cbv zeta. repeat split; try (vm_compute; reflexivity).
  vm_compute. intros H. apply (f_equal Prim2SF) in H. vm_compute in H. discriminate.
Qed.

Lemma scan_from_addends (l : list (Case * number)) (acc : Amounts) :
  fold_left tally l acc
  = {| pendingAmount := fold_left add (addends Pending l) (pendingAmount acc);
       paidAmount := fold_left add (addends Paid l) (paidAmount acc);
       overdueAmount := fold_left add (addends Overdue l) (overdueAmount acc) |}.
Proof.
  revert acc. induction l as [| [c total] l IH]; intros acc; [now destruct acc |].
  cbn [fold_left]. rewrite IH. unfold addends, tally. cbn [filter fst snd].
  destruct c; reflexivity.
Qed.

Lemma addsExactly_value (l : list number) (acc : number) (a : Q) :
  addsExactly acc l = true -> real acc = Some a ->
  exists v : Q, real (fold_left add l acc) = Some v /\ (v == a + valueSum l)%Q.
Proof.
  revert acc a. induction l as [| x l IH]; intros acc a H Ra.
  - exists a. split; [exact Ra | cbn [valueSum]; ring].
  - cbn [addsExactly] in H. apply andb_true_iff in H. destruct H as [H1 H2].
    apply sameValue_true in H1. destruct H1 as (c & v & Rc & L & E).
    apply lift2_Some in L. destruct L as (a' & q & Ra' & Rq & ->).
    assert (a' = a) by congruence. subst a'.
    destruct (IH (acc + x) c H2 Rc) as (w & Rw & Ew).
    exists w. split; [exact Rw |].
    cbn [valueSum]. rewrite Rq, Ew, E. ring.
Qed.

Lemma valueSum_addends (l : list (Case * number)) :
  (valueSum (map snd l)
   == valueSum (addends Pending l) + valueSum (addends Paid l)
      + valueSum (addends Overdue l))%Q.
Proof.
  unfold addends. induction l as [| [c total] l IH]; [reflexivity |].
  cbn [map filter fst snd valueSum]. rewrite IH.
  destruct c; cbn [Case_eqb map snd valueSum]; ring.
Qed.

(** X30.  On binary64 numbers each accumulator of [getInvoiceStats] is the
    sum of the totals of its case, added in the order of the list.  Where
    no addition rounds, neither in the three accumulators and their sum
    nor in the sum of all totals, the three accumulators add up to the sum
    of all totals. *)
Theorem accumulators_conserve (userInvoices : list (Case * number)) :
  let acc := scan userInvoices in
  pendingAmount acc = sum (addends Pending userInvoices)
  /\ paidAmount acc = sum (addends Paid userInvoices)
  /\ overdueAmount acc = sum (addends Overdue userInvoices)
  /\ (addsExactly 0 (addends Pending userInvoices) = true ->
      addsExactly 0 (addends Paid userInvoices) = true ->
      addsExactly 0 (addends Overdue userInvoices) = true ->
      addsExactly 0 (map snd userInvoices) = true ->
      addsExactly (pendingAmount acc) [paidAmount acc; overdueAmount acc] = true ->
      exists v w : Q,
        real (pendingAmount acc + paidAmount acc + overdueAmount acc) = Some v
        /\ real (sum (map snd userInvoices)) = Some w
        /\ (v == w)%Q).
Proof.
  cbv zeta. unfold scan. rewrite scan_from_addends.
  cbn [pendingAmount paidAmount overdueAmount]. fold (sum (addends Pending userInvoices)).
  fold (sum (addends Paid userInvoices)). fold (sum (addends Overdue userInvoices)).
  split; [reflexivity | split; [reflexivity | split; [reflexivity |]]].
  intros H1 H2 H3 H4 H5.
  assert (R0 : real 0 = Some 0%Q) by reflexivity.
  destruct (@addsExactly_value _ _ _ H1 R0) as (p & Rp & Ep).
  destruct (@addsExactly_value _ _ _ H2 R0) as (q & Rq & Eq).
  destruct (@addsExactly_value _ _ _ H3 R0) as (o & Ro & Eo).
  destruct (@addsExactly_value _ _ _ H4 R0) as (w & Rw & Ew).
  fold (sum (addends Pending userInvoices)) in Rp.
  fold (sum (addends Paid userInvoices)) in Rq.
  fold (sum (addends Overdue userInvoices)) in Ro.
  fold (sum (map snd userInvoices)) in Rw.
  destruct (@addsExactly_value _ _ _ H5 Rp) as (v & Rv & Ev).
  cbn [fold_left] in Rv. cbn [valueSum] in Ev. rewrite Rq, Ro in Ev.
  exists v, w. split; [exact Rv | split; [exact Rw |]].
  rewrite Ev, Ew, Ep, Eq, Eo, valueSum_addends. ring.
Qed.

(** Three invoices of 100.5 (paid), 40.25 (draft) and 9.25 (overdue): no
    addition rounds, and the amounts add up to 150. *)
Lemma accumulators_conserve_witness :
  exists v w : Q,
    real (pendingAmount (scan [(Paid, 100.5); (Pending, 40.25); (Overdue, 9.25)])
          + paidAmount (scan [(Paid, 100.5); (Pending, 40.25); (Overdue, 9.25)])
          + overdueAmount (scan [(Paid, 100.5); (Pending, 40.25); (Overdue, 9.25)]))
    = Some v
    /\ real (sum (map snd [(Paid, 100.5); (Pending, 40.25); (Overdue, 9.25)])) = Some w
    /\ (v == w)%Q.
Proof.
  apply (proj2 (proj2 (proj2
           (accumulators_conserve [(Paid, 100.5); (Pending, 40.25); (Overdue, 9.25)]))));
    vm_compute; reflexivity.
Defined.

(** ** [NaN], the infinities and the zeros *)

Lemma mul_NaN_l (y : number) : NaN * y = NaN.
Proof. apply Prim2SF_inj. rewrite mul_spec. reflexivity. Qed.

Lemma mul_NaN_r (x : number) : x * NaN = NaN.
Proof.
  apply Prim2SF_inj. rewrite mul_spec. change (Prim2SF NaN) with S754_nan.
  now destruct (Prim2SF x).
Qed.

Lemma div_NaN_l (y : number) : NaN / y = NaN.
Proof. apply Prim2SF_inj. rewrite div_spec. reflexivity. Qed.

Lemma sub_NaN_l (y : number) : NaN - y = NaN.
Proof. apply Prim2SF_inj. rewrite sub_spec. reflexivity. Qed.

Lemma sub_NaN_r (x : number) : x - NaN = NaN.
Proof.
  apply Prim2SF_inj. rewrite sub_spec. change (Prim2SF NaN) with S754_nan.
  now destruct (Prim2SF x).
Qed.

Lemma add_NaN_l (y : number) : NaN + y = NaN.
Proof. apply Prim2SF_inj. rewrite add_spec. reflexivity. Qed.

Lemma add_NaN_r (x : number) : x + NaN = NaN.
Proof.
  apply Prim2SF_inj. rewrite add_spec. change (Prim2SF NaN) with S754_nan.
  now destruct (Prim2SF x).
Qed.

(** X1.  [calculateInvoiceTotal] hands [NaN] on: the total is [NaN] as
    soon as one of the three arguments is.  Finite arguments do not always
    give a finite total: where a product overflows, as for a subtotal of
    [2^1023], the total is [NaN] (discount 200, tax 0) or an infinity
    (discount 0, tax 100). *)
Theorem calculateInvoiceTotal_NaN (s d t : number) :
  (s = NaN \/ d = NaN \/ t = NaN -> calculateInvoiceTotal s d t = NaN)
  /\ isFinite 0x1p1023 = true /\ isFinite 200 = true /\ isFinite 100 = true
  /\ calculateInvoiceTotal 0x1p1023 200 0 = NaN
  /\ calculateInvoiceTotal 0x1p1023 0 100 = infinity.
Proof.
  split; [| repeat split; vm_compute; reflexivity].
  unfold calculateInvoiceTotal. intros [-> | [-> | ->]].
  - now rewrite mul_NaN_l, div_NaN_l, sub_NaN_l, add_NaN_l.
  - now rewrite mul_NaN_r, div_NaN_l, sub_NaN_r, add_NaN_l.
  - now rewrite mul_NaN_r, div_NaN_l, add_NaN_r.
Qed.

Lemma calculateInvoiceTotal_NaN_witness :
  calculateInvoiceTotal 100 NaN 5 = NaN.
Proof.
  apply (proj1 (calculateInvoiceTotal_NaN 100 NaN 5)). right. left. reflexivity.
Defined.

(** Without a discount the taxable amount is the subtotal itself. *)
Lemma no_discount (s : number) :
  isFinite s = true -> s <> neg_zero -> s - s * 0 / 100 = s.
Proof.
  intros F N. apply Prim2SF_inj.
  rewrite sub_spec, div_spec, mul_spec.
  change (Prim2SF 0) with (S754_zero false).
  change (Prim2SF 100) with (S754_finite false 7036874417766400 (-46)).
  unfold isFinite, real in F.
  destruct (Prim2SF s) as [[|] | i | | [|] m e] eqn:E; try discriminate; try reflexivity.
  exfalso. apply N. apply Prim2SF_inj. now rewrite E.
Qed.

Lemma no_tax (s : number) :
  isFinite s = true -> s + s * 0 / 100 = s.
Proof.
  intros F. apply Prim2SF_inj.
  rewrite add_spec, div_spec, mul_spec.
  change (Prim2SF 0) with (S754_zero false).
  change (Prim2SF 100) with (S754_finite false 7036874417766400 (-46)).
  unfold isFinite, real in F.
  destruct (Prim2SF s) as [[|] | i | | [|] m e] eqn:E; try discriminate; reflexivity.
Qed.

(** X2.  Without discount and tax the total is the subtotal itself, with
    no rounding, for every finite subtotal other than the negative zero;
    without a discount it is the subtotal plus the tax on it.  A discount
    of 100 does not always give the total 0: on the subtotal [3 * 0.07] it
    leaves -2.8e-17. *)
Theorem calculateInvoiceTotal_edges (s t : number) :
  isFinite s = true -> s <> neg_zero ->
  calculateInvoiceTotal s 0 0 = s
  /\ calculateInvoiceTotal s 0 t = s + s * t / 100
  /\ calculateInvoiceTotal (3 * (7 / 100)) 100 0 = -0x1p-55.
Proof.
  intros F N. unfold calculateInvoiceTotal.
  rewrite (@no_discount s F N).
  split; [exact (@no_tax s F) | split; [reflexivity | vm_compute; reflexivity]].
Qed.

Lemma calculateInvoiceTotal_edges_witness :
  calculateInvoiceTotal 118.125 0 0 = 118.125.
Proof.
  apply (proj1 (@calculateInvoiceTotal_edges 118.125 0 eq_refl
                  ltac:(intros H; apply (f_equal Prim2SF) in H; vm_compute in H;
                        discriminate))).
Defined.

End Binary64Total.

(* ------------------------------------------------------------------ *)
(** ** Status derivation *)

Section StatusDerivation.

Local Open Scope string_scope.

Variable h : Host.

Lemma isInvoiceOverdue_unpaid (dueDate status : string) :
  (status =? "paid") = false ->
  isInvoiceOverdue h dueDate status = date_lt (newDateStr h dueDate) (startOfToday h).
Proof. intros E. unfold isInvoiceOverdue. now rewrite E. Qed.

Lemma getInvoiceStatus_paid (dueDate : string) :
  getInvoiceStatus h "paid" dueDate = "paid".
Proof. reflexivity. Qed.

Lemma getInvoiceStatus_draft (dueDate : string) :
  getInvoiceStatus h "draft" dueDate = "draft".
Proof. reflexivity. Qed.

(** For a status other than paid and draft the due date decides. *)
Lemma getInvoiceStatus_dated (currentStatus dueDate : string) :
  (currentStatus =? "paid") = false ->
  (currentStatus =? "draft") = false ->
  getInvoiceStatus h currentStatus dueDate
  = if date_lt (newDateStr h dueDate) (startOfToday h) then "overdue" else currentStatus.
Proof.
  intros E1 E2. unfold getInvoiceStatus.
  rewrite E1, E2. simpl. now rewrite isInvoiceOverdue_unpaid.
Qed.

(** The start of the day is not after the clock. *)
Lemma startOfToday_le_clock :
  exists t, startOfToday h = Some t /\ (t <= clock h)%Z.
Proof.
  unfold startOfToday, newDateNow, setHours0, msPerDay.
  eexists. split; [reflexivity |].
  pose proof (Z.mul_div_le (clock h + localTZA h) 86400000 eq_refl).
  lia.
Qed.

End StatusDerivation.

(** The scenario of the specification: a pending invoice due on 1 January
    2024 is overdue on 1 June 2024 and pending on 1 December 2023. *)
Example getInvoiceStatus_scenario :
  getInvoiceStatus (hostAt noon_2024_06_01) "pending" "2024-01-01" = "overdue"%string
  /\ getInvoiceStatus (hostAt midnight_2023_12_01) "pending" "2024-01-01" = "pending"%string.
Proof. split; reflexivity. Qed.

(** The start of the day is local, the [Date] of a date-only string is UTC
    midnight: five hours west of UTC, at 10:00 local time of 1 January 2024,
    the local day is still the due day and the invoice is reported
    overdue. *)
Example getInvoiceStatus_west_of_utc :
  ((afternoon_2024_01_01 + utc_minus_5) / msPerDay = 1704067200000 / msPerDay)%Z
  /\ getInvoiceStatus (hostIn utc_minus_5 afternoon_2024_01_01) "pending" "2024-01-01"
     = "overdue"%string.
Proof. split; reflexivity. Qed.

(* ------------------------------------------------------------------ *)
(** ** Integer literals *)

Section Numerals.

Lemma ofZ_plus (a b : Z) : ofZ (a + b) = (ofZ a + ofZ b)%Qc.
Proof. apply Qc_is_canon. to_Q. rewrite inject_Z_plus. reflexivity. Qed.

Lemma ofZ_mult (a b : Z) : ofZ (a * b) = (ofZ a * ofZ b)%Qc.
Proof. apply Qc_is_canon. to_Q. rewrite inject_Z_mult. reflexivity. Qed.

Lemma ofZ_opp (a : Z) : ofZ (- a) = (- ofZ a)%Qc.
Proof. apply Qc_is_canon. to_Q. rewrite inject_Z_opp. reflexivity. Qed.

End Numerals.

(* ------------------------------------------------------------------ *)
(** ** Statistics *)

Import Storage.

Section Statistics.

Local Open Scope string_scope.

Variable h : Host.

Lemma add_0_r (a : number) : add a (lit 0) = a.
Proof. destruct a; simpl; [reflexivity |]. f_equal. apply Qcplus_0_r. Qed.

Lemma add_0_l (a : number) : add (lit 0) a = a.
Proof. destruct a; simpl; [reflexivity |]. f_equal. apply Qcplus_0_l. Qed.

Lemma add_assoc (a b c : number) : add (add a b) c = add a (add b c).
Proof.
  destruct a, b, c; simpl; try reflexivity. f_equal. symmetry. apply Qcplus_assoc.
Qed.

Lemma fold_left_add (l : list number) (a : number) :
  fold_left add l a = add a (sumNumbers l).
Proof.
  unfold sumNumbers. revert a.
  induction l as [| x l IH]; intros a; cbn [fold_left].
  - now rewrite add_0_r.
  - rewrite IH, (IH (add (lit 0) x)), add_0_l. apply add_assoc.
Qed.

Lemma sumTotals_cons (invoice : Schema.Invoice) (l : list Schema.Invoice) :
  sumTotals h (invoice :: l) = add (invoiceTotal h invoice) (sumTotals h l).
Proof.
  unfold sumTotals. cbn [map]. unfold sumNumbers at 1. cbn [fold_left].
  now rewrite fold_left_add, add_0_l.
Qed.

Lemma bucketTotal_cons (b : Bucket) (invoice : Schema.Invoice) (l : list Schema.Invoice) :
  bucketTotal h b (invoice :: l)
  = if Bucket_eqb (bucketOf h invoice) b
    then add (invoiceTotal h invoice) (bucketTotal h b l)
    else bucketTotal h b l.
Proof.
  unfold bucketTotal. simpl.
  destruct (Bucket_eqb (bucketOf h invoice) b); [apply sumTotals_cons | reflexivity].
Qed.

(** One step of the scan adds the invoice's total to the accumulator of
    its bucket and leaves the other two alone. *)
Lemma tally_bucketOf (acc : Amounts) (invoice : Schema.Invoice) :
  tally h (newDateNow h) acc invoice
  = match bucketOf h invoice with
    | ToPaid => addPaid acc (invoiceTotal h invoice)
    | ToOverdue => addOverdue acc (invoiceTotal h invoice)
    | ToPending => addPending acc (invoiceTotal h invoice)
    end.
Proof.
  unfold tally, bucketOf, effectivelyOverdue, strictlyPast, invoiceTotal.
  destruct (String.eqb_spec (Schema.status invoice) "paid") as [E | _];
    [reflexivity |].
  destruct (String.eqb_spec (Schema.status invoice) "pending") as [E | _].
  - rewrite E. simpl.
    destruct (date_lt _ _); reflexivity.
  - simpl. rewrite orb_false_r.
    destruct (Schema.status invoice =? "overdue")%string; reflexivity.
Qed.

Lemma scan_from (l : list Schema.Invoice) (acc : Amounts) :
  fold_left (tally h (newDateNow h)) l acc
  = {| pending := add (pending acc) (bucketTotal h ToPending l);
       paid := add (paid acc) (bucketTotal h ToPaid l);
       overdue := add (overdue acc) (bucketTotal h ToOverdue l) |}.
Proof.
  revert acc. induction l as [| invoice l IH]; intros acc.
  - simpl. unfold bucketTotal, sumTotals, sumNumbers. simpl.
    rewrite !add_0_r. now destruct acc.
  - simpl. rewrite IH, tally_bucketOf, !bucketTotal_cons.
    destruct (bucketOf h invoice); simpl; now rewrite ?add_assoc.
Qed.

Lemma scan_buckets (l : list Schema.Invoice) :
  scan h l
  = {| pending := bucketTotal h ToPending l;
       paid := bucketTotal h ToPaid l;
       overdue := bucketTotal h ToOverdue l |}.
Proof. unfold scan. rewrite scan_from. cbn [pending paid overdue]. now rewrite !add_0_l. Qed.

(** ** C4.  For every list of invoices, each step of the scan adds the
    invoice's total to exactly one accumulator, chosen by the rule: paid
    goes to [paid]; otherwise persisted overdue, or pending with the due
    date past now, goes to [overdue]; everything else, draft and cancelled
    included, goes to [pending].  The accumulators after the scan, and the
    amounts [getInvoiceStats] prints, are the sums of the totals of the
    invoices of each bucket. *)
Theorem getInvoiceStats_buckets (userInvoices : list Schema.Invoice) :
  (forall acc invoice,
      tally h (newDateNow h) acc invoice
      = match bucketOf h invoice with
        | ToPaid => addPaid acc (invoiceTotal h invoice)
        | ToOverdue => addOverdue acc (invoiceTotal h invoice)
        | ToPending => addPending acc (invoiceTotal h invoice)
        end)
  /\ scan h userInvoices
     = {| pending := bucketTotal h ToPending userInvoices;
          paid := bucketTotal h ToPaid userInvoices;
          overdue := bucketTotal h ToOverdue userInvoices |}
  /\ getInvoiceStats h userInvoices
     = {| totalInvoices := List.length userInvoices;
          pendingAmount := "$" ++ toFixed2 (bucketTotal h ToPending userInvoices);
          paidAmount := "$" ++ toFixed2 (bucketTotal h ToPaid userInvoices);
          overdueAmount := "$" ++ toFixed2 (bucketTotal h ToOverdue userInvoices) |}
  /\ (forall acc invoice,
         Schema.status invoice = "draft" \/ Schema.status invoice = "cancelled" ->
         tally h (newDateNow h) acc invoice = addPending acc (invoiceTotal h invoice)).
Proof.
  split; [exact tally_bucketOf | split; [apply scan_buckets | split]].
  - unfold getInvoiceStats. now rewrite scan_buckets.
  - intros acc invoice [E | E]; unfold tally; rewrite E; reflexivity.
Qed.




(** The badge rule implies the aggregator's test: a due date before the
    start of today is before now.  The converse fails on the due day. *)
Lemma isInvoiceOverdue_strictlyPast (dueDate : string) :
  isInvoiceOverdue h dueDate "pending" = true -> strictlyPast h dueDate = true.
Proof.
  rewrite isInvoiceOverdue_unpaid by reflexivity.
  unfold strictlyPast.
  destruct (startOfToday_le_clock h) as (t & -> & Ht).
  unfold newDateNow. destruct (newDateStr h dueDate) as [d |]; simpl; [| discriminate].
  intros H. apply Z.ltb_lt in H. apply Z.ltb_lt. lia.
Qed.

(** The two rules differ exactly on the pending invoices whose due date
    lies between the start of today and now. *)
Lemma rules_differ_within_today (dueDate : string) (due : Z) :
  newDateStr h dueDate = Some due ->
  (strictlyPast h dueDate = true /\ isInvoiceOverdue h dueDate "pending" = false)
  <-> exists today, startOfToday h = Some today /\ (today <= due < clock h)%Z.
Proof.
  intros E. rewrite isInvoiceOverdue_unpaid by reflexivity.
  unfold strictlyPast, newDateNow. rewrite E.
  destruct (startOfToday_le_clock h) as (t & Et & Ht). rewrite Et. simpl.
  rewrite Z.ltb_lt, Z.ltb_ge. split.
  - intros [H1 H2]. exists t. split; [reflexivity | lia].
  - intros (t' & Et' & H). injection Et' as <-. lia.
Qed.

End Statistics.

Lemma getInvoiceStats_buckets_witness :
  Schema.status (sampleInvoice "draft" "2024-01-01" "40.00") = "draft"%string
  /\ tally (hostAt noon_2024_06_01) (newDateNow (hostAt noon_2024_06_01))
           {| pending := lit 0; paid := lit 0; overdue := lit 0 |}
           (sampleInvoice "draft" "2024-01-01" "40.00")
     = addPending {| pending := lit 0; paid := lit 0; overdue := lit 0 |}
                  (invoiceTotal (hostAt noon_2024_06_01)
                                (sampleInvoice "draft" "2024-01-01" "40.00")).
Proof.
  split; [reflexivity |].
  apply (proj2 (proj2 (proj2 (getInvoiceStats_buckets (hostAt noon_2024_06_01) [])))).
  left. reflexivity.
Defined.

(** The statistics of four invoices on 1 June 2024. *)
Example getInvoiceStats_sample :
  getInvoiceStats (hostAt noon_2024_06_01)
    [ sampleInvoice "paid" "2024-01-01" "100.00";
      sampleInvoice "pending" "2024-01-01" "50.25";
      sampleInvoice "draft" "2024-01-01" "40.00";
      sampleInvoice "cancelled" "2024-01-01" "9.99" ]
  = {| totalInvoices := 4; pendingAmount := "$49.99";
       paidAmount := "$100.00"; overdueAmount := "$50.25" |}.
Proof. vm_compute. reflexivity. Qed.

(** ** C6 at the failing input: a pending invoice due on 1 January 2024, seen
    at noon (UTC) of that day.  The aggregator's test [dueDate < now] puts
    its total under [overdueAmount]; [isInvoiceOverdue] and
    [getInvoiceStatus], which compare with the start of the day, keep it
    pending. *)
Lemma aggregator_and_badge_disagree :
  getInvoiceStats (hostAt noon_2024_01_01) [sampleInvoice "pending" "2024-01-01" "100.00"]
  = {| totalInvoices := 1; pendingAmount := "$0.00";
       paidAmount := "$0.00"; overdueAmount := "$100.00" |}
  /\ isInvoiceOverdue (hostAt noon_2024_01_01) "2024-01-01" "pending" = false
  /\ getInvoiceStatus (hostAt noon_2024_01_01) "pending" "2024-01-01" = "pending"%string.
Proof. split; [vm_compute; reflexivity | split; reflexivity]. Qed.



(** ** C2 at the failing input: a cancelled invoice that was due on 1 January
    2024, seen on 1 June 2024.  [getInvoiceStatus], whose guard names
    "paid" and "draft" only, derives "overdue" for it; the aggregator
    counts it under [pendingAmount] and keeps it out of [overdueAmount]. *)
Lemma cancelled_derived_overdue :
  getInvoiceStatus (hostAt noon_2024_06_01) "cancelled" "2024-01-01" = "overdue"%string
  /\ getInvoiceStatus (hostAt noon_2024_06_01) "cancelled" "2024-01-01"
     <> "cancelled"%string
  /\ getInvoiceStats (hostAt noon_2024_06_01)
       [sampleInvoice "cancelled" "2024-01-01" "100.00"]
     = {| totalInvoices := 1; pendingAmount := "$100.00";
          paidAmount := "$0.00"; overdueAmount := "$0.00" |}.
Proof. split; [reflexivity | split; [discriminate | vm_compute; reflexivity]]. Qed.

(** ** C3 at the failing input: a pending invoice due on 1 January 2024, seen
    at noon (UTC) of that day.  The reference time is strictly past the due
    date, whose [Date] is that day's midnight, and [getInvoiceStatus],
    which compares with the start of the day, returns "pending"; the step
    of the aggregator, which compares with the reference time, adds the
    total to [overdue]. *)
Lemma pending_past_due_derived_pending :
  strictlyPast (hostAt noon_2024_01_01) "2024-01-01" = true
  /\ getInvoiceStatus (hostAt noon_2024_01_01) "pending" "2024-01-01" = "pending"%string
  /\ getInvoiceStatus (hostAt noon_2024_01_01) "pending" "2024-01-01" <> "overdue"%string
  /\ tally (hostAt noon_2024_01_01) (newDateNow (hostAt noon_2024_01_01))
           {| pending := lit 0; paid := lit 0; overdue := lit 0 |}
           (sampleInvoice "pending" "2024-01-01" "100.00")
     = addOverdue {| pending := lit 0; paid := lit 0; overdue := lit 0 |}
                  (invoiceTotal (hostAt noon_2024_01_01)
                                (sampleInvoice "pending" "2024-01-01" "100.00")).
Proof. split; [reflexivity | split; [reflexivity | split; [discriminate | reflexivity]]]. Qed.

(* ------------------------------------------------------------------ *)
(** ** The spreadsheet *)

Import Routes.

Section Sheet.

Local Open Scope string_scope.
Local Open Scope list_scope.

Lemma blankRow_not_keyValue : ~ isKeyValueRow blankRow.
Proof. intros (k & v & E & Hk). apply Hk. unfold blankRow in E. congruence. Qed.

(** Blocks of key/value rows end at the first blank row. *)
Lemma split_at_first_blank (l1 l2 r1 r2 : list Row) :
  Forall isKeyValueRow l1 -> Forall isKeyValueRow l2 ->
  l1 ++ blankRow :: r1 = l2 ++ blankRow :: r2 ->
  l1 = l2 /\ r1 = r2.
Proof.
  intros H1. revert l2. induction H1 as [| x l1 Hx _ IH]; intros l2 H2 E.
  - destruct H2 as [| y l2 Hy _]; simpl in E.
    + injection E as E. now split.
    + injection E as E _. subst y. now destruct blankRow_not_keyValue.
  - destruct H2 as [| y l2 Hy H2]; simpl in E.
    + injection E as E _. subst x. now destruct blankRow_not_keyValue.
    + injection E as E E'. subst y.
      destruct (IH l2 H2 E') as [-> ->]. now split.
Qed.

Lemma keyValue_intro (k v : string) : k <> "" -> isKeyValueRow [k; v].
Proof. intros H. now exists k, v. Qed.

Variable invoice : Schema.InvoiceWithDetails.

Lemma headerRows_keyValue : Forall isKeyValueRow (headerRows invoice).
Proof. repeat constructor; apply keyValue_intro; discriminate. Qed.

Lemma clientRows_keyValue : Forall isKeyValueRow (clientRows invoice).
Proof. repeat constructor; apply keyValue_intro; discriminate. Qed.

Lemma invoiceData_rows :
  invoiceData invoice
  = (headerRows invoice) ++ [blankRow] ++ (clientRows invoice) ++ [blankRow]
    ++ [["Items"; ""]] ++ [itemTableHeader]
    ++ map itemRow (Schema.items invoice)
    ++ [blankRow]
    ++ summaryRows (Schema.subtotal (Schema.invoice invoice))
                   (orStr (Schema.discount (Schema.invoice invoice)) "0")
                   (orStr (Schema.tax (Schema.invoice invoice)) "0")
                   (Schema.total (Schema.invoice invoice)).
Proof. reflexivity. Qed.

Lemma invoiceData_sheetLayout :
  sheetLayout (Schema.items invoice) (invoiceData invoice).
Proof.
  exists (headerRows invoice), (clientRows invoice).
  do 4 eexists.
  split; [apply headerRows_keyValue | split; [apply clientRows_keyValue |]].
  apply invoiceData_rows.
Qed.

(** The row after the second blank row is the title row, not the table
    header: the order the specification lists is not the sheet's. *)
Lemma invoiceData_not_claimedSheetLayout :
  ~ claimedSheetLayout (Schema.items invoice) (invoiceData invoice).
Proof.
  intros (header & client & s & d & t & tot & Hh & Hc & E).
  rewrite invoiceData_rows in E.
  set (mine := [["Items"; ""]] ++ [itemTableHeader] ++ map itemRow (Schema.items invoice)
               ++ [blankRow] ++ summaryRows _ _ _ _) in E.
  set (theirs := [itemTableHeader] ++ map itemRow (Schema.items invoice)
                 ++ [blankRow] ++ summaryRows s d t tot) in E.
  destruct (@split_at_first_blank (headerRows invoice) header
              ((clientRows invoice) ++ blankRow :: mine) (client ++ blankRow :: theirs)
              headerRows_keyValue Hh E) as [_ E1].
  destruct (@split_at_first_blank (clientRows invoice) client mine theirs
              clientRows_keyValue Hc E1) as [_ E2].
  discriminate E2.
Qed.

Lemma itemOfRow_itemRow (item : Schema.InvoiceItem) : itemOfRow (itemRow item) = Some item.
Proof. now destruct item. Qed.

(** Re-reading the sheet gives the items back, in order and verbatim. *)
Lemma itemsOfSheet_invoiceData :
  itemsOfSheet (invoiceData invoice) = map Some (Schema.items invoice).
Proof.
  unfold itemsOfSheet, invoiceData.
  set (items := Schema.items invoice).
  rewrite !length_app, length_map. cbn [List.length].
  replace (13 + (List.length items + 5) - 18)%nat with (List.length items) by lia.
  match goal with
  | |- context [skipn 13 (?pre ++ ?rest)] =>
      change (skipn 13 (pre ++ rest)) with rest
  end.
  rewrite <- (length_map (fun item => [Schema.description item; Schema.quantity item;
                                        Schema.rate item; Schema.amount item]) items) at 1.
  rewrite firstn_app, firstn_all, Nat.sub_diag. cbn [firstn].
  rewrite app_nil_r, map_map.
  apply map_ext. intros item. now destruct item.
Qed.

(** ** C8 (amended).  The rows of the sheet are, in this order: the
    invoice header pairs, a blank row, the client pairs, a blank row, the
    title row of the item table ("Items"), the item-table header row
    (Description, Quantity, Rate, Amount), one row per item in input order
    with the item's description, quantity, rate and amount as they are
    stored, a blank row, and the four summary rows (Subtotal, Discount (%),
    Tax (%), Total) with the value in the last column; re-reading the rows
    gives the items back verbatim. *)
Theorem invoiceData_layout :
  invoiceData invoice
  = headerRows invoice ++ [blankRow] ++ clientRows invoice ++ [blankRow]
    ++ [["Items"; ""]] ++ [itemTableHeader]
    ++ map itemRow (Schema.items invoice)
    ++ [blankRow]
    ++ summaryRows (Schema.subtotal (Schema.invoice invoice))
                   (orStr (Schema.discount (Schema.invoice invoice)) "0")
                   (orStr (Schema.tax (Schema.invoice invoice)) "0")
                   (Schema.total (Schema.invoice invoice))
  /\ Forall isKeyValueRow (headerRows invoice)
  /\ Forall isKeyValueRow (clientRows invoice)
  /\ sheetLayout (Schema.items invoice) (invoiceData invoice)
  /\ itemsOfSheet (invoiceData invoice) = map Some (Schema.items invoice).
Proof.
  split; [apply invoiceData_rows |].
  split; [apply headerRows_keyValue |].
  split; [apply clientRows_keyValue |].
  split; [apply invoiceData_sheetLayout | apply itemsOfSheet_invoiceData].
Qed.

End Sheet.

(** C8, as stated, fails: in the sheet of the sample invoice the row after
    the second blank row is the title row of the item table, and no
    splitting of the rows follows the listed order. *)
Lemma sheet_has_items_title_row :
  nth_error (invoiceData sampleDetails) 10 = Some blankRow
  /\ nth_error (invoiceData sampleDetails) 11 = Some ["Items"; ""]%string
  /\ nth_error (invoiceData sampleDetails) 12 = Some itemTableHeader
  /\ ~ claimedSheetLayout (Schema.items sampleDetails) (invoiceData sampleDetails).
Proof.
  repeat split; try reflexivity.
  apply invoiceData_not_claimedSheetLayout.
Qed.

(* ------------------------------------------------------------------ *)
(** ** The PDF document *)

Section Pdf.

Local Open Scope string_scope.
Local Open Scope list_scope.
Local Open Scope Z_scope.

Variable h : Host.
Variable invoice : Schema.InvoiceWithDetails.

(** The items loop appends [itemLines] and moves the cursor by 10 per item. *)
Lemma fold_addItemRow (items : list Schema.InvoiceItem) (doc : Doc) (y : Z) :
  fold_left addItemRow items (doc, y)
  = (doc ++ itemLines items y, y + 10 * Z.of_nat (List.length items)).
Proof.
  revert doc y. induction items as [| item items IH]; intros doc y.
  - simpl. rewrite app_nil_r. f_equal. lia.
  - cbn [fold_left addItemRow]. unfold text. rewrite IH.
    cbn [itemLines List.length]. rewrite <- !app_assoc. simpl app.
    f_equal. lia.
Qed.

(** [addTotals] appends [totalsBlock] to the document. *)
Lemma addTotals_append (doc : Doc) (y : Z) :
  addTotals h invoice (doc, y) = doc ++ totalsBlock h invoice y.
Proof.
  unfold totalsBlock, addTotals, text.
  destruct (positivePercent h (Schema.discount (Schema.invoice invoice)));
    destruct (positivePercent h (Schema.tax (Schema.invoice invoice)));
    simpl; rewrite <- ?app_assoc; reflexivity.
Qed.

(** The lines of the totals block. *)
Lemma totalsBlock_lines (y : Z) :
  exists yd yt yT : Z,
    totalsBlock h invoice y
    = [Text ("Subtotal: $" ++ Schema.subtotal (Schema.invoice invoice)) 120 (y + 10)]
      ++ match positivePercent h (Schema.discount (Schema.invoice invoice)) with
         | Some d => [Text ("Discount: " ++ d ++ "%") 120 yd]
         | None => []
         end
      ++ match positivePercent h (Schema.tax (Schema.invoice invoice)) with
         | Some t => [Text ("Tax: " ++ t ++ "%") 120 yt]
         | None => []
         end
      ++ [Text ("Total: $" ++ Schema.total (Schema.invoice invoice)) 120 yT].
Proof.
  unfold totalsBlock, addTotals, text.
  destruct (positivePercent h (Schema.discount (Schema.invoice invoice)));
    destruct (positivePercent h (Schema.tax (Schema.invoice invoice)));
    simpl.
  - exists (y + 10 + 10), (y + 10 + 10 + 10), (y + 10 + 10 + 10 + 10). reflexivity.
  - exists (y + 10 + 10), 0, (y + 10 + 10 + 10). reflexivity.
  - exists 0, (y + 10 + 10), (y + 10 + 10 + 10). reflexivity.
  - exists 0, 0, (y + 10 + 10). reflexivity.
Qed.

Lemma renderPdf_parts :
  renderPdf h invoice
  = (fixedLines invoice) ++ (addressLine invoice) ++ tableHead
    ++ itemLines (Schema.items invoice) 140
    ++ totalsBlock h invoice (140 + 10 * Z.of_nat (List.length (Schema.items invoice))).
Proof.
  unfold renderPdf, addItemsTable. rewrite fold_addItemRow, addTotals_append.
  unfold addClientDetails, addInvoiceDetails, addCompanyHeader, text, setFontSize,
    addressLine, fixedLines, tableHead.
  destruct (Schema.address (Schema.client invoice)) as [a |];
    [destruct (truthyStr a) |]; simpl; rewrite <- ?app_assoc; reflexivity.
Qed.

Lemma itemLines_below (items : list Schema.InvoiceItem) (y : Z) :
  110 < y -> existsb (textAt 20 110) (itemLines items y) = false.
Proof.
  revert y. induction items as [| item items IH]; intros y Hy; [reflexivity |].
  cbn [itemLines]. rewrite existsb_app, IH by lia.
  simpl. assert (E : (y =? 110) = false) by (apply Z.eqb_neq; lia).
  now rewrite E.
Qed.

Lemma totalsBlock_not_at_20 (y : Z) :
  existsb (textAt 20 110) (totalsBlock h invoice y) = false.
Proof.
  destruct (totalsBlock_lines y) as (yd & yt & yT & ->).
  destruct (positivePercent h (Schema.discount (Schema.invoice invoice)));
    destruct (positivePercent h (Schema.tax (Schema.invoice invoice))); reflexivity.
Qed.

Lemma addressLine_at : existsb (textAt 20 110) (addressLine invoice) = truthyOpt (Schema.address (Schema.client invoice)).
Proof.
  unfold addressLine, truthyOpt.
  destruct (Schema.address (Schema.client invoice)) as [a |]; [| reflexivity].
  destruct (truthyStr a); reflexivity.
Qed.

(** Under [parseFloat "" = NaN] the guard [p && parseFloat(p) > 0] holds
    exactly when the value of the column is positive. *)
Lemma positivePercent_gt (p : option string) :
  parseFloat h "" = NaN ->
  match positivePercent h p with Some _ => true | None => false end
  = gt (percentValue h p) (lit 0).
Proof.
  intros H0. unfold positivePercent, percentValue.
  destruct p as [s |]; [| reflexivity].
  destruct s as [| c s]; cbn [truthyStr andb].
  - now rewrite H0.
  - destruct (gt (parseFloat h (String c s)) (lit 0)); reflexivity.
Qed.

Lemma positivePercent_some (p : option string) (s : string) :
  positivePercent h p = Some s -> p = Some s.
Proof.
  unfold positivePercent. destruct p as [s' |]; [| discriminate].
  destruct (_ && _); [| discriminate]. congruence.
Qed.

Lemma last_app_singleton (A : Type) (l : list A) (x d : A) : last (l ++ [x]) d = x.
Proof. induction l as [| a [| b l] IH]; try reflexivity. exact IH. Qed.

(** ** C9.  In the document of every invoice (on a host whose
    [parseFloat] reads the empty string as [NaN], as JavaScript's does):
    a text is drawn at the place of the address line exactly when the
    client has an address, and it is the address; the totals block ends the
    document; its first line is the subtotal; it has a discount line
    exactly when discount > 0 and a tax line exactly when tax > 0; its last
    line, the last of the document, is the total. *)
Theorem renderPdf_conditional_lines :
  parseFloat h "" = NaN ->
  let doc := renderPdf h invoice in
  let y := 140 + 10 * Z.of_nat (List.length (Schema.items invoice)) in
  let block := totalsBlock h invoice y in
  existsb (textAt 20 110) doc = truthyOpt (Schema.address (Schema.client invoice))
  /\ (forall a, Schema.address (Schema.client invoice) = Some a -> a <> "" ->
      In (Text a 20 110) doc)
  /\ (exists before, doc = before ++ block)
  /\ hd_error block
     = Some (Text ("Subtotal: $" ++ Schema.subtotal (Schema.invoice invoice)) 120 (y + 10))
  /\ existsb (isLine "Discount: ") block
     = gt (percentValue h (Schema.discount (Schema.invoice invoice))) (lit 0)
  /\ existsb (isLine "Tax: ") block
     = gt (percentValue h (Schema.tax (Schema.invoice invoice))) (lit 0)
  /\ (exists yT,
         last block (SetFontSize 0)
         = Text ("Total: $" ++ Schema.total (Schema.invoice invoice)) 120 yT
         /\ last doc (SetFontSize 0)
            = Text ("Total: $" ++ Schema.total (Schema.invoice invoice)) 120 yT).
Proof.
  intros H0. cbv zeta.
  set (y := 140 + 10 * Z.of_nat (List.length (Schema.items invoice))).
  pose proof renderPdf_parts as P. fold y in P.
  destruct (totalsBlock_lines y) as (yd & yt & yT & B).
  split; [| split; [| split; [| split; [| split; [| split]]]]].
  - rewrite P, !existsb_app, addressLine_at, itemLines_below, totalsBlock_not_at_20 by lia.
    cbn [fixedLines tableHead existsb textAt Z.eqb Pos.eqb andb orb].
    now rewrite !orb_false_r.
  - intros a Ea Ha. rewrite P. apply in_or_app. right. apply in_or_app. left.
    unfold addressLine. rewrite Ea. destruct a; [now destruct Ha | now left].
  - rewrite P. exists ((fixedLines invoice) ++ (addressLine invoice) ++ tableHead
                        ++ itemLines (Schema.items invoice) 140).
    now rewrite <- !app_assoc.
  - rewrite B. reflexivity.
  - rewrite <- positivePercent_gt by exact H0. rewrite B.
    destruct (positivePercent h (Schema.discount (Schema.invoice invoice)));
      destruct (positivePercent h (Schema.tax (Schema.invoice invoice))); reflexivity.
  - rewrite <- positivePercent_gt by exact H0. rewrite B.
    destruct (positivePercent h (Schema.discount (Schema.invoice invoice)));
      destruct (positivePercent h (Schema.tax (Schema.invoice invoice))); reflexivity.
  - exists yT. split.
    + rewrite B, !app_assoc. apply last_app_singleton.
    + rewrite P, B, !app_assoc. apply last_app_singleton.
Qed.

End Pdf.

Lemma renderPdf_conditional_lines_witness :
  parseFloat (hostAt noon_2024_01_01) "" = NaN
  /\ existsb (textAt 20 110) (renderPdf (hostAt noon_2024_01_01) sampleDetails) = true
  /\ existsb (isLine "Discount: ")
             (totalsBlock (hostAt noon_2024_01_01) sampleDetails 160) = true.
Proof.
  split; [reflexivity |].
  pose proof (@renderPdf_conditional_lines (hostAt noon_2024_01_01) sampleDetails eq_refl)
    as (A & _ & _ & _ & D & _).
  split; [rewrite A; reflexivity |].
  change 160%Z with (140 + 10 * Z.of_nat (List.length (Schema.items sampleDetails)))%Z.
  rewrite D. vm_compute. reflexivity.
Defined.

(** The document of the sample invoice. *)
Example renderPdf_sample :
  renderPdf (hostAt noon_2024_01_01) sampleDetails
  = [ SetFontSize 20; Text "INVOICE" 20 30; SetFontSize 12;
      Text "Invoice #: INV-202401-000007" 20 50;
      Text "Issue Date: 2024-01-01" 20 60;
      Text "Due Date: 2024-01-02" 20 70;
      Text "Bill To:" 20 90; Text "Acme Ltd" 20 100; Text "1 Main Street" 20 110;
      Text "Description" 20 130; Text "Qty" 120 130; Text "Rate" 140 130;
      Text "Amount" 160 130;
      Text "Design" 20 140; Text "2.00" 120 140; Text "$50.00" 140 140;
      Text "$100.00" 160 140;
      Text "Hosting" 20 150; Text "1.00" 120 150; Text "$25.00" 140 150;
      Text "$25.00" 160 150;
      Text "Subtotal: $125.00" 120 170; Text "Discount: 10.00%" 120 180;
      Text "Tax: 5.00%" 120 190; Text "Total: $118.13" 120 200 ]%string%Z.
Proof. vm_compute. reflexivity. Qed.

(* ------------------------------------------------------------------ *)
(** ** Validation *)

Section Validation.

Local Open Scope string_scope.
Local Open Scope list_scope.

Variable h : Host.
Variable invoice : AnyInvoice.

Lemma in_optMsg (b : bool) (m x : string) : In x (optMsg b m) <-> b = true /\ m = x.
Proof. destruct b; simpl; intuition discriminate. Qed.

Lemma validateInvoiceData_returned (blank : bool) :
  notTrimmed (invoiceNumber invoice) = Returned blank ->
  validateInvoiceData h invoice = (Returned (errorsOf h invoice blank), invoice).
Proof.
  intros E. unfold validateInvoiceData, push, errorsOf. rewrite E.
  destruct blank, (truthyVal (clientId invoice)), (truthyVal (issueDate invoice)),
    (truthyVal (dueDate invoice)),
    (date_lt (newDateVal h (dueDate invoice)) (newDateVal h (issueDate invoice)));
    reflexivity.
Qed.

Lemma notTrimmed_cases :
  (exists n, invoiceNumber invoice = VNum n /\ notTrimmed (invoiceNumber invoice) = Threw)
  \/ (exists blank, notTrimmed (invoiceNumber invoice) = Returned blank
                    /\ (blank = false <-> nonBlank (invoiceNumber invoice))).
Proof.
  unfold nonBlank. destruct (invoiceNumber invoice) as [| | s | n]; simpl.
  - right. exists true. split; [reflexivity |].
    split; [discriminate | intros (s & E & _); discriminate].
  - right. exists true. split; [reflexivity |].
    split; [discriminate | intros (s & E & _); discriminate].
  - right. exists (negb (truthyStr (trim s))). split; [reflexivity |].
    split.
    + intros E. exists s. split; [reflexivity |].
      destruct (trim s); [discriminate | discriminate].
    + intros (s' & E & H). injection E as <-.
      destruct (trim s); [now destruct H | reflexivity].
  - left. exists n. split; reflexivity.
Qed.

Lemma messages_NoDup : NoDup messages.
Proof.
  unfold messages.
  repeat (constructor; [simpl; intuition discriminate |]). constructor.
Qed.

Lemma errorsOf_nil (blank : bool) :
  errorsOf h invoice blank = []
  <-> blank = false
      /\ truthyVal (clientId invoice) = true
      /\ (truthyVal (issueDate invoice) = true /\ truthyVal (dueDate invoice) = true)
      /\ date_lt (newDateVal h (dueDate invoice)) (newDateVal h (issueDate invoice)) = false.
Proof.
  unfold errorsOf.
  destruct blank, (truthyVal (clientId invoice)), (truthyVal (issueDate invoice)),
    (truthyVal (dueDate invoice)),
    (date_lt (newDateVal h (dueDate invoice)) (newDateVal h (issueDate invoice)));
    simpl; intuition discriminate.
Qed.

Lemma errorsOf_incl (blank : bool) : incl (errorsOf h invoice blank) messages.
Proof.
  intros x. unfold errorsOf, messages. rewrite !in_app_iff, !in_optMsg. simpl. tauto.
Qed.

Lemma errorsOf_NoDup (blank : bool) : NoDup (errorsOf h invoice blank).
Proof.
  unfold errorsOf.
  destruct blank, (truthyVal (clientId invoice)), (truthyVal (issueDate invoice)),
    (truthyVal (dueDate invoice)),
    (date_lt (newDateVal h (dueDate invoice)) (newDateVal h (issueDate invoice)));
    simpl; repeat (constructor; [simpl; intuition discriminate |]); constructor.
Qed.

Lemma not_true_negb (b : bool) : negb b = true <-> ~ b = true.
Proof. destruct b; simpl; intuition discriminate. Qed.

Lemma true_not_false (b : bool) : b = true <-> ~ b = false.
Proof. destruct b; simpl; intuition discriminate. Qed.

(** ** C10.  [validateInvoiceData] leaves the invoice as it was; it
    returns the empty list exactly when the invoice number is present and
    non-blank after trimming, the client is present, both dates are present
    and the due date is not before the issue date; it throws exactly when
    the invoice number is a number; each message is in the returned list
    exactly when its condition is violated, and the messages are pairwise
    distinct. *)
Theorem validateInvoiceData_errors :
  snd (validateInvoiceData h invoice) = invoice
  /\ (fst (validateInvoiceData h invoice) = Returned [] <-> validInvoice h invoice)
  /\ (fst (validateInvoiceData h invoice) = Threw
      <-> exists n, invoiceNumber invoice = VNum n)
  /\ (forall errors, fst (validateInvoiceData h invoice) = Returned errors ->
      (In "Invoice number is required" errors <-> ~ nonBlank (invoiceNumber invoice))
      /\ (In "Client is required" errors <-> ~ present (clientId invoice))
      /\ (In "Issue date is required" errors <-> ~ present (issueDate invoice))
      /\ (In "Due date is required" errors <-> ~ present (dueDate invoice))
      /\ (In "Due date must be after issue date" errors
          <-> ~ notBefore h (dueDate invoice) (issueDate invoice))
      /\ incl errors messages
      /\ NoDup errors)
  /\ NoDup messages.
Proof.
  unfold validInvoice, present, notBefore.
  destruct notTrimmed_cases as [(n & En & E) | (blank & E & Hb)].
  - assert (V : validateInvoiceData h invoice = (Threw, invoice))
      by (unfold validateInvoiceData; now rewrite E).
    rewrite V. simpl.
    split; [reflexivity | split; [| split; [| split; [| apply messages_NoDup]]]].
    + split; [discriminate |]. intros ((s & Es & _) & _). congruence.
    + split; [now exists n | reflexivity].
    + discriminate.
  - rewrite (validateInvoiceData_returned E). cbn [fst snd].
    assert (Hn : forall n, invoiceNumber invoice <> VNum n).
    { intros n En. rewrite En in E. discriminate. }
    split; [reflexivity | split; [| split; [| split; [| apply messages_NoDup]]]].
    + split.
      * intros H. injection H as H. apply errorsOf_nil in H.
        destruct H as (H1 & H2). split; [now apply Hb | exact H2].
      * intros (H1 & H2). f_equal. apply errorsOf_nil.
        split; [now apply Hb | exact H2].
    + split; [discriminate | intros (n & En); now destruct (Hn n)].
    + intros errors Er. injection Er as <-.
      split; [| split; [| split; [| split; [| split; [| split]]]]].
      * rewrite <- Hb. unfold errorsOf. rewrite !in_app_iff, !in_optMsg.
        destruct blank; intuition discriminate.
      * rewrite <- not_true_negb. unfold errorsOf. rewrite !in_app_iff, !in_optMsg.
        intuition discriminate.
      * rewrite <- not_true_negb. unfold errorsOf. rewrite !in_app_iff, !in_optMsg.
        intuition discriminate.
      * rewrite <- not_true_negb. unfold errorsOf. rewrite !in_app_iff, !in_optMsg.
        intuition discriminate.
      * rewrite <- true_not_false. unfold errorsOf. rewrite !in_app_iff, !in_optMsg.
        intuition discriminate.
      * apply errorsOf_incl.
      * apply errorsOf_NoDup.
Qed.

End Validation.

Lemma sampleForm_valid : validInvoice (hostAt noon_2024_01_01) sampleForm.
Proof.
  repeat split.
  exists "INV-202401-000007"%string. split; [reflexivity | discriminate].
Defined.

Lemma validateInvoiceData_errors_witness :
  validInvoice (hostAt noon_2024_01_01) sampleForm
  /\ fst (validateInvoiceData (hostAt noon_2024_01_01) sampleForm) = Returned [].
Proof.
  split; [exact sampleForm_valid |].
  apply (proj1 (proj2 (validateInvoiceData_errors (hostAt noon_2024_01_01) sampleForm))).
  exact sampleForm_valid.
Defined.

(** An invoice number made of a no-break space (U+00A0, the bytes 194 160)
    is blank. *)
Example validateInvoiceData_no_break_space :
  trim (String (ascii_of_N 194) (String (ascii_of_N 160) EmptyString)) = ""%string
  /\ fst (validateInvoiceData (hostAt noon_2024_01_01)
            {| invoiceNumber :=
                 VStr (String (ascii_of_N 194) (String (ascii_of_N 160) EmptyString));
               clientId := VNum (lit 3);
               issueDate := VStr "2024-01-01"; dueDate := VStr "2024-01-02" |})
     = Returned ["Invoice number is required"%string].
Proof. split; reflexivity. Qed.

(** A submission with a blank number, no client and the dates reversed. *)
Example validateInvoiceData_sample :
  fst (validateInvoiceData (hostAt noon_2024_01_01)
         {| invoiceNumber := VStr "   "; clientId := VNum (lit 0);
            issueDate := VStr "2024-01-02"; dueDate := VStr "2024-01-01" |})
  = Returned [ "Invoice number is required"; "Client is required";
               "Due date must be after issue date" ]%string.
Proof. reflexivity. Qed.

(* ================================================================== *)
(** * Further properties *)

(* ------------------------------------------------------------------ *)
(** ** More on the arithmetic *)

Section MoreTotals.

Local Open Scope Qc_scope.

(** A discount or a tax that is [NaN] makes the total [NaN]. *)
Lemma calculateInvoiceTotal_unparsed (s d t : number) :
  d = NaN \/ t = NaN -> calculateInvoiceTotal s d t = NaN.
Proof.
  intros [-> | ->]; unfold calculateInvoiceTotal.
  - now destruct s.
  - destruct (sub s (div (mul s d) (lit 100))); reflexivity.
Qed.

End MoreTotals.

(* ------------------------------------------------------------------ *)
(** ** Subtotals *)

Section Subtotals.

Local Open Scope Qc_scope.

Lemma sumNumbers_cons (x : number) (l : list number) :
  sumNumbers (x :: l) = add x (sumNumbers l).
Proof.
  unfold sumNumbers at 1. cbn [fold_left]. now rewrite fold_left_add, add_0_l.
Qed.

Lemma sumNumbers_app (l l' : list number) :
  sumNumbers (l ++ l') = add (sumNumbers l) (sumNumbers l').
Proof.
  induction l as [| x l IH].
  - simpl app. unfold sumNumbers at 2. cbn [fold_left]. now rewrite add_0_l.
  - simpl app. rewrite !sumNumbers_cons, IH. now rewrite add_assoc.
Qed.

(** A [reduce] that adds [f item] to the sum is the sum of the [f item]. *)
Lemma fold_left_add_map (A : Type) (f : A -> number) (l : list A) (a : number) :
  fold_left (fun sum item => add sum (f item)) l a = add a (sumNumbers (map f l)).
Proof.
  revert a. induction l as [| x l IH]; intros a; cbn [fold_left map].
  - unfold sumNumbers. cbn [fold_left]. now rewrite add_0_r.
  - now rewrite IH, sumNumbers_cons, add_assoc.
Qed.

End Subtotals.

(* ------------------------------------------------------------------ *)
(** ** Days between two dates *)

Section Days.

Local Open Scope Qc_scope.

Variable h : Host.

Lemma ofZ_sign (z : Z) : Qccompare (ofZ z) 0 = Lt <-> (z < 0)%Z.
Proof.
  rewrite <- Qclt_alt. unfold Qclt. rewrite this_ofZ.
  change (this 0) with (inject_Z 0). rewrite (Zlt_Qlt z 0). reflexivity.
Qed.

Lemma ofZ_minus (a b : Z) : ofZ (a - b) = ofZ a - ofZ b.
Proof.
  unfold Z.sub, Qcminus. now rewrite ofZ_plus, ofZ_opp.
Qed.

Lemma abs_ofZ (z : Z) : JsMath.abs (Fin (ofZ z)) = Fin (ofZ (Z.abs z)).
Proof.
  unfold JsMath.abs.
  destruct (Qccompare (ofZ z) 0) eqn:E.
  - f_equal. f_equal. symmetry. apply Z.abs_eq.
    destruct (Z.lt_ge_cases z 0) as [H | H]; [| lia].
    apply ofZ_sign in H. congruence.
  - apply (proj1 (ofZ_sign z)) in E. rewrite <- ofZ_opp. f_equal. f_equal.
    symmetry. apply Z.abs_neq. lia.
  - f_equal. f_equal. symmetry. apply Z.abs_eq.
    destruct (Z.lt_ge_cases z 0) as [H | H]; [| lia].
    apply ofZ_sign in H. congruence.
Qed.

Lemma msPerDay_literal :
  mul (mul (mul (lit 1000) (lit 60)) (lit 60)) (lit 24) = lit msPerDay.
Proof.
  unfold lit, mul, msPerDay. f_equal; try (rewrite <- !ofZ_mult; reflexivity).
Qed.

Lemma msPerDay_neq_0 : ofZ msPerDay <> 0.
Proof. apply ofZ_neq_0. discriminate. Qed.

(** The value for two valid dates. *)
Lemma daysBetween_valid (startDate endDate : string) (t1 t2 : Z) :
  newDateStr h startDate = Some t1 -> newDateStr h endDate = Some t2 ->
  InvoiceUtilsDisplay.daysBetween h startDate endDate
  = Fin (ofZ (Qceiling (ofZ (Z.abs (t2 - t1)) / ofZ msPerDay)%Qc)).
Proof.
  intros E1 E2. unfold InvoiceUtilsDisplay.daysBetween.
  rewrite E1, E2, msPerDay_literal. unfold JsMath.getTime.
  cbn [sub]. rewrite <- ofZ_minus, abs_ofZ. unfold div, lit.
  destruct (Qc_eq_dec (ofZ msPerDay) 0) as [E | _];
    [exfalso; exact (msPerDay_neq_0 E) | reflexivity].
Qed.

Lemma ceiling_bounds (a : Z) :
  let n := Qceiling (ofZ a / ofZ msPerDay)%Qc in
  ((n - 1) * msPerDay < a <= n * msPerDay)%Z.
Proof.
  cbv zeta. set (n := Qceiling (ofZ a / ofZ msPerDay)%Qc).
  pose proof (Qle_ceiling (ofZ a / ofZ msPerDay)%Qc) as Hu.
  pose proof (Qceiling_lt (ofZ a / ofZ msPerDay)%Qc) as Hl.
  fold n in Hu, Hl.
  rewrite this_div, !this_ofZ in Hu, Hl.
  unfold msPerDay in *.
  assert (E : (inject_Z a / inject_Z 86400000 == inject_Z a * (1 # 86400000))%Q)
    by (change (inject_Z 86400000) with 86400000%Q; field).
  rewrite E in Hu, Hl.
  split.
  - rewrite Zlt_Qlt, inject_Z_mult.
    change (inject_Z 86400000) with 86400000%Q.
    revert Hl. generalize (inject_Z (n - 1)) (inject_Z a). intros x y Hl. lra.
  - rewrite Zle_Qle, inject_Z_mult.
    change (inject_Z 86400000) with 86400000%Q.
    revert Hu. generalize (inject_Z n) (inject_Z a). intros x y Hu. lra.
Qed.

(** X6.  For two valid dates, whose time values are within
    8640000000000000 of the epoch, at most [2^53] milliseconds apart,
    [daysBetween] is the least whole number of days that covers the
    distance between them, in either order: [n] with
    [(n - 1) * 86400000 < |t2 - t1| <= n * 86400000] milliseconds; a started
    day counts as a day, and a date is 0 days from itself.  In this range
    the time values and their difference are binary64 numbers, and the
    rounding of the quotient, at most [2^-27], stays below the distance
    [1/86400000] of a quotient that is not whole from the next whole
    number. *)
Theorem daysBetween_ceiling (startDate endDate : string) (t1 t2 : Z) :
  newDateStr h startDate = Some t1 -> newDateStr h endDate = Some t2 ->
  (Z.abs t1 <= 8640000000000000)%Z -> (Z.abs t2 <= 8640000000000000)%Z ->
  (Z.abs (t2 - t1) <= 2 ^ 53)%Z ->
  exists n : Z,
    InvoiceUtilsDisplay.daysBetween h startDate endDate = lit n
    /\ ((n - 1) * msPerDay < Z.abs (t2 - t1) <= n * msPerDay)%Z
    /\ (t1 = t2 -> n = 0%Z).
Proof.
  intros E1 E2 _ _ _. rewrite (daysBetween_valid _ _ E1 E2).
  eexists. split; [reflexivity |].
  pose proof (ceiling_bounds (Z.abs (t2 - t1))) as B. cbv zeta in B.
  split; [exact B |].
  intros ->. rewrite Z.sub_diag in *. simpl Z.abs in *. unfold msPerDay in *. lia.
Qed.

(** X7.  [daysBetween] is symmetric in its two dates, and it is [NaN]
    exactly when one of the two strings is not a date. *)
Theorem daysBetween_symmetric (startDate endDate : string) :
  InvoiceUtilsDisplay.daysBetween h startDate endDate
  = InvoiceUtilsDisplay.daysBetween h endDate startDate
  /\ (InvoiceUtilsDisplay.daysBetween h startDate endDate = NaN
      <-> newDateStr h startDate = None \/ newDateStr h endDate = None).
Proof.
  destruct (newDateStr h startDate) as [t1 |] eqn:E1;
    destruct (newDateStr h endDate) as [t2 |] eqn:E2.
  - rewrite (daysBetween_valid _ _ E1 E2), (daysBetween_valid _ _ E2 E1).
    replace (Z.abs (t1 - t2)) with (Z.abs (t2 - t1)) by lia.
    split; [reflexivity |].
    split; [discriminate | intros [H | H]; discriminate].
  - unfold InvoiceUtilsDisplay.daysBetween. rewrite E1, E2. simpl.
    split; [reflexivity | split; auto].
  - unfold InvoiceUtilsDisplay.daysBetween. rewrite E1, E2. simpl.
    split; [reflexivity | split; auto].
  - unfold InvoiceUtilsDisplay.daysBetween. rewrite E1, E2. simpl.
    split; [reflexivity | split; auto].
Qed.

End Days.

Lemma daysBetween_ceiling_witness :
  exists n : Z,
    InvoiceUtilsDisplay.daysBetween (hostAt noon_2024_01_01) "2023-12-31" "2024-01-02" = lit n
    /\ ((n - 1) * msPerDay < Z.abs (1704153600000 - 1703980800000) <= n * msPerDay)%Z
    /\ (1703980800000%Z = 1704153600000%Z -> n = 0%Z).
Proof.
  apply (@daysBetween_ceiling (hostAt noon_2024_01_01) "2023-12-31" "2024-01-02"
           1703980800000 1704153600000);
    [reflexivity | reflexivity | | |]; vm_compute; discriminate.
Defined.

(* ------------------------------------------------------------------ *)
(** ** More on the status derivation *)

Section MoreStatus.

Local Open Scope string_scope.

Lemma getInvoiceStatus_kept (h : Host) (currentStatus dueDate : string) :
  (currentStatus =? "paid") || (currentStatus =? "draft") = true ->
  getInvoiceStatus h currentStatus dueDate = currentStatus.
Proof. intros E. unfold getInvoiceStatus. now rewrite E. Qed.

(** X8.  [getInvoiceStatus] is idempotent: deriving the status of the
    derived status changes nothing.  The derived status is the given one or
    "overdue", and "overdue" is always reported as "overdue". *)
Theorem getInvoiceStatus_idempotent (h : Host) (currentStatus dueDate : string) :
  getInvoiceStatus h (getInvoiceStatus h currentStatus dueDate) dueDate
  = getInvoiceStatus h currentStatus dueDate
  /\ (getInvoiceStatus h currentStatus dueDate = currentStatus
      \/ getInvoiceStatus h currentStatus dueDate = "overdue")
  /\ getInvoiceStatus h "overdue" dueDate = "overdue".
Proof.
  assert (O : getInvoiceStatus h "overdue" dueDate = "overdue").
  { rewrite getInvoiceStatus_dated by reflexivity. now destruct (date_lt _ _). }
  split; [| split; [| exact O]].
  - destruct (currentStatus =? "paid") eqn:E1; [| destruct (currentStatus =? "draft") eqn:E2].
    + rewrite !(getInvoiceStatus_kept h currentStatus dueDate); try reflexivity;
        now rewrite E1.
    + rewrite !(getInvoiceStatus_kept h currentStatus dueDate); try reflexivity;
        now rewrite E2, orb_true_r.
    + rewrite (@getInvoiceStatus_dated h _ dueDate E1 E2).
      destruct (date_lt (newDateStr h dueDate) (startOfToday h)) eqn:D.
      * exact O.
      * rewrite (@getInvoiceStatus_dated h _ dueDate E1 E2). now rewrite D.
  - destruct (currentStatus =? "paid") eqn:E1; [| destruct (currentStatus =? "draft") eqn:E2].
    + left. apply getInvoiceStatus_kept. now rewrite E1.
    + left. apply getInvoiceStatus_kept. now rewrite E2, orb_true_r.
    + rewrite (@getInvoiceStatus_dated h _ dueDate E1 E2).
      destruct (date_lt _ _); [now right | now left].
Qed.

Lemma startOfToday_monotone (h h' : Host) :
  localTZA h' = localTZA h -> (clock h <= clock h')%Z ->
  exists t t', startOfToday h = Some t /\ startOfToday h' = Some t' /\ (t <= t')%Z.
Proof.
  intros Etz Hc. unfold startOfToday, newDateNow, setHours0. rewrite Etz.
  eexists. eexists. split; [reflexivity | split; [reflexivity |]].
  assert (H : ((clock h + localTZA h) / msPerDay <= (clock h' + localTZA h) / msPerDay)%Z)
    by (apply Z.div_le_mono; [reflexivity | lia]).
  unfold msPerDay in *. nia.
Qed.

(** X9.  Overdue is for good: on a host that reads the same dates in the
    same time zone at a later clock, an invoice that [isInvoiceOverdue]
    finds overdue is still overdue, and a status derived as "overdue" is
    still derived as "overdue". *)
Theorem isInvoiceOverdue_later (h h' : Host) (dueDate status : string) :
  dateParse h' dueDate = dateParse h dueDate ->
  localTZA h' = localTZA h ->
  (clock h <= clock h')%Z ->
  (isInvoiceOverdue h dueDate status = true -> isInvoiceOverdue h' dueDate status = true)
  /\ (getInvoiceStatus h status dueDate = "overdue"
      -> getInvoiceStatus h' status dueDate = "overdue").
Proof.
  intros Ed Etz Hc.
  destruct (startOfToday_monotone h h' Etz Hc) as (t & t' & Et & Et' & Ht).
  assert (D : date_lt (newDateStr h dueDate) (startOfToday h) = true ->
              date_lt (newDateStr h' dueDate) (startOfToday h') = true).
  { unfold newDateStr. rewrite Ed, Et, Et'.
    destruct (dateParse h dueDate) as [d |]; simpl; [| discriminate].
    rewrite !Z.ltb_lt. lia. }
  split.
  - unfold isInvoiceOverdue. destruct (status =? "paid"); [discriminate | exact D].
  - destruct (status =? "paid") eqn:E1; [| destruct (status =? "draft") eqn:E2].
    + rewrite !getInvoiceStatus_kept by (now rewrite E1). auto.
    + rewrite !getInvoiceStatus_kept by (now rewrite E2, orb_true_r). auto.
    + rewrite !getInvoiceStatus_dated by assumption.
      destruct (date_lt (newDateStr h dueDate) (startOfToday h)) eqn:D1.
      * now rewrite (D eq_refl).
      * intros E. rewrite E. destruct (date_lt (newDateStr h' dueDate) (startOfToday h')); reflexivity.
Qed.

Lemma isInvoiceOverdue_later_witness :
  isInvoiceOverdue (hostAt noon_2024_01_01) "2023-12-31" "pending" = true
  /\ isInvoiceOverdue (hostAt noon_2024_06_01) "2023-12-31" "pending" = true.
Proof.
  split; [reflexivity |].
  apply (proj1 (@isInvoiceOverdue_later (hostAt noon_2024_01_01) (hostAt noon_2024_06_01)
                  "2023-12-31" "pending" eq_refl eq_refl
                  ltac:(vm_compute; discriminate))).
  reflexivity.
Defined.

(** X10.  A due date that does not parse is never overdue: whatever the
    status and the clock, [isInvoiceOverdue] is false and
    [getInvoiceStatus] returns the status it was given; the statistics
    count a pending invoice with such a due date as pending. *)
Theorem invalid_dueDate_never_overdue (h : Host) (status dueDate : string) :
  newDateStr h dueDate = None ->
  isInvoiceOverdue h dueDate status = false
  /\ getInvoiceStatus h status dueDate = status
  /\ (forall acc invoice,
         Schema.status invoice = "pending" -> Schema.dueDate invoice = dueDate ->
         tally h (newDateNow h) acc invoice = addPending acc (invoiceTotal h invoice)).
Proof.
  intros E.
  assert (I : forall s, isInvoiceOverdue h dueDate s = false).
  { intros s. unfold isInvoiceOverdue. rewrite E. now destruct (s =? "paid"). }
  split; [apply I | split].
  - unfold getInvoiceStatus. rewrite I. now destruct (_ || _).
  - intros acc invoice Es Ed. unfold tally. rewrite Es, Ed, E. reflexivity.
Qed.

Lemma invalid_dueDate_never_overdue_witness :
  newDateStr (hostAt noon_2024_06_01) "soon" = None
  /\ getInvoiceStatus (hostAt noon_2024_06_01) "pending" "soon" = "pending".
Proof.
  split; [reflexivity |].
  apply (@invalid_dueDate_never_overdue (hostAt noon_2024_06_01) "pending" "soon" eq_refl).
Defined.

End MoreStatus.

(* ------------------------------------------------------------------ *)
(** ** Colours, badges and letter case *)

Section Display.

Local Open Scope string_scope.

Import JsText InvoiceUtilsDisplay.

Lemma toLowerChar_toUpperChar (c : ascii) : toLowerChar (toUpperChar c) = toLowerChar c.
Proof. destruct c as [[] [] [] [] [] [] [] []]; reflexivity. Qed.

Lemma toUpperChar_toLowerChar (c : ascii) : toUpperChar (toLowerChar c) = toUpperChar c.
Proof. destruct c as [[] [] [] [] [] [] [] []]; reflexivity. Qed.

Lemma toUpperChar_idem (c : ascii) : toUpperChar (toUpperChar c) = toUpperChar c.
Proof. destruct c as [[] [] [] [] [] [] [] []]; reflexivity. Qed.

Lemma toLowerCase_toUpperCase (s : string) : toLowerCase (toUpperCase s) = toLowerCase s.
Proof.
  unfold toLowerCase, toUpperCase.
  induction s as [| c s IH]; [reflexivity |].
  cbn [mapChars]. now rewrite toLowerChar_toUpperChar, IH.
Qed.

Lemma toUpperCase_toLowerCase (s : string) : toUpperCase (toLowerCase s) = toUpperCase s.
Proof.
  unfold toLowerCase, toUpperCase.
  induction s as [| c s IH]; [reflexivity |].
  cbn [mapChars]. now rewrite toUpperChar_toLowerChar, IH.
Qed.

Lemma mapChars_length (f : ascii -> ascii) (s : string) :
  String.length (mapChars f s) = String.length s.
Proof. induction s as [| c s IH]; simpl; congruence. Qed.

Lemma isAscii_mapChars (f : ascii -> ascii) (s : string) :
  (forall c, (N_of_ascii c <? 128)%N = true -> (N_of_ascii (f c) <? 128)%N = true) ->
  isAscii s = true -> isAscii (mapChars f s) = true.
Proof.
  intros Hf. induction s as [| c s IH]; [reflexivity |].
  cbn [isAscii mapChars]. intros H. apply andb_true_iff in H. destruct H as [Hc Hs].
  now rewrite (Hf c Hc), (IH Hs).
Qed.

Lemma toUpperChar_ascii (c : ascii) :
  (N_of_ascii c <? 128)%N = true -> (N_of_ascii (toUpperChar c) <? 128)%N = true.
Proof. destruct c as [[] [] [] [] [] [] [] []]; intros H; try reflexivity; discriminate H. Qed.

(** X11.  For a status of ASCII characters, the colour depends on the
    status up to letter case only, and tells paid, pending and overdue
    apart: green exactly for "paid", yellow exactly for "pending", red
    exactly for "overdue" (in any case), gray for everything else, draft
    and cancelled included. *)
Theorem getStatusColor_cases (status : string) :
  isAscii status = true ->
  let s := toLowerCase status in
  (getStatusColor status = "bg-green-100 text-green-800" <-> s = "paid")
  /\ (getStatusColor status = "bg-yellow-100 text-yellow-800" <-> s = "pending")
  /\ (getStatusColor status = "bg-red-100 text-red-800" <-> s = "overdue")
  /\ (getStatusColor status = "bg-gray-100 text-gray-800"
      <-> s <> "paid" /\ s <> "pending" /\ s <> "overdue")
  /\ getStatusColor (toUpperCase status) = getStatusColor status.
Proof.
  intros _. cbv zeta. unfold getStatusColor. rewrite toLowerCase_toUpperCase.
  destruct (String.eqb_spec (toLowerCase status) "paid") as [-> | N1].
  { repeat split; intros; try discriminate; try reflexivity; tauto. }
  destruct (String.eqb_spec (toLowerCase status) "pending") as [-> | N2].
  { repeat split; intros; try discriminate; try reflexivity; tauto. }
  destruct (String.eqb_spec (toLowerCase status) "overdue") as [-> | N3].
  { repeat split; intros; try discriminate; try reflexivity; tauto. }
  destruct (toLowerCase status =? "draft");
    repeat split; intros; try discriminate; try reflexivity; try assumption; tauto.
Qed.

Lemma getStatusColor_cases_witness :
  isAscii "Overdue" = true
  /\ (getStatusColor "Overdue" = "bg-red-100 text-red-800"
      <-> toLowerCase "Overdue" = "overdue").
Proof.
  split; [reflexivity |].
  apply (proj1 (proj2 (proj2 (getStatusColor_cases "Overdue" eq_refl)))).
Defined.

(** X12.  On a status of ASCII characters written in lower case the badge
    of the dashboard has the colour [getStatusColor] gives; every status
    other than "paid", "pending" and "overdue", "cancelled" included, is
    shown with the label "Draft". *)
Theorem getStatusBadge_getStatusColor (status : string) :
  (isAscii status = true -> toLowerCase status = status ->
   Dashboard.className (Dashboard.getStatusBadge status) = getStatusColor status)
  /\ (status <> "paid" -> status <> "pending" -> status <> "overdue" ->
      Dashboard.getStatusBadge status
      = {| Dashboard.className := "bg-gray-100 text-gray-800";
           Dashboard.label := "Draft" |}).
Proof.
  unfold Dashboard.getStatusBadge, getStatusColor. split.
  - intros _ ->.
    destruct (status =? "paid"); [reflexivity |].
    destruct (status =? "pending"); [reflexivity |].
    destruct (status =? "overdue"); [reflexivity |].
    now destruct (status =? "draft").
  - intros N1 N2 N3.
    apply String.eqb_neq in N1, N2, N3. now rewrite N1, N2, N3.
Qed.

Lemma getStatusBadge_getStatusColor_witness :
  toLowerCase "cancelled" = "cancelled"
  /\ Dashboard.className (Dashboard.getStatusBadge "cancelled") = getStatusColor "cancelled"
  /\ Dashboard.label (Dashboard.getStatusBadge "cancelled") = "Draft".
Proof.
  split; [reflexivity |].
  split.
  - apply (proj1 (getStatusBadge_getStatusColor "cancelled")); reflexivity.
  - rewrite (proj2 (getStatusBadge_getStatusColor "cancelled"));
      [reflexivity | discriminate | discriminate | discriminate].
Defined.

(** X13.  On invoice numbers of ASCII characters, [formatInvoiceNumber]
    gives a string of ASCII characters of the same length, changes nothing
    when applied again, and gives the same result for two invoice numbers
    exactly when they are equal up to the case of their letters. *)
Theorem formatInvoiceNumber_case (a b : string) :
  isAscii a = true -> isAscii b = true ->
  isAscii (formatInvoiceNumber a) = true
  /\ String.length (formatInvoiceNumber a) = String.length a
  /\ formatInvoiceNumber (formatInvoiceNumber a) = formatInvoiceNumber a
  /\ (formatInvoiceNumber a = formatInvoiceNumber b <-> toLowerCase a = toLowerCase b).
Proof.
  intros Ha _. unfold formatInvoiceNumber.
  split; [apply isAscii_mapChars; [apply toUpperChar_ascii | exact Ha] |].
  split; [apply mapChars_length | split].
  - clear Ha. unfold toUpperCase. induction a as [| c a IH]; [reflexivity |].
    cbn [mapChars]. now rewrite toUpperChar_idem, IH.
  - split; intros H.
    + rewrite <- (toLowerCase_toUpperCase a), <- (toLowerCase_toUpperCase b). now rewrite H.
    + rewrite <- (toUpperCase_toLowerCase a), <- (toUpperCase_toLowerCase b). now rewrite H.
Qed.

End Display.

Lemma formatInvoiceNumber_case_witness :
  InvoiceUtilsDisplay.formatInvoiceNumber "inv-202401-000007"
  = InvoiceUtilsDisplay.formatInvoiceNumber "Inv-202401-000007".
Proof.
  apply (proj2 (proj2 (proj2 (@formatInvoiceNumber_case "inv-202401-000007" "Inv-202401-000007"
                                eq_refl eq_refl)))).
  reflexivity.
Defined.

(* ------------------------------------------------------------------ *)
(** ** More on validation *)

Section MoreValidation.

Local Open Scope string_scope.

Variable h : Host.

(** X14.  [validateInvoiceData] does not check that the dates are dates:
    the message about the order of the dates is reported only when both
    parse, so an invoice with a number, a client and two non-empty date
    strings one of which does not parse is accepted. *)
Theorem validateInvoiceData_unparsed_dates (invoice : AnyInvoice) (issue due : string) :
  nonBlank (invoiceNumber invoice) -> present (clientId invoice) ->
  issueDate invoice = VStr issue -> dueDate invoice = VStr due ->
  issue <> "" -> due <> "" ->
  dateParse h issue = None \/ dateParse h due = None ->
  fst (validateInvoiceData h invoice) = Returned [].
Proof.
  intros Hn Hc Ei Ed Ni Nd Hp.
  destruct (notTrimmed_cases invoice) as [(n & En & _) | (blank & E & Hb)].
  - destruct Hn as (s & Es & _). congruence.
  - rewrite (validateInvoiceData_returned h invoice E). cbn [fst]. f_equal.
    apply errorsOf_nil. split; [now apply Hb | split; [exact Hc | split]].
    + rewrite Ei, Ed. split.
      * destruct issue; [now destruct Ni | reflexivity].
      * destruct due; [now destruct Nd | reflexivity].
    + rewrite Ei, Ed. cbn [newDateVal].
      destruct Hp as [-> | ->]; [now destruct (dateParse h due) | reflexivity].
Qed.

End MoreValidation.

Lemma validateInvoiceData_unparsed_dates_witness :
  fst (validateInvoiceData (hostAt noon_2024_01_01)
         {| invoiceNumber := VStr "INV-1"; clientId := VNum (lit 3);
            issueDate := VStr "tomorrow"; dueDate := VStr "2024-01-01" |})
  = Returned [].
Proof.
  apply (@validateInvoiceData_unparsed_dates (hostAt noon_2024_01_01) _
           "tomorrow" "2024-01-01").
  - exists "INV-1"%string. split; [reflexivity | discriminate].
  - reflexivity.
  - reflexivity.
  - reflexivity.
  - discriminate.
  - discriminate.
  - left. reflexivity.
Defined.

(* ------------------------------------------------------------------ *)
(** ** The forms: amounts, subtotal and total *)

Section FormAmounts.

Local Open Scope Qc_scope.

Variable h : Host.

Lemma or_else_zero_finite (a : number) : exists q : Qc, or_else a (lit 0) = Fin q.
Proof.
  unfold or_else, truthy. destruct a as [| x]; [now exists (ofZ 0) |].
  destruct (Qc_eq_dec x 0); [now exists (ofZ 0) | now exists x].
Qed.

Lemma or_else_zero_Fin (q : Qc) : or_else (Fin q) (lit 0) = Fin q.
Proof.
  unfold or_else, truthy. destruct (Qc_eq_dec q 0) as [-> | _]; reflexivity.
Qed.

Lemma getItemAmount_unparsed (item : InvoiceForm.ItemFormData) :
  parseFloat h (InvoiceForm.quantity item) = NaN
  \/ parseFloat h (InvoiceForm.rate item) = NaN ->
  InvoiceFormComponent.getItemAmount h item = lit 0.
Proof.
  unfold InvoiceFormComponent.getItemAmount. intros [E | E]; rewrite E.
  - destruct (or_else_zero_finite (parseFloat h (InvoiceForm.rate item))) as (r & ->).
    unfold or_else, truthy, lit, mul. f_equal. change (ofZ 0) with 0. ring.
  - destruct (or_else_zero_finite (parseFloat h (InvoiceForm.quantity item))) as (q & ->).
    unfold or_else, truthy, lit, mul. f_equal. change (ofZ 0) with 0. ring.
Qed.

Lemma subtotal_sum (items : list InvoiceForm.ItemFormData) :
  InvoiceFormComponent.subtotal h items
  = sumNumbers (map (InvoiceFormComponent.getItemAmount h) items).
Proof.
  unfold InvoiceFormComponent.subtotal. now rewrite fold_left_add_map, add_0_l.
Qed.

Lemma calculateSubtotal_subtotal (items : list InvoiceForm.ItemFormData) :
  InvoiceForm.calculateSubtotal h items = InvoiceFormComponent.subtotal h items.
Proof. reflexivity. Qed.

(** X15.  An item of a form whose quantity or rate does not parse, the
    other field being unparsed too or a finite number, counts for 0: the
    subtotal is the same with and without it.  The page that creates an
    invoice and the [InvoiceForm] component compute the same subtotal. *)
Theorem form_subtotal_total (items items' : list InvoiceForm.ItemFormData)
        (item : InvoiceForm.ItemFormData) :
  InvoiceFormComponent.subtotal h items = InvoiceForm.calculateSubtotal h items
  /\ (parseFloat h (InvoiceForm.quantity item) = NaN
      /\ (parseFloat h (InvoiceForm.rate item) = NaN
          \/ exists r : Qc, parseFloat h (InvoiceForm.rate item) = Fin r)
      \/ parseFloat h (InvoiceForm.rate item) = NaN
         /\ (parseFloat h (InvoiceForm.quantity item) = NaN
             \/ exists q : Qc, parseFloat h (InvoiceForm.quantity item) = Fin q) ->
      InvoiceForm.calculateSubtotal h (items ++ item :: items')
      = InvoiceForm.calculateSubtotal h (items ++ items')).
Proof.
  split; [reflexivity |].
  intros E.
  assert (E' : parseFloat h (InvoiceForm.quantity item) = NaN
               \/ parseFloat h (InvoiceForm.rate item) = NaN)
    by (destruct E as [[E _] | [E _]]; [now left | now right]).
  rewrite !calculateSubtotal_subtotal, !subtotal_sum, !map_app.
  cbn [map]. rewrite !sumNumbers_app, sumNumbers_cons, (getItemAmount_unparsed item E').
  now rewrite add_0_l.
Qed.

(** X16.  The total of a form is [NaN] whenever the discount or the tax
    field, an empty or missing one being read as "0", does not parse,
    whatever the items are; the page and the component compute the same
    total. *)
Theorem form_total_NaN (items : list InvoiceForm.ItemFormData) (discount tax : option string) :
  (parseFloat h (orStr discount "0") = NaN \/ parseFloat h (orStr tax "0") = NaN ->
   InvoiceForm.calculateTotal h items discount tax = NaN)
  /\ InvoiceFormComponent.total h items discount tax
     = InvoiceForm.calculateTotal h items discount tax.
Proof.
  split; [| reflexivity].
  change (InvoiceForm.calculateTotal h items discount tax)
    with (calculateInvoiceTotal (InvoiceFormComponent.subtotal h items)
                                (parseFloat h (orStr discount "0"))
                                (parseFloat h (orStr tax "0"))).
  apply calculateInvoiceTotal_unparsed.
Qed.

(** X17.  [onSubmit] of the page and [handleSubmit] of the component
    submit the same invoice and the same items when every quantity and
    every rate parses to a finite number.  For an item whose quantity or
    rate does not parse, [onSubmit] submits the print of [NaN] as its
    amount, although the subtotal it submits counts the item for 0;
    [handleSubmit] submits the print of 0. *)
Theorem onSubmit_handleSubmit (str : number -> string)
        (items : list InvoiceForm.ItemFormData) (discount tax : option string)
        (data : CreateInvoice.InvoiceFormData) :
  (Forall (fun item => exists q r : Qc,
               parseFloat h (InvoiceForm.quantity item) = Fin q
               /\ parseFloat h (InvoiceForm.rate item) = Fin r) items ->
   CreateInvoice.onSubmit h str items discount tax data
   = InvoiceFormComponent.handleSubmit h str items discount tax data)
  /\ (forall item,
         parseFloat h (InvoiceForm.quantity item) = NaN
         \/ parseFloat h (InvoiceForm.rate item) = NaN ->
         map Schema.amount (CreateInvoice.invoiceItems h str [item]) = [str NaN]
         /\ map Schema.amount
                (snd (InvoiceFormComponent.handleSubmit h str [item] discount tax data))
            = [str (lit 0)]).
Proof.
  split.
  - intros H. unfold CreateInvoice.onSubmit, InvoiceFormComponent.handleSubmit.
    f_equal. unfold CreateInvoice.invoiceItems.
    apply map_ext_in. intros item Hi.
    rewrite Forall_forall in H. destruct (H item Hi) as (q & r & Eq & Er).
    unfold InvoiceFormComponent.getItemAmount.
    now rewrite Eq, Er, !or_else_zero_Fin.
  - intros item E. split.
    + cbn [CreateInvoice.invoiceItems map Schema.amount].
      destruct E as [-> | ->]; [reflexivity |].
      now destruct (parseFloat h (InvoiceForm.quantity item)).
    + cbn [InvoiceFormComponent.handleSubmit snd map Schema.amount].
      now rewrite (getItemAmount_unparsed item E).
Qed.

End FormAmounts.

Lemma form_subtotal_total_witness :
  parseFloat (hostAt noon_2024_01_01) "two" = NaN
  /\ InvoiceForm.calculateSubtotal (hostAt noon_2024_01_01)
       ([] ++ {| InvoiceForm.description := "Design"; InvoiceForm.quantity := "two";
                 InvoiceForm.rate := "50" |} :: [ItemList.blankItem])
     = InvoiceForm.calculateSubtotal (hostAt noon_2024_01_01) ([] ++ [ItemList.blankItem]).
Proof.
  split; [reflexivity |].
  apply (proj2 (form_subtotal_total (hostAt noon_2024_01_01) [] [ItemList.blankItem]
                  {| InvoiceForm.description := "Design"; InvoiceForm.quantity := "two";
                     InvoiceForm.rate := "50" |})).
  left. split; [reflexivity |]. right. eexists. vm_compute. reflexivity.
Defined.

Lemma form_total_NaN_witness :
  InvoiceForm.calculateTotal (hostAt noon_2024_01_01) [ItemList.blankItem]
    (Some "ten"%string) None
  = NaN.
Proof.
  apply (proj1 (form_total_NaN (hostAt noon_2024_01_01) [ItemList.blankItem]
                  (Some "ten"%string) None)).
  left. reflexivity.
Defined.

Lemma onSubmit_handleSubmit_witness :
  CreateInvoice.onSubmit (hostAt noon_2024_01_01) toFixed2
    [{| InvoiceForm.description := "Design"; InvoiceForm.quantity := "2";
        InvoiceForm.rate := "50.00" |}] None None Samples.sampleData
  = InvoiceFormComponent.handleSubmit (hostAt noon_2024_01_01) toFixed2
      [{| InvoiceForm.description := "Design"; InvoiceForm.quantity := "2";
          InvoiceForm.rate := "50.00" |}] None None Samples.sampleData.
Proof.
  apply (proj1 (onSubmit_handleSubmit (hostAt noon_2024_01_01) toFixed2 _ None None
                  Samples.sampleData)).
  repeat constructor.
  eexists. eexists. split; vm_compute; reflexivity.
Defined.

(* ------------------------------------------------------------------ *)
(** ** The forms: the list of items *)

Section FormItems.

Local Open Scope Z_scope.

Import ItemList.

Lemma filterOutIndex_before (A : Type) (l : list A) (index i : Z) :
  index < i -> filterOutIndex index i l = l.
Proof.
  revert i. induction l as [| x l IH]; intros i H; [reflexivity |].
  cbn [filterOutIndex]. destruct (Z.eqb_spec i index); [lia |].
  now rewrite IH by lia.
Qed.

Lemma filterOutIndex_spec (A : Type) (l : list A) (index i : Z) :
  i <= index ->
  filterOutIndex index i l
  = (firstn (Z.to_nat (index - i)) l ++ skipn (S (Z.to_nat (index - i))) l)%list.
Proof.
  revert i. induction l as [| x l IH]; intros i H.
  - cbn [filterOutIndex]. now rewrite firstn_nil, skipn_nil.
  - cbn [filterOutIndex]. destruct (Z.eqb_spec i index) as [-> | N].
    + rewrite Z.sub_diag. cbn [Z.to_nat firstn skipn app].
      apply filterOutIndex_before. lia.
    + rewrite IH by lia.
      replace (Z.to_nat (index - i)) with (S (Z.to_nat (index - (i + 1)))) by lia.
      reflexivity.
Qed.

Lemma length_remove_nth (A : Type) (l : list A) (k : nat) :
  (k < List.length l)%nat ->
  List.length (firstn k l ++ skipn (S k) l) = (List.length l - 1)%nat.
Proof.
  intros H. rewrite length_app, length_firstn, length_skipn. lia.
Qed.

Lemma removeItem_in_range (items : list InvoiceForm.ItemFormData) (index : Z) :
  (1 < List.length items)%nat -> 0 <= index < Z.of_nat (List.length items) ->
  removeItem items index
  = (firstn (Z.to_nat index) items ++ skipn (S (Z.to_nat index)) items)%list
  /\ List.length (removeItem items index) = (List.length items - 1)%nat.
Proof.
  intros Hl Hi. unfold removeItem.
  destruct (Z.ltb_spec 1 (Z.of_nat (List.length items))); [| lia].
  rewrite filterOutIndex_spec by lia. rewrite Z.sub_0_r.
  split; [reflexivity | apply length_remove_nth; lia].
Qed.

Lemma removeItem_unchanged (items : list InvoiceForm.ItemFormData) (index : Z) :
  (List.length items <= 1)%nat \/ index < 0 \/ Z.of_nat (List.length items) <= index ->
  removeItem items index = items.
Proof.
  intros H. unfold removeItem.
  destruct (Z.ltb_spec 1 (Z.of_nat (List.length items))) as [L | L]; [| reflexivity].
  destruct H as [H | [H | H]]; [lia | now apply filterOutIndex_before |].
  rewrite filterOutIndex_spec by lia. rewrite Z.sub_0_r.
  rewrite firstn_all2, skipn_all2 by lia. apply app_nil_r.
Qed.

Lemma removeItem_nonempty (items : list InvoiceForm.ItemFormData) (index : Z) :
  items <> [] -> removeItem items index <> [].
Proof.
  intros Hne E.
  destruct (Nat.le_gt_cases (List.length items) 1) as [L | L].
  - rewrite removeItem_unchanged in E by (now left). contradiction.
  - destruct (Z.lt_ge_cases index 0) as [Neg | Pos];
      [rewrite removeItem_unchanged in E by (right; now left); contradiction |].
    destruct (Z.lt_ge_cases index (Z.of_nat (List.length items))) as [In_ | Far];
      [| rewrite removeItem_unchanged in E by (right; now right); contradiction].
    destruct (removeItem_in_range items L (conj Pos In_)) as [_ Len].
    rewrite E in Len. simpl in Len. lia.
Qed.

(** X18.  [removeItem] never empties the list: a list of one item is left
    as it is.  On a longer list, an index of the list removes exactly the
    item at that index and keeps the others in order; any other index
    changes nothing. *)
Theorem removeItem_spec (items : list InvoiceForm.ItemFormData) (index : Z) :
  (items <> [] -> removeItem items index <> [])
  /\ ((1 < List.length items)%nat -> 0 <= index < Z.of_nat (List.length items) ->
      removeItem items index
      = (firstn (Z.to_nat index) items ++ skipn (S (Z.to_nat index)) items)%list
      /\ List.length (removeItem items index) = (List.length items - 1)%nat)
  /\ ((List.length items <= 1)%nat \/ index < 0 \/ Z.of_nat (List.length items) <= index ->
      removeItem items index = items).
Proof.
  split; [apply removeItem_nonempty
         | split; [apply removeItem_in_range | apply removeItem_unchanged]].
Qed.

Lemma removeItem_spec_witness :
  [ItemList.blankItem] <> [] /\ removeItem [ItemList.blankItem] 0 <> [].
Proof.
  split; [discriminate |].
  apply (proj1 (removeItem_spec [ItemList.blankItem] 0)). discriminate.
Defined.


Lemma skipn_nth_error (A : Type) (l : list A) (k : nat) (x : A) :
  nth_error l k = Some x -> skipn k l = x :: skipn (S k) l.
Proof.
  revert k. induction l as [| y l IH]; intros [| k] E; try discriminate.
  - injection E as ->. reflexivity.
  - change (skipn (S k) (y :: l)) with (skipn k l).
    change (skipn (S (S k)) (y :: l)) with (skipn (S k) l). now apply IH.
Qed.

Lemma updateItem_in_range (items : list InvoiceForm.ItemFormData) (index : Z)
      (field : Field) (value : string) :
  0 <= index < Z.of_nat (List.length items) ->
  exists item,
    nth_error items (Z.to_nat index) = Some item
    /\ updateItem items index field value
       = Some (firstn (Z.to_nat index) items
               ++ setField item field value :: skipn (S (Z.to_nat index)) items)%list.
Proof.
  intros H. unfold updateItem.
  destruct (Z.leb_spec 0 index); [| lia].
  destruct (Z.ltb_spec index (Z.of_nat (List.length items))); [| lia].
  cbn [andb].
  destruct (nth_error items (Z.to_nat index)) as [item |] eqn:E.
  - now exists item.
  - apply nth_error_None in E. lia.
Qed.

(** X20.  [updateItem] at an index of the list keeps the length of the
    list, puts the new value in the chosen field of the item at that index
    and leaves every other item as it was.  A new description does not
    change the subtotal. *)
Theorem updateItem_spec (h : Host) (items : list InvoiceForm.ItemFormData) (index : Z)
        (field : Field) (value : string) :
  0 <= index < Z.of_nat (List.length items) ->
  exists item updated,
    nth_error items (Z.to_nat index) = Some item
    /\ updateItem items index field value = Some updated
    /\ List.length updated = List.length items
    /\ nth_error updated (Z.to_nat index) = Some (setField item field value)
    /\ (forall k, k <> Z.to_nat index -> nth_error updated k = nth_error items k)
    /\ (field = Description ->
        InvoiceForm.calculateSubtotal h updated = InvoiceForm.calculateSubtotal h items).
Proof.
  - intros H. destruct (updateItem_in_range items field value H) as (item & E & U).
    exists item. eexists. split; [exact E | split; [exact U |]].
    set (k0 := Z.to_nat index) in *.
    assert (Hk : (k0 < List.length items)%nat) by lia.
    assert (Lf : List.length (firstn k0 items) = k0)
      by (rewrite length_firstn; lia).
    pose proof (firstn_skipn k0 items) as S0.
    assert (S1 : skipn k0 items = item :: skipn (S k0) items)
      by (apply skipn_nth_error; exact E).
    split; [| split; [| split]].
    + rewrite length_app. cbn [List.length]. rewrite Lf, length_skipn. lia.
    + rewrite nth_error_app2 by lia. rewrite Lf, Nat.sub_diag. reflexivity.
    + intros k Nk. rewrite <- S0 at 3. rewrite S1.
      destruct (Nat.lt_ge_cases k k0) as [Lt | Ge].
      * now rewrite !nth_error_app1 by lia.
      * rewrite !nth_error_app2 by lia. rewrite Lf.
        destruct (k - k0)%nat as [| m] eqn:Em; [lia | reflexivity].
    + intros ->. rewrite <- S0 at 3. rewrite S1.
      rewrite !calculateSubtotal_subtotal, !subtotal_sum, !map_app. cbn [map].
      reflexivity.
Qed.

Lemma updateItem_length (items updated : list InvoiceForm.ItemFormData) (index : Z)
      (field : Field) (value : string) :
  updateItem items index field value = Some updated ->
  List.length updated = List.length items.
Proof.
  unfold updateItem.
  destruct (Z.leb_spec 0 index); [| discriminate].
  destruct (Z.ltb_spec index (Z.of_nat (List.length items))); [| discriminate].
  cbn [andb].
  destruct (nth_error items (Z.to_nat index)) as [item |] eqn:E; [| discriminate].
  intros U. injection U as <-.
  assert (Hk : (Z.to_nat index < List.length items)%nat) by lia.
  rewrite length_app, length_firstn. cbn [List.length skipn].
  destruct items as [| x items]; [simpl in *; lia |].
  cbn [skipn]. rewrite length_skipn. cbn [List.length] in *. lia.
Qed.

(** X21.  A form never shows an empty list of items: starting from the
    one blank item of a new invoice, or from the items of an edited invoice
    that has some, every list reached by adding, removing and updating
    items has at least one item.  The form of an edited invoice without
    items starts with no item at all. *)
Theorem items_never_empty (invoiceItems : option (list Schema.InvoiceItem))
        (items : list InvoiceForm.ItemFormData) :
  (invoiceItems <> Some [] ->
   reachable (InvoiceFormComponent.initialItems invoiceItems) items ->
   items <> [])
  /\ (reachable CreateInvoice.initialItems items -> items <> [])
  /\ InvoiceFormComponent.initialItems (Some []) = [].
Proof.
  assert (R : forall start, start <> [] -> reachable start items -> items <> []).
  { intros start Hs. induction 1 as [| items _ IH | items index _ IH
                                       | items index field value updated _ IH U].
    - exact Hs.
    - unfold addItem. destruct items; discriminate.
    - now apply removeItem_nonempty.
    - apply updateItem_length in U. intros ->. destruct items; [now apply IH | discriminate]. }
  split; [| split; [| reflexivity]].
  - intros N Hr.
    apply (R (InvoiceFormComponent.initialItems invoiceItems)); [| exact Hr].
    destruct invoiceItems as [[| x l] |]; [now destruct N | discriminate | discriminate].
  - intros Hr.
    apply (R CreateInvoice.initialItems); [discriminate | exact Hr].
Qed.

End FormItems.


Lemma items_never_empty_witness :
  ItemList.reachable CreateInvoice.initialItems
    (ItemList.removeItem (ItemList.addItem CreateInvoice.initialItems) 0)
  /\ ItemList.removeItem (ItemList.addItem CreateInvoice.initialItems) 0 <> [].
Proof.
  assert (R : ItemList.reachable CreateInvoice.initialItems
                (ItemList.removeItem (ItemList.addItem CreateInvoice.initialItems) 0))
    by (apply ItemList.reach_remove, ItemList.reach_add, ItemList.reach_start).
  split; [exact R |].
  apply (proj1 (proj2 (items_never_empty None _)) R).
Defined.

Lemma updateItem_spec_witness :
  exists item updated,
    nth_error [ItemList.blankItem] (Z.to_nat 0) = Some item
    /\ ItemList.updateItem [ItemList.blankItem] 0 ItemList.Rate "25" = Some updated
    /\ List.length updated = 1%nat.
Proof.
  destruct (@updateItem_spec (hostAt noon_2024_01_01) [ItemList.blankItem] 0
              ItemList.Rate "25")
    as (item & updated & E & U & L & _).
  - simpl. lia.
  - exists item, updated. split; [exact E | split; [exact U | exact L]].
Defined.

(* ------------------------------------------------------------------ *)
(** ** More on the statistics *)

Section MoreStatistics.

Local Open Scope string_scope.

Lemma bucketTotal_NaN (h : Host) (invoice : Schema.Invoice) (l : list Schema.Invoice) :
  In invoice l -> invoiceTotal h invoice = NaN ->
  bucketTotal h (bucketOf h invoice) l = NaN.
Proof.
  intros Hin E. induction l as [| x l IH]; [contradiction |].
  rewrite bucketTotal_cons. destruct Hin as [-> | Hin].
  - rewrite E.
    assert (R : Bucket_eqb (bucketOf h invoice) (bucketOf h invoice) = true)
      by now destruct (bucketOf h invoice).
    now rewrite R.
  - rewrite (IH Hin).
    destruct (Bucket_eqb _ _); [| reflexivity]. now destruct (invoiceTotal h x).
Qed.

(** X23.  One total that does not parse spoils the amount of its bucket:
    with such an invoice among the paid ones the paid amount is printed as
    "$NaN", and likewise for an overdue one and for a draft or any other
    one that is counted as pending. *)
Theorem getInvoiceStats_unparsed_total (h : Host) (invoice : Schema.Invoice)
        (l : list Schema.Invoice) :
  In invoice l -> parseFloat h (Schema.total invoice) = NaN ->
  (Schema.status invoice = "paid" -> paidAmount (getInvoiceStats h l) = "$NaN")
  /\ (Schema.status invoice = "overdue" -> overdueAmount (getInvoiceStats h l) = "$NaN")
  /\ (Schema.status invoice <> "paid" -> Schema.status invoice <> "pending" ->
      Schema.status invoice <> "overdue" ->
      pendingAmount (getInvoiceStats h l) = "$NaN").
Proof.
  intros Hin E. pose proof (bucketTotal_NaN h invoice l Hin E) as B.
  unfold getInvoiceStats. rewrite scan_buckets.
  cbn [pendingAmount paidAmount overdueAmount pending paid overdue].
  unfold bucketOf, effectivelyOverdue in B.
  split; [| split].
  - intros Es. rewrite Es in B. cbn in B. now rewrite B.
  - intros Es. rewrite Es in B. cbn in B. now rewrite B.
  - intros N1 N2 N3. apply String.eqb_neq in N1, N2, N3.
    rewrite N1, N2, N3 in B. cbn in B. now rewrite B.
Qed.

Lemma tally_paid (h : Host) (now : timeValue) (acc : Amounts) (invoice : Schema.Invoice) :
  paid (tally h now acc invoice)
  = (if Schema.status invoice =? "paid"
     then add (paid acc) (parseFloat h (Schema.total invoice)) else paid acc).
Proof.
  unfold tally.
  destruct (Schema.status invoice =? "paid"); [reflexivity |].
  destruct (Schema.status invoice =? "pending");
    [destruct (date_lt _ _) | destruct (Schema.status invoice =? "overdue")];
    reflexivity.
Qed.

Lemma scan_paid (h h' : Host) (l : list Schema.Invoice) (acc acc' : Amounts)
      (now now' : timeValue) :
  (forall s, parseFloat h' s = parseFloat h s) ->
  paid acc' = paid acc ->
  paid (fold_left (tally h' now') l acc') = paid (fold_left (tally h now) l acc).
Proof.
  intros Hp. revert acc acc'.
  induction l as [| x l IH]; intros acc acc' E; [exact E |].
  cbn [fold_left]. apply IH.
  now rewrite !tally_paid, Hp, E.
Qed.

(** X24.  Time touches pending invoices only: on two hosts that parse
    numbers alike, whatever their clocks, their time zones and the way they
    parse dates, an invoice whose status is not "pending" is added to the
    same accumulator, and the number of invoices, the paid accumulator and
    the paid amount are the same. *)
Theorem getInvoiceStats_clock (h h' : Host) (l : list Schema.Invoice) :
  (forall s, parseFloat h' s = parseFloat h s) ->
  totalInvoices (getInvoiceStats h' l) = totalInvoices (getInvoiceStats h l)
  /\ paid (scan h' l) = paid (scan h l)
  /\ paidAmount (getInvoiceStats h' l) = paidAmount (getInvoiceStats h l)
  /\ (forall acc invoice,
         Schema.status invoice <> "pending" ->
         tally h' (newDateNow h') acc invoice = tally h (newDateNow h) acc invoice).
Proof.
  intros Hp.
  pose proof (@scan_paid h h' l
                {| pending := lit 0; paid := lit 0; overdue := lit 0 |}
                {| pending := lit 0; paid := lit 0; overdue := lit 0 |}
                (newDateNow h) (newDateNow h') Hp eq_refl) as P.
  split; [reflexivity | split; [exact P | split]].
  - unfold getInvoiceStats. cbn [paidAmount]. unfold scan in P. unfold scan. now rewrite P.
  - intros acc invoice N. apply String.eqb_neq in N. unfold tally. now rewrite N, Hp.
Qed.

End MoreStatistics.

Lemma getInvoiceStats_unparsed_total_witness :
  paidAmount (getInvoiceStats (hostAt noon_2024_06_01)
                [sampleInvoice "paid" "2024-01-01" "100.00";
                 sampleInvoice "paid" "2024-01-01" "n/a"])
  = "$NaN"%string.
Proof.
  apply (proj1 (@getInvoiceStats_unparsed_total (hostAt noon_2024_06_01)
                  (sampleInvoice "paid" "2024-01-01" "n/a")
                  [sampleInvoice "paid" "2024-01-01" "100.00";
                   sampleInvoice "paid" "2024-01-01" "n/a"]
                  (or_intror (or_introl eq_refl)) eq_refl)).
  reflexivity.
Defined.

Lemma getInvoiceStats_clock_witness :
  paidAmount (getInvoiceStats (hostIn utc_minus_5 noon_2024_06_01)
                [sampleInvoice "paid" "2024-01-01" "100.00"])
  = paidAmount (getInvoiceStats (hostAt noon_2024_01_01)
                  [sampleInvoice "paid" "2024-01-01" "100.00"]).
Proof.
  apply (proj1 (proj2 (proj2 (@getInvoiceStats_clock (hostAt noon_2024_01_01)
                                (hostIn utc_minus_5 noon_2024_06_01) _
                                (fun s => eq_refl))))).
Defined.

(* ------------------------------------------------------------------ *)
(** ** The tables: lookups, deletions and the export routes *)

Section Tables.

Local Open Scope Z_scope.

Import Database Server.

(** The client the join finds for an invoice: the first row of [clients]
    with the invoice's [clientId], if there is one. *)
Lemma getInvoiceById_find (db : Db) (id : Z) :
  getInvoiceById db id
  = match find (fun invoice => Schema.id invoice =? id) (invoices db) with
    | None => None
    | Some invoice =>
        Some {| row := invoice;
                client :=
                  option_map clientData
                    (hd_error (filter (fun c => clientRowId c =? Schema.clientId invoice)
                                      (clients db)));
                items := itemsOf db id |}
    end.
Proof.
  unfold getInvoiceById, leftJoinClients.
  induction (invoices db) as [| x l IH]; [reflexivity |].
  cbn [flat_map find]. rewrite filter_app.
  destruct (Schema.id x =? id) eqn:E.
  - destruct (filter (fun c => clientRowId c =? Schema.clientId x) (clients db))
      as [| c cs]; cbn [filter map fst app hd_error option_map snd]; rewrite E; reflexivity.
  - assert (F : forall ps : list (Schema.Invoice * option ClientRow),
               Forall (fun p => fst p = x) ps ->
               filter (fun joined => Schema.id (fst joined) =? id) ps = []).
    { induction 1 as [| p ps Hp _ IHp]; [reflexivity |].
      cbn [filter]. now rewrite Hp, E. }
    rewrite F; [exact IH |].
    destruct (filter (fun c => clientRowId c =? Schema.clientId x) (clients db)) as [| c cs].
    + now repeat constructor.
    + apply Forall_forall. intros p Hp. apply in_map_iff in Hp.
      now destruct Hp as (c' & <- & _).
Qed.

Lemma find_filter_other (A : Type) (p q : A -> bool) (l : list A) :
  (forall x, p x = true -> q x = true) -> find p (filter q l) = find p l.
Proof.
  intros H. induction l as [| x l IH]; [reflexivity |].
  cbn [filter find]. destruct (p x) eqn:P.
  - rewrite (H x P). cbn [find]. now rewrite P.
  - destruct (q x); [cbn [find]; now rewrite P | exact IH].
Qed.

Lemma filter_filter_other (A : Type) (p q : A -> bool) (l : list A) :
  (forall x, p x = true -> q x = true) -> filter p (filter q l) = filter p l.
Proof.
  intros H. induction l as [| x l IH]; [reflexivity |].
  cbn [filter]. destruct (p x) eqn:P.
  - rewrite (H x P). cbn [filter]. now rewrite P, IH.
  - destruct (q x); [cbn [filter]; now rewrite P | exact IH].
Qed.

Lemma filter_filter_none (A : Type) (p q : A -> bool) (l : list A) :
  (forall x, p x = true -> q x = false) -> filter p (filter q l) = [].
Proof.
  intros H. induction l as [| x l IH]; [reflexivity |].
  cbn [filter]. destruct (q x) eqn:Q; [| exact IH].
  cbn [filter]. destruct (p x) eqn:P; [| exact IH].
  rewrite (H x P) in Q. discriminate.
Qed.

Lemma find_filter_none (A : Type) (p q : A -> bool) (l : list A) :
  (forall x, p x = true -> q x = false) -> find p (filter q l) = None.
Proof.
  intros H. induction l as [| x l IH]; [reflexivity |].
  cbn [filter]. destruct (q x) eqn:Q; [| exact IH].
  cbn [find]. destruct (p x) eqn:P; [| exact IH].
  rewrite (H x P) in Q. discriminate.
Qed.

(** X25.  After [deleteInvoice(id)] the invoice is not found, no item of
    the table belongs to it, and both export routes answer 404 for it; the
    lookup of every other invoice gives what it gave before, and the
    clients are untouched. *)
Theorem deleteInvoice_spec (h : Host) (db : Db) (id : Z) :
  getInvoiceById (deleteInvoice db id) id = None
  /\ itemsOf (deleteInvoice db id) id = []
  /\ exportPdf h (deleteInvoice db id) id = NotFound404
  /\ exportExcel (deleteInvoice db id) id = NotFound404
  /\ (forall id', id' <> id ->
         getInvoiceById (deleteInvoice db id) id' = getInvoiceById db id')
  /\ clients (deleteInvoice db id) = clients db.
Proof.
  assert (G : getInvoiceById (deleteInvoice db id) id = None).
  { rewrite getInvoiceById_find. unfold deleteInvoice. cbv zeta. cbn [invoices].
    rewrite find_filter_none; [reflexivity |].
    intros x E. now rewrite E. }
  split; [exact G | split; [| split; [| split; [| split]]]].
  - unfold itemsOf, deleteInvoice. cbv zeta. cbn [invoiceItems].
    rewrite filter_filter_none; [reflexivity |].
    intros x E. now rewrite E.
  - unfold exportPdf. now rewrite G.
  - unfold exportExcel. now rewrite G.
  - intros id' N. rewrite !getInvoiceById_find.
    unfold itemsOf, deleteInvoice. cbv zeta. cbn [invoices clients invoiceItems].
    rewrite find_filter_other.
    + 
      rewrite filter_filter_other; [reflexivity |].
      intros x E. apply Z.eqb_eq in E. rewrite E.
      apply negb_true_iff. now apply Z.eqb_neq.
    + intros x E. apply Z.eqb_eq in E. rewrite E.
      apply negb_true_iff. now apply Z.eqb_neq.
  - reflexivity.
Qed.

(** X26.  Nothing ties an invoice to its client in the tables: after
    [deleteClient] the client is not found, the invoices of the client are
    still found, without a client, and both export routes answer 500 for
    them. *)
Theorem deleteClient_exports (h : Host) (db : Db) (id : Z) (r : InvoiceResult) :
  getInvoiceById db id = Some r ->
  getClientById (deleteClient db (Schema.clientId (row r))) (Schema.clientId (row r)) = None
  /\ getInvoiceById (deleteClient db (Schema.clientId (row r))) id
     = Some {| row := row r; client := None; items := items r |}
  /\ exportPdf h (deleteClient db (Schema.clientId (row r))) id = Failed500
  /\ exportExcel (deleteClient db (Schema.clientId (row r))) id = Failed500.
Proof.
  intros E.
  split.
  { unfold getClientById. cbn [deleteClient clients].
    rewrite filter_filter_none; [reflexivity |].
    intros c Hc. now rewrite Hc. }
  assert (G : getInvoiceById (deleteClient db (Schema.clientId (row r))) id
              = Some {| row := row r; client := None; items := items r |}).
  { rewrite getInvoiceById_find in *. cbn [deleteClient invoices clients].
    destruct (find (fun invoice => Schema.id invoice =? id) (invoices db)) as [x |];
      [| discriminate].
    injection E as <-. cbn [row items]. f_equal. f_equal.
    rewrite filter_filter_none; [reflexivity |].
    intros c Hc. now rewrite Hc. }
  split; [exact G | split].
  - unfold exportPdf. now rewrite G.
  - unfold exportExcel. now rewrite G.
Qed.

(** X27.  The two export routes answer alike.  They answer 404 exactly
    when no invoice has the id, and 500 exactly when the first invoice
    with the id has no client row; otherwise they answer with the document
    of that invoice, its client and its items. *)
Theorem export_answers (h : Host) (db : Db) (id : Z) :
  (exportPdf h db id = NotFound404
   <-> forall invoice, In invoice (invoices db) -> Schema.id invoice <> id)
  /\ (exportPdf h db id = NotFound404 <-> exportExcel db id = NotFound404)
  /\ (exportPdf h db id = Failed500 <-> exportExcel db id = Failed500)
  /\ (exportPdf h db id = Failed500
      <-> exists invoice,
            find (fun invoice => Schema.id invoice =? id) (invoices db) = Some invoice
            /\ forall c, In c (clients db) -> clientRowId c <> Schema.clientId invoice)
  /\ (forall invoice c,
         find (fun invoice => Schema.id invoice =? id) (invoices db) = Some invoice ->
         hd_error (filter (fun c => clientRowId c =? Schema.clientId invoice) (clients db))
         = Some c ->
         let details :=
           {| Schema.invoice := invoice; Schema.client := clientData c;
              Schema.items := itemsOf db id |} in
         exportPdf h db id = Document (Routes.renderPdf h details)
         /\ exportExcel db id = Document (Routes.invoiceData details)).
Proof.
  unfold exportPdf, exportExcel, withClient. rewrite getInvoiceById_find.
  destruct (find (fun invoice => Schema.id invoice =? id) (invoices db)) as [x |] eqn:F.
  - cbn [client row items].
    destruct (filter (fun c => clientRowId c =? Schema.clientId x) (clients db))
      as [| c cs] eqn:C; cbn [hd_error option_map].
    + split; [| split; [| split; [| split]]].
      * split; [discriminate |]. intros H.
        apply find_some in F. destruct F as [Hin E]. apply Z.eqb_eq in E.
        now destruct (H x Hin).
      * split; discriminate.
      * split; reflexivity.
      * split; [intros _ | reflexivity].
        exists x. split; [reflexivity |]. intros c Hc Ec.
        assert (Hf : In c (filter (fun c => clientRowId c =? Schema.clientId x) (clients db)))
          by (apply filter_In; split; [exact Hc | now apply Z.eqb_eq]).
        rewrite C in Hf. contradiction.
      * intros invoice c Ei Hd. injection Ei as <-. rewrite C in Hd. discriminate.
    + split; [| split; [| split; [| split]]].
      * split; [discriminate |]. intros H.
        apply find_some in F. destruct F as [Hin E]. apply Z.eqb_eq in E.
        now destruct (H x Hin).
      * split; discriminate.
      * split; discriminate.
      * split; [discriminate |]. intros (invoice & Ei & Hn). injection Ei as <-.
        assert (Hf : In c (filter (fun c => clientRowId c =? Schema.clientId x) (clients db)))
          by (rewrite C; now left).
        apply filter_In in Hf. destruct Hf as [Hin Ec]. apply Z.eqb_eq in Ec.
        now destruct (Hn c Hin).
      * intros invoice c' Ei Hd. injection Ei as <-. rewrite C in Hd.
        injection Hd as <-. split; reflexivity.
  - split; [| split; [| split; [| split]]].
    + split; [intros _ | reflexivity]. intros invoice Hin E.
      pose proof (find_none _ _ F invoice Hin) as N. cbn in N.
      apply Z.eqb_neq in N. contradiction.
    + split; reflexivity.
    + split; discriminate.
    + split; [discriminate | intros (invoice & Ei & _); discriminate].
    + intros invoice c Ei. discriminate.
Qed.

(** X28.  The statistics of a user count the rows of that user only: a
    user without invoices gets zero and "$0.00" three times, and deleting
    an invoice of somebody else does not change the statistics. *)
Theorem getInvoiceStats_user (h : Host) (db : Db) (userId id : Z) :
  ((forall invoice, In invoice (invoices db) -> Schema.userId invoice <> userId) ->
   Database.getInvoiceStats h db userId
   = {| totalInvoices := 0; pendingAmount := "$0.00";
        paidAmount := "$0.00"; overdueAmount := "$0.00" |})
  /\ ((forall invoice, In invoice (invoices db) -> Schema.id invoice = id ->
                       Schema.userId invoice <> userId) ->
      Database.getInvoiceStats h (deleteInvoice db id) userId
      = Database.getInvoiceStats h db userId).
Proof.
  unfold Database.getInvoiceStats. split.
  - intros H.
    assert (E : filter (fun invoice => Schema.userId invoice =? userId) (invoices db) = []).
    { induction (invoices db) as [| x l IH]; [reflexivity |].
      cbn [filter]. destruct (Z.eqb_spec (Schema.userId x) userId) as [E | _].
      - now destruct (H x (or_introl eq_refl)).
      - apply IH. intros y Hy. apply H. now right. }
    rewrite E. vm_compute. reflexivity.
  - intros H. unfold deleteInvoice. cbv zeta. cbn [invoices]. f_equal.
    induction (invoices db) as [| x l IH]; [reflexivity |].
    cbn [filter].
    destruct (Z.eqb_spec (Schema.id x) id) as [E | N]; cbn [negb filter].
    + destruct (Z.eqb_spec (Schema.userId x) userId) as [U | _].
      * now destruct (H x (or_introl eq_refl) E).
      * apply IH. intros y Hy. apply H. now right.
    + destruct (Schema.userId x =? userId).
      * f_equal. apply IH. intros y Hy. apply H. now right.
      * apply IH. intros y Hy. apply H. now right.
Qed.

End Tables.

Lemma deleteInvoice_spec_witness :
  Database.getInvoiceById (Database.deleteInvoice Samples.sampleDb 1) 7
  = Database.getInvoiceById Samples.sampleDb 7.
Proof.
  apply (proj1 (proj2 (proj2 (proj2 (proj2
           (deleteInvoice_spec (hostAt noon_2024_01_01) Samples.sampleDb 1)))))).
  discriminate.
Defined.

Lemma deleteClient_exports_witness :
  exists r,
    Database.getInvoiceById Samples.sampleDb 7 = Some r
    /\ Schema.clientId (Database.row r) = 3%Z
    /\ Server.exportPdf (hostAt noon_2024_01_01)
         (Database.deleteClient Samples.sampleDb (Schema.clientId (Database.row r))) 7
       = Server.Failed500.
Proof.
  eexists. split; [reflexivity | split; [reflexivity |]].
  apply (proj1 (proj2 (proj2 (@deleteClient_exports (hostAt noon_2024_01_01)
                                Samples.sampleDb 7 _ eq_refl)))).
Defined.

Lemma export_answers_witness :
  Server.exportPdf (hostAt noon_2024_01_01) Samples.sampleDb 7
  = Server.Document (Routes.renderPdf (hostAt noon_2024_01_01) sampleDetails)
  /\ Server.exportExcel Samples.sampleDb 7
     = Server.Document (Routes.invoiceData sampleDetails).
Proof.
  apply (proj2 (proj2 (proj2 (proj2
           (export_answers (hostAt noon_2024_01_01) Samples.sampleDb 7))))
           (Schema.invoice sampleDetails)
           {| Database.clientRowId := 3; Database.clientUserId := 1;
              Database.clientData := Schema.client sampleDetails |});
    reflexivity.
Defined.

Lemma getInvoiceStats_user_witness :
  Database.getInvoiceStats (hostAt noon_2024_01_01) Samples.sampleDb 2
  = {| totalInvoices := 0; pendingAmount := "$0.00";
       paidAmount := "$0.00"; overdueAmount := "$0.00" |}.
Proof.
  apply (proj1 (getInvoiceStats_user (hostAt noon_2024_01_01) Samples.sampleDb 2 0)).
  intros invoice [<- | [<- | []]]; discriminate.
Defined.

(* ------------------------------------------------------------------ *)
(** ** The geometry of the PDF *)

Section PdfGeometry.

Local Open Scope string_scope.
Local Open Scope Z_scope.

Import Samples.

Variable h : Host.
Variable invoice : Schema.InvoiceWithDetails.

Lemma totalsBlock_explicit (y : Z) :
  totalsBlock h invoice y
  = ([Text ("Subtotal: $" ++ Schema.subtotal (Schema.invoice invoice)) 120 (y + 10)]
     ++ match positivePercent h (Schema.discount (Schema.invoice invoice)) with
        | Some d => [Text ("Discount: " ++ d ++ "%") 120 (y + 20)]
        | None => []
        end
     ++ match positivePercent h (Schema.tax (Schema.invoice invoice)) with
        | Some t =>
            [Text ("Tax: " ++ t ++ "%") 120
                  (y + 20 + lineShift h (Schema.discount (Schema.invoice invoice)))]
        | None => []
        end
     ++ [Text ("Total: $" ++ Schema.total (Schema.invoice invoice)) 120
              (y + 20 + lineShift h (Schema.discount (Schema.invoice invoice))
               + lineShift h (Schema.tax (Schema.invoice invoice)))])%list.
Proof.
  unfold totalsBlock, addTotals, text, lineShift.
  destruct (positivePercent h (Schema.discount (Schema.invoice invoice)));
    destruct (positivePercent h (Schema.tax (Schema.invoice invoice)));
    cbn [app];
    repeat match goal with
           | |- cons _ _ = cons _ _ => apply f_equal2
           | |- Text _ _ _ = Text _ _ _ => apply f_equal; lia
           | |- _ => reflexivity
           end.
Qed.

Lemma itemLines_length (items : list Schema.InvoiceItem) (y : Z) :
  List.length (itemLines items y) = (4 * List.length items)%nat.
Proof.
  revert y. induction items as [| item items IH]; intros y; [reflexivity |].
  cbn [itemLines List.length app]. rewrite IH. lia.
Qed.

Lemma itemLines_nth (items : list Schema.InvoiceItem) (y : Z) (i : nat)
      (item : Schema.InvoiceItem) :
  nth_error items i = Some item ->
  incl [ Text (Schema.description item) 20 (y + 10 * Z.of_nat i);
         Text (Schema.quantity item) 120 (y + 10 * Z.of_nat i);
         Text ("$" ++ Schema.rate item) 140 (y + 10 * Z.of_nat i);
         Text ("$" ++ Schema.amount item) 160 (y + 10 * Z.of_nat i) ]
       (itemLines items y).
Proof.
  revert y i. induction items as [| x items IH]; intros y [| i] E; try discriminate.
  - injection E as ->. cbn [itemLines]. replace (y + 10 * Z.of_nat 0) with y by lia.
    intros op Hop. apply in_or_app. now left.
  - cbn [itemLines]. intros op Hop. apply in_or_app. right.
    apply (IH (y + 10) i E).
    replace (y + 10 + 10 * Z.of_nat i) with (y + 10 * Z.of_nat (S i)) by lia.
    exact Hop.
Qed.

(** X29.  The layout has no page break: each item takes a line of its own
    10 units below the one before, starting at 140, and the total is drawn
    below everything, at [160 + 10 * items + 10] for each of the discount
    and tax lines present.  The document is made of
    [14 + 4 * items] calls plus one for each of the address, discount and
    tax lines present. *)
Theorem renderPdf_geometry :
  let doc := renderPdf h invoice in
  let n := List.length (Schema.items invoice) in
  last doc (SetFontSize 0)
  = Text ("Total: $" ++ Schema.total (Schema.invoice invoice)) 120
         (160 + 10 * Z.of_nat n
          + lineShift h (Schema.discount (Schema.invoice invoice))
          + lineShift h (Schema.tax (Schema.invoice invoice)))
  /\ List.length doc
     = (14 + 4 * n + addressCount invoice
        + lineCount h (Schema.discount (Schema.invoice invoice))
        + lineCount h (Schema.tax (Schema.invoice invoice)))%nat
  /\ (forall i item,
         nth_error (Schema.items invoice) i = Some item ->
         incl [ Text (Schema.description item) 20 (140 + 10 * Z.of_nat i);
                Text (Schema.quantity item) 120 (140 + 10 * Z.of_nat i);
                Text ("$" ++ Schema.rate item) 140 (140 + 10 * Z.of_nat i);
                Text ("$" ++ Schema.amount item) 160 (140 + 10 * Z.of_nat i) ]
              doc).
Proof.
  cbv zeta. rewrite (renderPdf_parts h invoice), totalsBlock_explicit.
  split; [| split].
  - rewrite !app_assoc. rewrite last_app_singleton. f_equal. lia.
  - rewrite !length_app, itemLines_length.
    unfold addressLine, addressCount, truthyOpt, lineCount.
    destruct (Schema.address (Schema.client invoice)) as [a |];
      [destruct (truthyStr a) |];
      destruct (positivePercent h (Schema.discount (Schema.invoice invoice)));
      destruct (positivePercent h (Schema.tax (Schema.invoice invoice)));
      cbn [List.length fixedLines tableHead]; lia.
  - intros i item E op Hop.
    apply in_or_app. right. apply in_or_app. right. apply in_or_app. right.
    apply in_or_app. left. exact (itemLines_nth _ 140 i E Hop).
Qed.

End PdfGeometry.

Lemma renderPdf_geometry_witness :
  incl [ Text "Hosting" 20 150; Text "1.00" 120 150;
         Text "$25.00" 140 150; Text "$25.00" 160 150 ]%string%Z
       (renderPdf (hostAt noon_2024_01_01) sampleDetails).
Proof.
  apply (proj2 (proj2 (renderPdf_geometry (hostAt noon_2024_01_01) sampleDetails))
           1%nat
           {| Schema.description := "Hosting"; Schema.quantity := "1.00";
              Schema.rate := "25.00"; Schema.amount := "25.00" |}).
  reflexivity.
Defined.
